(** * log4go: category dispatch, pattern rendering and the rotating file sink

    A shallow embedding of the Go package [log4go] (jeanphorn/log4go):
    - the category router: [LOGGER] and the methods [intLogf], [intLogc] and
      [Log] of [Filter];
    - the pattern engine of pattlog.go: [FormatLogRecord] and
      [changeDttmFormat];
    - the rotating file writer: [FileLogWriter] with [intRotate],
      [getCurrBackup] and the consumer loop started by [NewFileLogWriter].

    Conventions of the embedding.
    - Go strings are byte strings and are modelled by [string]; Go [int] is
      a 64-bit signed integer, modelled by [Z] with the wrap-around of every
      increment written out ([int_wrap]).
    - A record behind a pointer that the code assigns to ([*LogRecord],
      [*Filter], [*FileLogWriter]) is passed through the function and
      returned; the package variables [Global] and [formatCache] are passed
      in and out in the same way.
    - The standard library is not modelled: [time.Time.Format] and
      [fmt.Sprintf] on arbitrary arguments are parameters, and so is the
      table [levelStrings]; a [time.Time] is the record of what the code
      reads from it.
    - The file system is a finite map from paths to files.  The calls that
      can be refused and the clock are given by an environment per message
      of the consumer loop: the clock does not advance while one message is
      handled.
    - A function that can panic on a nil pointer returns [None] there. *)

From Stdlib Require Import ZArith Lia Ascii String.
From stdpp Require Import base strings list gmap pretty.

Local Open Scope string_scope.
Local Open Scope list_scope.
Local Open Scope Z_scope.

(** ** Machine integers *)

Definition int_min : Z := - 2 ^ 63.
Definition int_max : Z := 2 ^ 63 - 1.

(** Two's complement wrap-around of a 64-bit signed Go [int]. *)
Definition int_wrap (z : Z) : Z := (z + 2 ^ 63) mod 2 ^ 64 - 2 ^ 63.

Definition is_int (z : Z) : Prop := int_min <= z <= int_max.

(** ** Levels, time stamps and records *)

(** [type Level int] with the constants FINEST .. CRITICAL, in the order
    of their values 0 .. 7; the code builds no other level. *)
Inductive Level : Set :=
  | FINEST | FINE | DEBUG | TRACE | INFO | WARNING | ERROR | CRITICAL.

Definition level_rank (l : Level) : Z :=
  match l with
  | FINEST => 0 | FINE => 1 | DEBUG => 2 | TRACE => 3
  | INFO => 4 | WARNING => 5 | ERROR => 6 | CRITICAL => 7
  end.

(** Go's [>=] and [>] on levels. *)
Definition level_ge (a b : Level) : bool := level_rank b <=? level_rank a.
Definition level_gt (a b : Level) : bool := level_rank b <? level_rank a.

(** What the code reads off a [time.Time]: the results of [UnixNano()],
    [UnixMicro()], [Year()], [Month()], [Day()], [Hour()], [Minute()],
    [Second()], the zone abbreviation of [Zone()], and the names that
    [Weekday().String()] and [Month().String()] give. *)
Record Time : Set := mkTime {
  t_unixnano : Z;
  t_unixmicro : Z;
  t_year : Z;
  t_month : Z;
  t_day : Z;
  t_hour : Z;
  t_minute : Z;
  t_second : Z;
  t_zone : string;
  t_weekday : string;
  t_monthname : string
}.

Record LogRecord : Set := mkLogRecord {
  Level_ : Level;
  Created : Time;
  Source : string;
  Message : string;
  Category : string
}.

Definition set_Message (r : LogRecord) (m : string) : LogRecord :=
  mkLogRecord (Level_ r) (Created r) (Source r) m (Category r).

Definition set_Category (r : LogRecord) (c : string) : LogRecord :=
  mkLogRecord (Level_ r) (Created r) (Source r) (Message r) c.

(** [&LogRecord{Created: t}]: every other field has its zero value. *)
Definition emptyRecordAt (t : Time) : LogRecord :=
  mkLogRecord FINEST t "" "" "".

(** ** The category router *)

Module Router.

(** A [LogWriter] is identified by a sink number; a call [LogWrite(rec)] on
    it is recorded as the pair of the sink and the record. *)
Definition SinkId : Set := nat.

(** [type Filter struct { Level; LogWriter; Category string }] *)
Record Filter : Set := mkFilter {
  FLevel : Level;
  FWriter : SinkId;
  FCategory : string
}.

Definition set_FCategory (f : Filter) (c : string) : Filter :=
  mkFilter (FLevel f) (FWriter f) c.

(** [type Logger map[string]*Filter]; every key owns its [Filter] object, so
    a [*Filter] obtained from the map is the key it is stored under, and a
    mutation through the pointer is an update of the entry. *)
Abbreviation Logger := (gmap string Filter).

(** [LOGGER(category)]: the resolved filter (after the category patch) and
    the registry holding the patched object.  [None] is the nil-pointer
    panic of [f.Category = "DEFAULT"] when there is no "stdout" entry. *)
Definition LOGGER (Global : Logger) (category : string)
  : option (Logger * Filter) :=
  match Global !! category with
  | None =>
      match Global !! "stdout" with
      | None => None
      | Some f =>
          let f' := set_FCategory f "DEFAULT" in
          Some (<["stdout" := f']> Global, f')
      end
  | Some f =>
      let f' := set_FCategory f category in
      Some (<[category := f']> Global, f')
  end.

Definition Write : Set := (SinkId * LogRecord)%type.

(** The tail shared by [intLogf], [intLogc] and [Log]: lines 63-71. *)
Definition dispatch (Global : Logger) (f : Filter) (lvl : Level)
    (rec : LogRecord) : option (list Write) :=
  match Global !! "stdout" with
  | None => None
  | Some default_filter =>
      let w1 := if level_gt lvl (FLevel default_filter)
                then [(FWriter default_filter, rec)] else [] in
      let w2 := if negb (String.eqb (FCategory f) "DEFAULT")
                   && negb (String.eqb (FCategory f) "stdout")
                then [(FWriter f, rec)] else [] in
      Some (w1 ++ w2)
  end.

Section Calls.

(** [fmt.Sprintf], over already printed arguments. *)
Variable Sprintf : string -> list string -> string.

(** What the call reads from its surroundings: [time.Now()] and the source
    string built from [runtime.Caller(2)] (empty when it fails). *)
Variable now : Time.
Variable src : string.

(** [func (f *Filter) intLogf(lvl Level, format string, args ...interface{})].
    The result is the list of [LogWrite] calls, in order. *)
Definition intLogf (Global : Logger) (f : Filter) (lvl : Level)
    (format : string) (args : list string) : option (list Write) :=
  if negb (level_ge lvl (FLevel f)) then Some []
  else
    let msg := if (0 <? Z.of_nat (length args)) then Sprintf format args
               else format in
    let rec := mkLogRecord lvl now src msg (FCategory f) in
    dispatch Global f lvl rec.

(** [func (f *Filter) intLogc(lvl Level, closure func() string)] *)
Definition intLogc (Global : Logger) (f : Filter) (lvl : Level)
    (closure : unit -> string) : option (list Write) :=
  if negb (level_ge lvl (FLevel f)) then Some []
  else
    let rec := mkLogRecord lvl now src (closure tt) (FCategory f) in
    dispatch Global f lvl rec.

(** [func (f *Filter) Log(lvl Level, source, message string)] *)
Definition Log (Global : Logger) (f : Filter) (lvl : Level)
    (source message : string) : option (list Write) :=
  if negb (level_ge lvl (FLevel f)) then Some []
  else
    let rec := mkLogRecord lvl now source message (FCategory f) in
    dispatch Global f lvl rec.

(** [LOGGER(category).Info(format)] with a string argument and no further
    arguments. *)
Definition LOGGER_Info (Global : Logger) (category format : string)
  : option (list Write) :=
  match LOGGER Global category with
  | None => None
  | Some (Global', f) => intLogf Global' f INFO format []
  end.

(** [LOGGER(category).Logf(lvl, format)] *)
Definition LOGGER_Logf (Global : Logger) (category : string) (lvl : Level)
    (format : string) : option (list Write) :=
  match LOGGER Global category with
  | None => None
  | Some (Global', f) => intLogf Global' f lvl format []
  end.

End Calls.

(** How many times a sink was written to. *)
Definition writes_to (s : SinkId) (ws : list Write) : nat :=
  length (filter (fun w => w.1 = s) ws).

End Router.

(** ** The leveled methods of [Filter] *)

Module Facade.
Import Router.

(** The first argument of a leveled method, by the cases of the type
    switch: a string, a [func() string], or any other value, given by what
    [fmt.Sprint] prints for it. *)
Inductive Arg0 : Type :=
  | ArgString (first : string)
  | ArgClosure (first : unit -> string)
  | ArgOther (printed : string).

(** [strings.Repeat(s, n)] *)
Fixpoint Repeat (s : string) (n : nat) : string :=
  match n with
  | O => ""
  | S k => s +:+ Repeat s k
  end.

Section Methods.

Variable Sprintf : string -> list string -> string.
Variable now : Time.
Variable src : string.

(** [Finest], [Fine], [Debug], [Trace] and [Info]: the body shared by the
    five methods, for their constant [lvl]. *)
Definition lazyLevel (lvl : Level) (Global : Logger) (f : Filter)
    (arg0 : Arg0) (args : list string) : option (list Write) :=
  match arg0 with
  | ArgString first => intLogf Sprintf now src Global f lvl first args
  | ArgClosure first => intLogc now src Global f lvl first
  | ArgOther printed =>
      intLogf Sprintf now src Global f lvl
        (printed +:+ Repeat " %v" (length args)) args
  end.

(** [Warn], [Error] and [Critical]: the message is built before the call of
    [intLogf], which gets no further arguments. *)
Definition eagerLevel (lvl : Level) (Global : Logger) (f : Filter)
    (arg0 : Arg0) (args : list string) : option (list Write) :=
  let msg := match arg0 with
             | ArgString first => Sprintf first args
             | ArgClosure first => first tt
             | ArgOther printed =>
                 Sprintf (printed +:+ Repeat " %v" (length args)) args
             end in
  intLogf Sprintf now src Global f lvl msg [].

Definition Finest := lazyLevel FINEST.
Definition Fine := lazyLevel FINE.
Definition Debug := lazyLevel DEBUG.
Definition Trace := lazyLevel TRACE.
Definition Info := lazyLevel INFO.
Definition Warn := eagerLevel WARNING.
Definition Error := eagerLevel ERROR.
Definition Critical := eagerLevel CRITICAL.

(** [Logf] and [Logc] *)
Definition Logf (Global : Logger) (f : Filter) (lvl : Level)
    (format : string) (args : list string) : option (list Write) :=
  intLogf Sprintf now src Global f lvl format args.

Definition Logc (Global : Logger) (f : Filter) (lvl : Level)
    (closure : unit -> string) : option (list Write) :=
  intLogc now src Global f lvl closure.

(** The message that a leveled method gives to the record. *)
Definition lazyMessage (arg0 : Arg0) (args : list string) : string :=
  match arg0 with
  | ArgString first =>
      match args with [] => first | _ => Sprintf first args end
  | ArgClosure first => first tt
  | ArgOther printed =>
      match args with
      | [] => printed
      | _ => Sprintf (printed +:+ Repeat " %v" (length args)) args
      end
  end.

Definition eagerMessage (arg0 : Arg0) (args : list string) : string :=
  match arg0 with
  | ArgString first => Sprintf first args
  | ArgClosure first => first tt
  | ArgOther printed =>
      Sprintf (printed +:+ Repeat " %v" (length args)) args
  end.

End Methods.

End Facade.

(** ** The JSON configuration (jsonconfig.go) *)

Module Config.
Import Router.

(** [type ConsoleConfig struct] *)
Record ConsoleConfig : Set := mkConsoleConfig {
  console_Enable : bool;
  console_Level : string;
  console_Pattern : string
}.

(** [type FileConfig struct] *)
Record FileConfig : Set := mkFileConfig {
  file_Enable : bool;
  file_Category : string;
  file_Level : string;
  file_Filename : string;
  file_Pattern : string;
  file_Rotate : bool;
  file_Maxsize : string;
  file_Maxlines : string;
  file_Daily : bool;
  file_Sanitize : bool
}.

(** [type SocketConfig struct] *)
Record SocketConfig : Set := mkSocketConfig {
  socket_Enable : bool;
  socket_Category : string;
  socket_Level : string;
  socket_Pattern : string;
  socket_Addr : string;
  socket_Protocol : string
}.

(** [type LogConfig struct]: the fields are pointers, [None] is nil (a
    section or an element that the document leaves out or gives as null). *)
Record LogConfig : Set := mkLogConfig {
  Console : option ConsoleConfig;
  Files : list (option FileConfig);
  Sockets : list (option SocketConfig)
}.

(** How a call ends: it returns, the process leaves through [os.Exit(1)],
    or a nil pointer is dereferenced. *)
Inductive Result (A : Type) : Type :=
  | Done (a : A)
  | Exit1
  | Panic.
Arguments Done {A} a.
Arguments Exit1 {A}.
Arguments Panic {A}.

Definition bind {A B : Type} (r : Result A) (k : A -> Result B) : Result B :=
  match r with
  | Done a => k a
  | Exit1 => Exit1
  | Panic => Panic
  end.

(** [func getLogLevel(l string) Level]; the default case exits. *)
Definition getLogLevel (l : string) : Result Level :=
  if String.eqb l "FINEST" then Done FINEST
  else if String.eqb l "FINE" then Done FINE
  else if String.eqb l "DEBUG" then Done DEBUG
  else if String.eqb l "TRACE" then Done TRACE
  else if String.eqb l "INFO" then Done INFO
  else if String.eqb l "WARNING" then Done WARNING
  else if String.eqb l "ERROR" then Done ERROR
  else if String.eqb l "CRITICAL" then Done CRITICAL
  else Exit1.

(** The names that [getLogLevel] reads. *)
Definition levelName (l : Level) : string :=
  match l with
  | FINEST => "FINEST" | FINE => "FINE" | DEBUG => "DEBUG" | TRACE => "TRACE"
  | INFO => "INFO" | WARNING => "WARNING" | ERROR => "ERROR"
  | CRITICAL => "CRITICAL"
  end.

(** The cutset [" \r\n"]. *)
Definition in_cutset (c : ascii) : bool :=
  Ascii.eqb c " " || Ascii.eqb c (Ascii.ascii_of_nat 13)
  || Ascii.eqb c (Ascii.ascii_of_nat 10).

Fixpoint TrimLeft (s : string) : string :=
  match s with
  | "" => ""
  | String c s' => if in_cutset c then TrimLeft s' else s
  end.

Fixpoint TrimRight (s : string) : string :=
  match s with
  | "" => ""
  | String c s' =>
      match TrimRight s' with
      | "" => if in_cutset c then "" else String c ""
      | r => String c r
      end
  end.

(** [strings.Trim(s, " \r\n")] *)
Definition Trim (s : string) : string := TrimRight (TrimLeft s).

(** What [jsonToFileLogWriter] passes to the constructor and the setters
    of the file writer. *)
Record FileSettings : Set := mkFileSettings {
  cfg_file : string;
  cfg_format : string;
  cfg_maxlines : Z;
  cfg_maxsize : Z;
  cfg_daily : bool;
  cfg_rotate : bool;
  cfg_sanitize : bool
}.

(** The writers that the loader creates, by what they are created with. *)
Inductive Writer : Set :=
  | ConsoleWriter (format : string)
  | FileWriter (settings : FileSettings)
  | SocketWriter (protocol endpoint : string).

Definition defaultPattern : string := "[%D %T] [%C] [%L] (%S) %M".

Section Loader.

(** [strToNumSuffix(str, mult)] of the package. *)
Variable strToNumSuffix : string -> Z -> Z.

(** [jsonToConsoleLogWriter], for an enabled section. *)
Definition jsonToConsoleLogWriter (cf : ConsoleConfig) : Writer :=
  let format := if (0 <? Z.of_nat (String.length (console_Pattern cf)))
                then Trim (console_Pattern cf) else defaultPattern in
  ConsoleWriter format.

(** [jsonToFileLogWriter], for an enabled entry. *)
Definition jsonToFileLogWriter (ff : FileConfig) : Writer :=
  let file := if (0 <? Z.of_nat (String.length (file_Filename ff)))
              then file_Filename ff else "app.log" in
  let format := if (0 <? Z.of_nat (String.length (file_Pattern ff)))
                then Trim (file_Pattern ff) else defaultPattern in
  let maxlines := if (0 <? Z.of_nat (String.length (file_Maxlines ff)))
                  then strToNumSuffix (Trim (file_Maxlines ff)) 1000
                  else 0 in
  let maxsize := if (0 <? Z.of_nat (String.length (file_Maxsize ff)))
                 then strToNumSuffix (Trim (file_Maxsize ff)) 1024
                 else 0 in
  FileWriter (mkFileSettings file format maxlines maxsize (file_Daily ff)
              (file_Rotate ff) (file_Sanitize ff)).

(** [jsonToSocketLogWriter], for an enabled entry: an empty address exits,
    a protocol other than tcp and udp is reported and replaced by tcp. *)
Definition jsonToSocketLogWriter (sf : SocketConfig) : Result Writer :=
  if (Z.of_nat (String.length (socket_Addr sf)) =? 0) then Exit1
  else
    let protocol :=
      if (0 <? Z.of_nat (String.length (socket_Protocol sf)))
      then if negb (String.eqb (socket_Protocol sf) "tcp")
              && negb (String.eqb (socket_Protocol sf) "udp")
           then "tcp" else socket_Protocol sf
      else "tcp" in
    Done (SocketWriter protocol (socket_Addr sf)).

(** The registry and the writers created so far; a new writer gets the
    next number. *)
Definition State : Type := (Logger * list Writer)%type.

(** [log[key] = &Filter{getLogLevel(level), filt, category}]: the writer
    exists before the level is read. *)
Definition register (st : State) (key level category : string) (sink : Writer)
  : Result State :=
  let '(log, sinks) := st in
  let sinks' := sinks ++ [sink] in
  bind (getLogLevel level) (fun lvl =>
    Done (<[key := mkFilter lvl (length sinks) category]> log, sinks')).

Definition loadConsole (st : State) (console : option ConsoleConfig)
  : Result State :=
  match console with
  | None => Panic
  | Some cf =>
      if console_Enable cf
      then register st "stdout" (console_Level cf) "DEFAULT"
             (jsonToConsoleLogWriter cf)
      else Done st
  end.

Definition loadFile (st : State) (entry : option FileConfig) : Result State :=
  match entry with
  | None => Panic
  | Some fc =>
      if negb (file_Enable fc) then Done st
      else if (Z.of_nat (String.length (file_Category fc)) =? 0) then Exit1
      else register st (file_Category fc) (file_Level fc) (file_Category fc)
             (jsonToFileLogWriter fc)
  end.

Definition loadSocket (st : State) (entry : option SocketConfig)
  : Result State :=
  match entry with
  | None => Panic
  | Some sc =>
      if negb (socket_Enable sc) then Done st
      else if (Z.of_nat (String.length (socket_Category sc)) =? 0) then Exit1
      else bind (jsonToSocketLogWriter sc) (fun sink =>
             register st (socket_Category sc) (socket_Level sc)
               (socket_Category sc) sink)
  end.

(** A [for _, e := range entries] whose body can end the process. *)
Fixpoint each {A : Type} (step : State -> A -> Result State) (st : State)
    (entries : list A) : Result State :=
  match entries with
  | [] => Done st
  | e :: rest => bind (step st e) (fun st' => each step st' rest)
  end.

(** [LoadJsonConfiguration] from line 88 on: [st] holds the registry as
    [log.Close()] leaves it, [lc] is the decoded document. *)
Definition loadFilters (st : State) (lc : LogConfig) : Result State :=
  bind (loadConsole st (Console lc)) (fun st =>
  bind (each loadFile st (Files lc)) (fun st =>
  each loadSocket st (Sockets lc))).

End Loader.

(** The configuration without the entries that are present but disabled. *)
Definition enabledOnly (lc : LogConfig) : LogConfig :=
  mkLogConfig (Console lc)
    (List.filter (fun e => match e with
                           | Some fc => file_Enable fc
                           | None => true
                           end) (Files lc))
    (List.filter (fun e => match e with
                           | Some sc => socket_Enable sc
                           | None => true
                           end) (Sockets lc)).

(** An entry of "files", and one of "sockets", that is present and not
    enabled. *)
Definition file_off (e : option FileConfig) : Prop :=
  exists fc, e = Some fc /\ file_Enable fc = false.
Definition socket_off (e : option SocketConfig) : Prop :=
  exists sc, e = Some sc /\ socket_Enable sc = false.

(** The categories that the enabled entries of a configuration name. *)
Definition categories (lc : LogConfig) : list string :=
  (match Console lc with
   | Some cf => if console_Enable cf then ["stdout"] else []
   | None => []
   end)
  ++ omap (fun e => match e with
                    | Some fc => if file_Enable fc
                                 then Some (file_Category fc) else None
                    | None => None
                    end) (Files lc)
  ++ omap (fun e => match e with
                    | Some sc => if socket_Enable sc
                                 then Some (socket_Category sc) else None
                    | None => None
                    end) (Sockets lc).

(** The filters that a load leaves in the registry: the old ones, or new
    ones under one of the categories [cats], labelled with their key (or
    with "DEFAULT" under "stdout"), with a writer created by the load. *)
Definition loaded (cats : list string) (st0 st : State) : Prop :=
  dom st.1 = dom st0.1 ∪ list_to_set cats /\
  (length st0.2 <= length st.2)%nat /\
  forall k f,
    st.1 !! k = Some f ->
    (st0.1 !! k = Some f) \/
    (k ∈ cats /\ k <> "" /\
     (FCategory f = k \/ (k = "stdout" /\ FCategory f = "DEFAULT")) /\
     (length st0.2 <= FWriter f < length st.2)%nat).

End Config.

(** ** The pattern engine (pattlog.go) *)

Module Pattern.

Definition LF : ascii := Ascii.ascii_of_nat 10.
Definition backslash : ascii := Ascii.ascii_of_nat 92.

(** [strings.Repeat("0", n)] *)
Fixpoint zeros (n : nat) : string :=
  match n with
  | O => ""
  | S k => String "0" (zeros k)
  end.

(** The verb [%0wd] of [fmt.Sprintf]: the decimal digits padded with zeros
    on the left to [w] characters, the sign counted in. *)
Definition sprintf_0d (w : nat) (n : Z) : string :=
  if n <? 0 then
    let ds := pretty (Z.abs n) in
    "-" +:+ zeros (Nat.pred w - String.length ds) +:+ ds
  else
    let ds := pretty n in
    zeros (w - String.length ds) +:+ ds.

(** [type formatCacheType struct] *)
Record formatCacheType : Set := mkCache {
  LastUpdateSeconds : Z;
  shortTime : string;
  shortDate : string;
  longTime : string;
  longDate : string
}.

(** [var formatCache = &formatCacheType{}] *)
Definition formatCache0 : formatCacheType := mkCache 0 "" "" "" "".

(** [strings.Replace(s, old, new, -1)] for a non-empty [old]: the
    occurrences are found left to right and do not overlap.  [skip] counts
    the bytes of an occurrence still to be passed over. *)
Fixpoint replace_go (old new : string) (skip : nat) (s : string) : string :=
  match s with
  | "" => ""
  | String c s' =>
      match skip with
      | S k => replace_go old new k s'
      | O =>
          if String.prefix old s
          then new +:+ replace_go old new (Nat.pred (String.length old)) s'
          else String c (replace_go old new O s')
      end
  end.

Definition Replace (s old new : string) : string := replace_go old new O s.

(** [bytes.Split(s, []byte{sep})] and [strings.Split(s, sep)] for a
    separator of one byte: never an empty list. *)
Fixpoint Split (sep : ascii) (s : string) : list string :=
  match s with
  | "" => [""]
  | String c s' =>
      if Ascii.eqb c sep then "" :: Split sep s'
      else match Split sep s' with
           | [] => [String c ""]
           | p :: ps => String c p :: ps
           end
  end.

(** The number of bytes before the first closing brace, when no line feed
    comes before it: the shortest text that [(.*?)\}] can match. *)
Fixpoint find_close (s : string) : option nat :=
  match s with
  | "" => None
  | String c s' =>
      if Ascii.eqb c "}" then Some O
      else if Ascii.eqb c LF then None
      else match find_close s' with
           | Some n => Some (S n)
           | None => None
           end
  end.

(** The length of the match of [\%D\{(.*?)\}] that starts at the head of
    [s], if there is one. *)
Definition dttm_match (s : string) : option nat :=
  if String.prefix "%D{" s then
    match find_close (String.substring 3 (String.length s - 3) s) with
    | Some n => Some (3 + n + 1)%nat
    | None => None
    end
  else None.

Section Render.

(** [time.Time.Format(layout)] of the standard library. *)
Variable Format : Time -> string -> string.

(** The table [levelStrings] of the package, indexed by the level. *)
Variable levelStrings : Level -> string.

(** The callback of [ReplaceAllFunc] applied to one match. *)
Definition dttm_replace (rec : LogRecord) (m : string) : string :=
  let str := Replace m "%D" "" in
  let str := Replace str "{" "" in
  let str := Replace str "}" "" in
  Format (Created rec) str.

(** [r.ReplaceAllFunc]: the matches are taken leftmost first and do not
    overlap; [i] is the counter captured by the callback, which rewrites
    the first two matches only. *)
Fixpoint replaceAllDttm (rec : LogRecord) (i : Z) (skip : nat) (s : string)
  : string :=
  match s with
  | "" => ""
  | String c s' =>
      match skip with
      | S k => replaceAllDttm rec i k s'
      | O =>
          match dttm_match s with
          | Some n =>
              let m := String.substring 0 n s in
              if i <? 2
              then dttm_replace rec m
                     +:+ replaceAllDttm rec (i + 1) (Nat.pred n) s'
              else m +:+ replaceAllDttm rec i (Nat.pred n) s'
          | None => String c (replaceAllDttm rec i O s')
          end
      end
  end.

(** [func changeDttmFormat(format string, rec *LogRecord) []byte] *)
Definition changeDttmFormat (format : string) (rec : LogRecord) : string :=
  replaceAllDttm rec 0 O format.

(** The cache entry computed for the second of [rec.Created]. *)
Definition updatedCache (secs : Z) (t : Time) : formatCacheType :=
  mkCache secs
    (sprintf_0d 2 (t_hour t) +:+ ":" +:+ sprintf_0d 2 (t_minute t))
    (sprintf_0d 2 (t_day t) +:+ "/" +:+ sprintf_0d 2 (t_month t) +:+ "/"
       +:+ sprintf_0d 2 (Z.rem (t_year t) 100))
    (sprintf_0d 2 (t_hour t) +:+ ":" +:+ sprintf_0d 2 (t_minute t) +:+ ":"
       +:+ sprintf_0d 2 (t_second t) +:+ " " +:+ t_zone t)
    (sprintf_0d 4 (t_year t) +:+ "/" +:+ sprintf_0d 2 (t_month t) +:+ "/"
       +:+ sprintf_0d 2 (t_day t)).

(** The [switch piece[0]]: the text written for the selector and the
    record after it (the case ['C'] may patch the category). *)
Definition directive (cache : formatCacheType) (rec : LogRecord) (c : ascii)
  : string * LogRecord :=
  if Ascii.eqb c "T" then (longTime cache, rec)
  else if Ascii.eqb c "t" then (shortTime cache, rec)
  else if Ascii.eqb c "D" then (longDate cache, rec)
  else if Ascii.eqb c "d" then (shortDate cache, rec)
  else if Ascii.eqb c "L" then (levelStrings (Level_ rec), rec)
  else if Ascii.eqb c "S" then (Source rec, rec)
  else if Ascii.eqb c "s" then (List.last (Split "/" (Source rec)) "", rec)
  else if Ascii.eqb c "M" then (Message rec, rec)
  else if Ascii.eqb c "C" then
    let rec' := if (Z.of_nat (String.length (Category rec)) =? 0)
                then set_Category rec "DEFAULT" else rec in
    (Category rec', rec')
  else ("", rec).

(** One turn of [for i, piece := range pieces]; [first] is [i == 0]. *)
Definition renderPiece (cache : formatCacheType) (first : bool)
    (piece : string) (rec : LogRecord) : string * LogRecord :=
  match piece with
  | "" => ("", rec)
  | String c tail =>
      if first then (piece, rec)
      else
        let '(sub, rec') := directive cache rec c in
        (sub +:+ tail, rec')
  end.

Fixpoint renderPieces (cache : formatCacheType) (first : bool)
    (pieces : list string) (rec : LogRecord) : string * LogRecord :=
  match pieces with
  | [] => ("", rec)
  | piece :: rest =>
      let '(o1, rec1) := renderPiece cache first piece rec in
      let '(o2, rec2) := renderPieces cache false rest rec1 in
      (o1 +:+ o2, rec2)
  end.

(** [func FormatLogRecord(format string, rec *LogRecord) string], with the
    package variable [formatCache] and the record behind the pointer passed
    through. *)
Definition FormatLogRecord (fc : formatCacheType) (format : string)
    (rec : option LogRecord) : string * option LogRecord * formatCacheType :=
  match rec with
  | None => ("<nil>", None, fc)
  | Some r =>
      if (Z.of_nat (String.length format) =? 0) then ("", Some r, fc)
      else
        let secs := Z.quot (t_unixnano (Created r)) 1000000000 in
        let cache := if negb (LastUpdateSeconds fc =? secs)
                     then updatedCache secs (Created r) else fc in
        let formatByte := changeDttmFormat format r in
        let pieces := Split "%" formatByte in
        let '(out, r') := renderPieces cache true pieces r in
        (out +:+ String LF "", Some r', cache)
  end.

End Render.

(** The selectors of the [switch]. *)
Definition known_selector (c : ascii) : bool :=
  existsb (Ascii.eqb c) ["T"; "t"; "D"; "d"; "L"; "S"; "s"; "M"; "C"]%char.

(** [bytes.Join(pieces, []byte{sep})], the inverse of [Split]. *)
Fixpoint Join (sep : ascii) (pieces : list string) : string :=
  match pieces with
  | [] => ""
  | [p] => p
  | p :: rest => p +:+ String sep (Join sep rest)
  end.

(** Whether the byte [c] occurs in [s]. *)
Fixpoint occurs (c : ascii) (s : string) : bool :=
  match s with
  | "" => false
  | String x s' => Ascii.eqb x c || occurs c s'
  end.

(** Whether some piece after the first starts with the selector C. *)
Definition has_category_directive (pieces : list string) : bool :=
  existsb (String.prefix "C") (List.tl pieces).

(** The record after the patch of the case C. *)
Definition patched (rec : LogRecord) : LogRecord :=
  if (Z.of_nat (String.length (Category rec)) =? 0)
  then set_Category rec "DEFAULT" else rec.

End Pattern.

(** ** Notions used in the statements about patterns *)

Module PatternSpec.
Import Pattern.

(** The record with another time stamp. *)
Definition set_Created (r : LogRecord) (t : Time) : LogRecord :=
  mkLogRecord (Level_ r) t (Source r) (Message r) (Category r).

(** [rec.Created.UnixNano() / 1e9] *)
Definition seconds (t : Time) : Z := Z.quot (t_unixnano t) 1000000000.

(** The text without its first [n] bytes. *)
Fixpoint sdrop (n : nat) (s : string) : string :=
  match n, s with
  | O, _ => s
  | S k, "" => ""
  | S k, String _ s' => sdrop k s'
  end.

(** A datetime directive with the layout [l]. *)
Definition dttm (l : string) : string := "%D{" +:+ l +:+ "}".

(** A layout that the expression [%D\{(.*?)\}] takes whole and that the
    callback leaves as it is: no brace, no percent sign, no line feed. *)
Definition plain_layout (l : string) : bool :=
  negb (occurs "}" l) && negb (occurs "{" l) && negb (occurs "%" l)
  && negb (occurs LF l).

(** The text consists of line feeds only. *)
Fixpoint allLF (s : string) : bool :=
  match s with
  | "" => true
  | String c s' => Ascii.eqb c LF && allLF s'
  end.

(** The number of line feeds that the text ends with. *)
Fixpoint trailingLF (s : string) : nat :=
  match s with
  | "" => O
  | String c s' => if allLF s then String.length s else trailingLF s'
  end.

(** The texts of a record, and of a cache, hold no percent sign. *)
Definition percent_free (s : string) : Prop := occurs "%" s = false.

Definition percent_free_record (r : LogRecord) : Prop :=
  percent_free (Message r) /\ percent_free (Source r) /\
  percent_free (Category r).

Definition percent_free_cache (fc : formatCacheType) : Prop :=
  percent_free (shortTime fc) /\ percent_free (shortDate fc) /\
  percent_free (longTime fc) /\ percent_free (longDate fc).

End PatternSpec.

(** ** The second version of the pattern engine

    The sources hold a second version of [FormatLogRecord], with another
    cache and another table of selectors (year, month, day, hour, minute,
    second and so on, one selector each): there the message is selected by
    I and the minute by M.  Its loop over the pieces is the one of
    pattlog.go.  The package can hold one of the two versions; the default
    patterns of the file writer, of the console writer and of the
    configuration use the selectors of pattlog.go. *)

Module PatternAlt.
Import Pattern.

(** [type formatCacheType struct] of the second version. *)
Record formatCacheType_v2 : Set := mkCache_v2 {
  LastUpdateSeconds_v2 : Z;
  tMicroSecond : string;
  tLongYear : string;
  tShortYear : string;
  tMonth : string;
  tDay : string;
  tHour : string;
  tMinute : string;
  tSecond : string;
  tTimeZone : string;
  tWeekday : string;
  tWeekdayName : string;
  tMonthName : string;
  longDate_v2 : string
}.

Definition formatCache0_v2 : formatCacheType_v2 :=
  mkCache_v2 0 "" "" "" "" "" "" "" "" "" "" "" "" "".

Definition updatedCache_v2 (secs : Z) (t : Time) : formatCacheType_v2 :=
  mkCache_v2 secs
    (sprintf_0d 6 (Z.rem (t_unixmicro t) 1000000))
    (sprintf_0d 4 (t_year t))
    (sprintf_0d 2 (Z.rem (t_year t) 100))
    (sprintf_0d 2 (t_month t))
    (sprintf_0d 2 (t_day t))
    (sprintf_0d 2 (t_hour t))
    (sprintf_0d 2 (t_minute t))
    (sprintf_0d 2 (t_second t))
    (t_zone t)
    (t_weekday t)
    ""
    (t_monthname t)
    (sprintf_0d 4 (t_year t) +:+ "-" +:+ sprintf_0d 2 (t_month t) +:+ "-"
       +:+ sprintf_0d 2 (t_day t)).

Section RenderV2.

Variable Format : Time -> string -> string.
Variable levelStrings : Level -> string.

Definition directive_v2 (cache : formatCacheType_v2) (rec : LogRecord)
    (c : ascii) : string * LogRecord :=
  if Ascii.eqb c "D" then (longDate_v2 cache, rec)
  else if Ascii.eqb c "Y" then (tLongYear cache, rec)
  else if Ascii.eqb c "y" then (tShortYear cache, rec)
  else if Ascii.eqb c "m" then (tMonth cache, rec)
  else if Ascii.eqb c "d" then (tDay cache, rec)
  else if Ascii.eqb c "H" then (tHour cache, rec)
  else if Ascii.eqb c "M" then (tMinute cache, rec)
  else if Ascii.eqb c "S" then (tSecond cache, rec)
  else if Ascii.eqb c "o" then (tMicroSecond cache, rec)
  else if Ascii.eqb c "z" then (tTimeZone cache, rec)
  else if Ascii.eqb c "N" then (tMonthName cache, rec)
  else if Ascii.eqb c "W" then (tWeekday cache, rec)
  else if Ascii.eqb c "A" then (Source rec, rec)
  else if Ascii.eqb c "a" then (List.last (Split "/" (Source rec)) "", rec)
  else if Ascii.eqb c "L" then (levelStrings (Level_ rec), rec)
  else if Ascii.eqb c "I" then (Message rec, rec)
  else if Ascii.eqb c "C" then
    let rec' := if (Z.of_nat (String.length (Category rec)) =? 0)
                then set_Category rec "DEFAULT" else rec in
    (Category rec', rec')
  else ("", rec).

Definition renderPiece_v2 (cache : formatCacheType_v2) (first : bool)
    (piece : string) (rec : LogRecord) : string * LogRecord :=
  match piece with
  | "" => ("", rec)
  | String c tail =>
      if first then (piece, rec)
      else
        let '(sub, rec') := directive_v2 cache rec c in
        (sub +:+ tail, rec')
  end.

Fixpoint renderPieces_v2 (cache : formatCacheType_v2) (first : bool)
    (pieces : list string) (rec : LogRecord) : string * LogRecord :=
  match pieces with
  | [] => ("", rec)
  | piece :: rest =>
      let '(o1, rec1) := renderPiece_v2 cache first piece rec in
      let '(o2, rec2) := renderPieces_v2 cache false rest rec1 in
      (o1 +:+ o2, rec2)
  end.

Definition FormatLogRecord_v2 (fc : formatCacheType_v2) (format : string)
    (rec : option LogRecord)
  : string * option LogRecord * formatCacheType_v2 :=
  match rec with
  | None => ("<nil>", None, fc)
  | Some r =>
      if (Z.of_nat (String.length format) =? 0) then ("", Some r, fc)
      else
        let secs := Z.quot (t_unixnano (Created r)) 1000000000 in
        let cache := if negb (LastUpdateSeconds_v2 fc =? secs)
                     then updatedCache_v2 secs (Created r) else fc in
        let formatByte := changeDttmFormat Format format r in
        let pieces := Split "%" formatByte in
        let '(out, r') := renderPieces_v2 cache true pieces r in
        (out +:+ String LF "", Some r', cache)
  end.

End RenderV2.

(** The selectors of the [switch] of the second version. *)
Definition known_selector_v2 (c : ascii) : bool :=
  existsb (Ascii.eqb c)
    ["D"; "Y"; "y"; "m"; "d"; "H"; "M"; "S"; "o"; "z"; "N"; "W"; "A"; "a";
     "L"; "I"; "C"]%char.

(** The constants [FORMAT_DEFAULT], [FORMAT_SHORT] and [FORMAT_ABBREV]. *)
Definition FORMAT_DEFAULT : string := "[%Y-%m-%d %H:%M:%S.%c] [%L] (%A) %I".
Definition FORMAT_SHORT : string := "[%m-%d %H:%M:%S] [%L] %I".
Definition FORMAT_ABBREV : string := "[%L] %I".

End PatternAlt.

(** ** The rotating file writer *)

Module FileSink.
Import Pattern.

(** *** The file system *)

(** A regular file: its bytes and what [os.Stat(..).ModTime()] returns. *)
Record FileInfo : Set := mkFileInfo {
  f_data : string;
  ModTime : Time
}.

(** Path to file; a path that is not bound does not exist. *)
Abbreviation FS := (gmap string FileInfo).

(** What the operating system answers while one message of the consumer loop
    is handled: the clock read by [time.Now()], and which calls it refuses
    (permissions, a full disk, ...). *)
Record Env : Type := mkEnv {
  now : Time;
  rename_fails : string -> string -> bool;
  open_fails : string -> bool;
  write_fails : bool
}.

Inductive oserror : Set :=
  | ERename (oldpath newpath : string)
  | EOpen (path : string)
  | EWrite (path : string).

(** The [error] values that reach the report on [os.Stderr]:
    [fmt.Errorf("Rotate: %s\n", err)] and a bare operating system error. *)
Inductive error : Set :=
  | RotateError (e : oserror)
  | OSError (e : oserror).

(** [os.Stat] and [os.Lstat] (there are no symbolic links). *)
Definition os_Stat (fs : FS) (path : string) : option FileInfo := fs !! path.

(** [os.Rename]: the old path must exist and the new one must be a name;
    an existing file at the new path is replaced. *)
Definition os_Rename (env : Env) (fs : FS) (oldpath newpath : string)
  : FS + oserror :=
  if rename_fails env oldpath newpath then inr (ERename oldpath newpath)
  else match fs !! oldpath with
       | None => inr (ERename oldpath newpath)
       | Some fi =>
           if String.eqb newpath "" then inr (ERename oldpath newpath)
           else inl (<[newpath := fi]> (delete oldpath fs))
       end.

(** [os.OpenFile(path, os.O_WRONLY|os.O_APPEND|os.O_CREATE, 0660)] *)
Definition os_OpenFile (env : Env) (fs : FS) (path : string) : FS + oserror :=
  if open_fails env path then inr (EOpen path)
  else if String.eqb path "" then inr (EOpen path)
  else match fs !! path with
       | Some _ => inl fs
       | None => inl (<[path := mkFileInfo "" (now env)]> fs)
       end.

(** Appending bytes to the file at [path]; a write of no bytes changes
    nothing. *)
Definition fs_append (env : Env) (fs : FS) (path : string) (s : string) : FS :=
  if String.eqb s "" then fs
  else match fs !! path with
       | Some fi => <[path := mkFileInfo (f_data fi +:+ s) (now env)]> fs
       | None => fs
       end.

(** *** The writer *)

(** [w.file]: the nil pointer, an open descriptor, or a descriptor that
    [Close] was called on.  The descriptor is always one of [w.filename],
    opened by [intRotate], and is closed before that path is renamed. *)
Inductive FileState : Set := NilFile | OpenedFile | ClosedFile.

(** [type FileLogWriter struct] without its two channels. *)
Record FileLogWriter : Set := mkFileLogWriter {
  filename : string;
  file : FileState;
  format : string;
  header : string;
  trailer : string;
  maxlines : Z;
  maxlines_curlines : Z;
  maxsize : Z;
  maxsize_cursize : Z;
  daily : bool;
  daily_opendate : Z;
  rotate : bool;
  maxbackup : Z;
  currbackup : Z;
  sanitize : bool
}.

Definition set_file (w : FileLogWriter) (f : FileState) : FileLogWriter :=
  mkFileLogWriter (filename w) f (format w) (header w) (trailer w)
    (maxlines w) (maxlines_curlines w) (maxsize w) (maxsize_cursize w)
    (daily w) (daily_opendate w) (rotate w) (maxbackup w) (currbackup w)
    (sanitize w).

Definition set_daily_opendate (w : FileLogWriter) (d : Z) : FileLogWriter :=
  mkFileLogWriter (filename w) (file w) (format w) (header w) (trailer w)
    (maxlines w) (maxlines_curlines w) (maxsize w) (maxsize_cursize w)
    (daily w) d (rotate w) (maxbackup w) (currbackup w) (sanitize w).

Definition set_currbackup (w : FileLogWriter) (n : Z) : FileLogWriter :=
  mkFileLogWriter (filename w) (file w) (format w) (header w) (trailer w)
    (maxlines w) (maxlines_curlines w) (maxsize w) (maxsize_cursize w)
    (daily w) (daily_opendate w) (rotate w) (maxbackup w) n (sanitize w).

Definition set_counts (w : FileLogWriter) (lines size : Z) : FileLogWriter :=
  mkFileLogWriter (filename w) (file w) (format w) (header w) (trailer w)
    (maxlines w) lines (maxsize w) size
    (daily w) (daily_opendate w) (rotate w) (maxbackup w) (currbackup w)
    (sanitize w).

(** What lives outside the writer: the files, the package variable
    [formatCache], and the reports printed on [os.Stderr], each the file
    name and the error of ["FileLogWriter(%q): %s\n"]. *)
Record World : Set := mkWorld {
  fs : FS;
  formatCache : formatCacheType;
  stderr : list (string * error)
}.

Definition set_fs (x : World) (m : FS) : World :=
  mkWorld m (formatCache x) (stderr x).

Definition report (x : World) (name : string) (e : error) : World :=
  mkWorld (fs x) (formatCache x) (stderr x ++ [(name, e)]).

Section Writer.

Variable Format : Time -> string -> string.
Variable levelStrings : Level -> string.

(** [FormatLogRecord(pattern, &LogRecord{Created: time.Now()})], as the
    header and the trailer are rendered. *)
Definition renderAt (env : Env) (x : World) (pattern : string)
  : string * World :=
  let '(s, _, fc) :=
    FormatLogRecord Format levelStrings (formatCache x) pattern
      (Some (emptyRecordAt (now env))) in
  (s, mkWorld (fs x) fc (stderr x)).

(** [fmt.Fprint(w.file, s)]: the number of bytes written, or the error of
    a descriptor that is nil or closed or of a refused write. *)
Definition Fprint (env : Env) (w : FileLogWriter) (x : World) (s : string)
  : (Z * World) + oserror :=
  match file w with
  | OpenedFile =>
      if write_fails env then inr (EWrite (filename w))
      else inl (Z.of_nat (String.length s),
                set_fs x (fs_append env (fs x) (filename w) s))
  | _ => inr (EWrite (filename w))
  end.

(** [fmt.Fprint] with its results dropped. *)
Definition Fprint_ (env : Env) (w : FileLogWriter) (x : World) (s : string)
  : World :=
  match Fprint env w x s with
  | inl (_, x') => x'
  | inr _ => x
  end.

(** [w.file.Close()] *)
Definition Close_file (w : FileLogWriter) : FileLogWriter :=
  match file w with
  | NilFile => w
  | _ => set_file w ClosedFile
  end.

(** Lines 282-285 of [intRotate], also the body of the deferred function
    of the consumer loop: write the trailer and close. *)
Definition closeCurrent (env : Env) (w : FileLogWriter) (x : World)
  : FileLogWriter * World :=
  match file w with
  | NilFile => (w, x)
  | _ =>
      let '(s, x1) := renderAt env x (trailer w) in
      (Close_file w, Fprint_ env w x1 s)
  end.

(** [w.filename + fmt.Sprintf(".%d", num)] *)
Definition countName (name : string) (num : Z) : string :=
  name +:+ "." +:+ pretty num.

(** [w.filename + fmt.Sprintf(".%s.%d", date, num)] *)
Definition dailyName (name date : string) (num : Z) : string :=
  name +:+ "." +:+ date +:+ "." +:+ pretty num.

(** The daily branch, lines 298-310: the backup name and the next value
    of [w.currbackup]. *)
Definition dailyBackup (env : Env) (w : FileLogWriter) (modifiedtime : Time)
  : string * Z :=
  let modifieddate := Format modifiedtime "20060102" in
  if negb (t_day (now env) =? daily_opendate w)
  then (filename w +:+ "." +:+ modifieddate +:+ ".0", 1)
  else
    let fname := dailyName (filename w) modifieddate (currbackup w) in
    let next := int_wrap (currbackup w + 1) in
    (fname, if maxbackup w <=? next then 1 else next).

(** The loop [for ; num >= 1; num--] of lines 318-325; [fuel] bounds the
    number of turns, and the last [fname] is returned with the files. *)
Fixpoint shiftBackups (env : Env) (name : string) (fuel : nat) (num : Z)
    (fname : string) (m : FS) : FS * string :=
  match fuel with
  | O => (m, fname)
  | S k =>
      if 1 <=? num then
        let fname := countName name num in
        let nfname := countName name (int_wrap (num + 1)) in
        let m' := match os_Stat m fname with
                  | Some _ =>
                      match os_Rename env m fname nfname with
                      | inl m' => m'
                      | inr _ => m
                      end
                  | None => m
                  end in
        shiftBackups env name k (int_wrap (num - 1)) fname m'
      else (m, fname)
  end.

(** Lines 287-335: moving the existing file out of the way. *)
Definition moveAway (env : Env) (w : FileLogWriter) (x : World)
  : option error * FileLogWriter * World :=
  if rotate w then
    match os_Stat (fs x) (filename w) with
    | None => (None, w, x)
    | Some info =>
        let modifiedtime := ModTime info in
        let w := set_daily_opendate w (t_day modifiedtime) in
        if daily w then
          let '(fname, next) := dailyBackup env w modifiedtime in
          let w := Close_file (set_currbackup w next) in
          match os_Rename env (fs x) (filename w) fname with
          | inr e => (Some (RotateError e), w, x)
          | inl m => (None, w, set_fs x m)
          end
        else
          let num := int_wrap (maxbackup w - 1) in
          let '(m, fname) :=
            shiftBackups env (filename w) (Z.to_nat num) num "" (fs x) in
          let w := Close_file w in
          match os_Rename env m (filename w) fname with
          | inr e => (Some (RotateError e), w, set_fs x m)
          | inl m' => (None, w, set_fs x m')
          end
    end
  else (None, w, x).

(** [func (w *FileLogWriter) intRotate() error] *)
Definition intRotate (env : Env) (w : FileLogWriter) (x : World)
  : option error * FileLogWriter * World :=
  let '(w, x) := closeCurrent env w x in
  match moveAway env w x with
  | (Some e, w, x) => (Some e, w, x)
  | (None, w, x) =>
      match os_OpenFile env (fs x) (filename w) with
      | inr e => (Some (OSError e), w, x)
      | inl m =>
          let w := set_file w OpenedFile in
          let x := set_fs x m in
          let '(s, x) := renderAt env x (header w) in
          let x := Fprint_ env w x s in
          let w := set_daily_opendate w (t_day (now env)) in
          let w := set_counts w 0 0 in
          (None, w, x)
      end
  end.

(** [fileExist(path)]: [os.IsExist] of a failed [os.Stat] is false. *)
Definition fileExist (m : FS) (path : string) : bool :=
  match os_Stat m path with
  | Some _ => true
  | None => false
  end.

Fixpoint getCurrBackup_loop (m : FS) (name day : string) (maxb : Z)
    (fuel : nat) (i : Z) : Z :=
  match fuel with
  | O => 1
  | S k =>
      if i <? maxb then
        if negb (fileExist m (dailyName name day i)) then i
        else getCurrBackup_loop m name day maxb k (int_wrap (i + 1))
      else 1
  end.

(** [func (w *FileLogWriter) getCurrBackup() int] *)
Definition getCurrBackup (env : Env) (w : FileLogWriter) (m : FS) : Z :=
  let day := Format (now env) "20060102" in
  getCurrBackup_loop m (filename w) day (maxbackup w)
    (Z.to_nat (maxbackup w)) 1.

(** The rotation test of the consumer loop, lines 232-234. *)
Definition needRotate (env : Env) (w : FileLogWriter) : bool :=
  ((0 <? maxlines w) && (maxlines w <=? maxlines_curlines w))
  || ((0 <? maxsize w) && (maxsize w <=? maxsize_cursize w))
  || (daily w && negb (t_day (now env) =? daily_opendate w)).

(** [strings.Replace(rec.Message, "\n", "\\n", -1)]: a line feed becomes
    a backslash followed by the letter n. *)
Definition sanitizeMessage (msg : string) : string :=
  Replace msg (String LF "") (String backslash (String "n" "")).

(** Lines 241-255: sanitize, render, write, count.  The error is the one
    of the write. *)
Definition writeRecord (env : Env) (w : FileLogWriter) (x : World)
    (rec : LogRecord) : option error * FileLogWriter * World :=
  let rec := if sanitize w
             then set_Message rec (sanitizeMessage (Message rec))
             else rec in
  let '(s, _, fc) :=
    FormatLogRecord Format levelStrings (formatCache x) (format w)
      (Some rec) in
  let x := mkWorld (fs x) fc (stderr x) in
  match Fprint env w x s with
  | inr e => (Some (OSError e), w, x)
  | inl (n, x) =>
      (None,
       set_counts w (int_wrap (maxlines_curlines w + 1))
         (int_wrap (maxsize_cursize w + n)),
       x)
  end.

(** What the [select] of the consumer loop receives. *)
Inductive Signal : Set :=
  | RotateSignal
  | Record_ (rec : LogRecord)
  | RecClosed.

(** One turn of the [for { select { .. } }]: [Some e] is a [return] after
    the report of [e], and [stop] is the [return] on a closed channel. *)
Definition turn (env : Env) (msg : Signal) (w : FileLogWriter) (x : World)
  : bool * FileLogWriter * World :=
  match msg with
  | RotateSignal =>
      match intRotate env w x with
      | (Some e, w, x) => (false, w, report x (filename w) e)
      | (None, w, x) => (true, w, x)
      end
  | RecClosed => (false, w, x)
  | Record_ rec =>
      let '(err, w, x) :=
        if needRotate env w then intRotate env w x else (None, w, x) in
      match err with
      | Some e => (false, w, report x (filename w) e)
      | None =>
          match writeRecord env w x rec with
          | (Some e, w, x) => (false, w, report x (filename w) e)
          | (None, w, x) => (true, w, x)
          end
      end
  end.

(** The deferred function of the goroutine. *)
Definition onReturn (env : Env) (w : FileLogWriter) (x : World)
  : FileLogWriter * World :=
  closeCurrent env w x.

(** The state of the goroutine and of its two channels after the
    messages that were delivered: [running] is false once the loop has
    returned, and [unread] are the messages never received. *)
Record Outcome : Type := mkOutcome {
  writer : FileLogWriter;
  world : World;
  running : bool;
  unread : list (Env * Signal)
}.

Fixpoint consume (w : FileLogWriter) (x : World)
    (msgs : list (Env * Signal)) : Outcome :=
  match msgs with
  | [] => mkOutcome w x true []
  | (env, msg) :: rest =>
      match turn env msg w x with
      | (true, w, x) => consume w x rest
      | (false, w, x) =>
          let '(w, x) := onReturn env w x in
          mkOutcome w x false rest
      end
  end.

(** [func NewFileLogWriter(fname string, rotate bool, daily bool,
    maxbackup int) *FileLogWriter], up to the start of the goroutine;
    [None] is the nil result. *)
Definition NewFileLogWriter (env : Env) (x : World) (fname : string)
    (rotate daily : bool) (maxbackup : Z) : option FileLogWriter * World :=
  let maxbackup := if maxbackup <=? 0 then 99 else maxbackup in
  let w := mkFileLogWriter fname NilFile "[%D %T] [%L] (%S) %M" "" ""
             0 0 0 0 daily 0 rotate maxbackup 0 false in
  let w := set_currbackup w (getCurrBackup env w (fs x)) in
  match intRotate env w x with
  | (Some e, w, x) => (None, report x (filename w) e)
  | (None, w, x) => (Some w, x)
  end.

Definition SetFormat (w : FileLogWriter) (format : string) : FileLogWriter :=
  mkFileLogWriter (filename w) (file w) format (header w) (trailer w)
    (maxlines w) (maxlines_curlines w) (maxsize w) (maxsize_cursize w)
    (daily w) (daily_opendate w) (rotate w) (maxbackup w) (currbackup w)
    (sanitize w).

Definition SetRotateLines (w : FileLogWriter) (n : Z) : FileLogWriter :=
  mkFileLogWriter (filename w) (file w) (format w) (header w) (trailer w)
    n (maxlines_curlines w) (maxsize w) (maxsize_cursize w)
    (daily w) (daily_opendate w) (rotate w) (maxbackup w) (currbackup w)
    (sanitize w).

Definition SetSanitize (w : FileLogWriter) (b : bool) : FileLogWriter :=
  mkFileLogWriter (filename w) (file w) (format w) (header w) (trailer w)
    (maxlines w) (maxlines_curlines w) (maxsize w) (maxsize_cursize w)
    (daily w) (daily_opendate w) (rotate w) (maxbackup w) (currbackup w) b.

(** *** Notions used in the statements *)

(** The text of a header or trailer and the cache after rendering it. *)
Definition renderText (env : Env) (fc : formatCacheType) (pattern : string)
  : string * formatCacheType :=
  let '(s, _, fc') :=
    FormatLogRecord Format levelStrings fc pattern
      (Some (emptyRecordAt (now env))) in
  (s, fc').

(** The line written for a record and the cache after rendering it. *)
Definition recordText (w : FileLogWriter) (fc : formatCacheType)
    (rec : LogRecord) : string * formatCacheType :=
  let rec := if sanitize w
             then set_Message rec (sanitizeMessage (Message rec))
             else rec in
  let '(s, _, fc') :=
    FormatLogRecord Format levelStrings fc (format w) (Some rec) in
  (s, fc').

(** A turn that writes the record without a rotation before it. *)
Definition writeOnly (env : Env) (rec : LogRecord) (w : FileLogWriter)
    (x : World) : bool * FileLogWriter * World :=
  match writeRecord env w x rec with
  | (Some e, w, x) => (false, w, report x (filename w) e)
  | (None, w, x) => (true, w, x)
  end.

(** A turn that rotates and, if that went well, writes the record. *)
Definition rotateThenWrite (env : Env) (rec : LogRecord) (w : FileLogWriter)
    (x : World) : bool * FileLogWriter * World :=
  match intRotate env w x with
  | (Some e, w, x) => (false, w, report x (filename w) e)
  | (None, w, x) => writeOnly env rec w x
  end.

End Writer.

(** One turn of the loop of [shiftBackups] when no rename is refused, for
    the backup number [k]. *)
Definition shift1 (name : string) (k : Z) (m : FS) : FS :=
  match m !! countName name k with
  | Some fi => <[countName name (k + 1) := fi]> (delete (countName name k) m)
  | None => m
  end.

(** The fields that the consumer loop never assigns. *)
Definition same_config (w w' : FileLogWriter) : Prop :=
  filename w' = filename w /\ format w' = format w /\
  header w' = header w /\ trailer w' = trailer w /\
  maxlines w' = maxlines w /\ maxsize w' = maxsize w /\
  daily w' = daily w /\ rotate w' = rotate w /\
  maxbackup w' = maxbackup w /\ sanitize w' = sanitize w.

(** The triggers of a rotation, in the words of the specification. *)
Definition trigger (env : Env) (w : FileLogWriter) : Prop :=
  (0 < maxlines w /\ maxlines w <= maxlines_curlines w) \/
  (0 < maxsize w /\ maxsize w <= maxsize_cursize w) \/
  (daily w = true /\ t_day (now env) <> daily_opendate w).

(** Every line feed replaced by a backslash and the letter n, in the words
    of the specification. *)
Fixpoint escapeNewlines (s : string) : string :=
  match s with
  | "" => ""
  | String c s' =>
      if Ascii.eqb c LF
      then String backslash (String "n" (escapeNewlines s'))
      else String c (escapeNewlines s')
  end.

(** The number of line feeds of a text. *)
Fixpoint lineFeeds (s : string) : nat :=
  match s with
  | "" => O
  | String c s' => ((if Ascii.eqb c LF then 1 else 0) + lineFeeds s')%nat
  end.

(** The sequence number in the name of a daily backup and the value of
    [w.currbackup] after it. *)
Definition dailySeq (env : Env) (w : FileLogWriter) (modifiedtime : Time)
  : Z * Z :=
  if t_day (now env) =? t_day modifiedtime
  then (currbackup w,
        if maxbackup w <=? currbackup w + 1 then 1 else currbackup w + 1)
  else (0, 1).

End FileSink.

(** ** The file writer: the other setters and the XML writer *)

Module FileSinkMore.
Import Pattern FileSink.

Definition TAB : ascii := Ascii.ascii_of_nat 9.
Definition dquote : ascii := Ascii.ascii_of_nat 34.

(** The pattern that [NewXMLLogWriter] gives to [SetFormat]: five lines,
    indented by tabs. *)
Definition xmlFormat : string :=
  String TAB ("<record level=" +:+ String dquote ("%L" +:+ String dquote ">"))
  +:+ String LF (String TAB (String TAB "<timestamp>%D %T</timestamp>"))
  +:+ String LF (String TAB (String TAB "<source>%S</source>"))
  +:+ String LF (String TAB (String TAB "<message>%M</message>"))
  +:+ String LF (String TAB "</record>").

(** The header and the trailer that it gives to [SetHeadFoot]. *)
Definition xmlHeader : string :=
  "<log created=" +:+ String dquote ("%D %T" +:+ String dquote ">").
Definition xmlTrailer : string := "</log>".

Definition set_headfoot (w : FileLogWriter) (head foot : string)
  : FileLogWriter :=
  mkFileLogWriter (filename w) (file w) (format w) head foot
    (maxlines w) (maxlines_curlines w) (maxsize w) (maxsize_cursize w)
    (daily w) (daily_opendate w) (rotate w) (maxbackup w) (currbackup w)
    (sanitize w).

Definition SetRotateSize (w : FileLogWriter) (n : Z) : FileLogWriter :=
  mkFileLogWriter (filename w) (file w) (format w) (header w) (trailer w)
    (maxlines w) (maxlines_curlines w) n (maxsize_cursize w)
    (daily w) (daily_opendate w) (rotate w) (maxbackup w) (currbackup w)
    (sanitize w).

Definition SetRotateDaily (w : FileLogWriter) (b : bool) : FileLogWriter :=
  mkFileLogWriter (filename w) (file w) (format w) (header w) (trailer w)
    (maxlines w) (maxlines_curlines w) (maxsize w) (maxsize_cursize w)
    b (daily_opendate w) (rotate w) (maxbackup w) (currbackup w)
    (sanitize w).

Definition SetRotateMaxBackup (w : FileLogWriter) (n : Z) : FileLogWriter :=
  mkFileLogWriter (filename w) (file w) (format w) (header w) (trailer w)
    (maxlines w) (maxlines_curlines w) (maxsize w) (maxsize_cursize w)
    (daily w) (daily_opendate w) (rotate w) n (currbackup w) (sanitize w).

Definition SetRotate (w : FileLogWriter) (b : bool) : FileLogWriter :=
  mkFileLogWriter (filename w) (file w) (format w) (header w) (trailer w)
    (maxlines w) (maxlines_curlines w) (maxsize w) (maxsize_cursize w)
    (daily w) (daily_opendate w) b (maxbackup w) (currbackup w)
    (sanitize w).

Definition SetMaxbackup (w : FileLogWriter) (n : Z) : FileLogWriter :=
  SetRotateMaxBackup w n.

Section Writer.

Variable Format : Time -> string -> string.
Variable levelStrings : Level -> string.

(** [func (w *FileLogWriter) SetHeadFoot(head, foot string)]: the header
    is written at once while no record has been counted. *)
Definition SetHeadFoot (env : Env) (w : FileLogWriter) (x : World)
    (head foot : string) : FileLogWriter * World :=
  let w := set_headfoot w head foot in
  if maxlines_curlines w =? 0 then
    let '(s, x1) := renderAt Format levelStrings env x (header w) in
    (w, Fprint_ env w x1 s)
  else (w, x).

(** [func NewXMLLogWriter(fname string, rotate bool, daily bool)]: the
    result of [NewFileLogWriter] is used without a test, so that a nil
    result makes [SetFormat] panic: [None] here is the panic, not a nil
    result.  [env] is the environment of the call of [NewFileLogWriter],
    [env'] the one of [SetHeadFoot]. *)
Definition NewXMLLogWriter (env env' : Env) (x : World) (fname : string)
    (rotate daily : bool) : option FileLogWriter * World :=
  match NewFileLogWriter Format levelStrings env x fname rotate daily 0 with
  | (None, x) => (None, x)
  | (Some w, x) =>
      let '(w, x) :=
        SetHeadFoot env' (SetFormat w xmlFormat) x xmlHeader xmlTrailer in
      (Some w, x)
  end.

(** The lines written for the records of a list, one after the other,
    and the cache after the last one. *)
Fixpoint recordTexts (w : FileLogWriter) (fc : formatCacheType)
    (recs : list LogRecord) : string * formatCacheType :=
  match recs with
  | [] => ("", fc)
  | rec :: rest =>
      let '(s, fc1) := recordText Format levelStrings w fc rec in
      let '(t, fc2) := recordTexts w fc1 rest in
      (s +:+ t, fc2)
  end.

End Writer.

(** The records of a list as messages of the channel [w.rec], each with
    the environment in which it is received. *)
Definition records (l : list (Env * LogRecord)) : list (Env * Signal) :=
  map (fun p => (p.1, Record_ p.2)) l.

(** No limit on lines or size and no daily rotation: the test of the
    consumer loop never asks for a rotation. *)
Definition no_limits (w : FileLogWriter) : Prop :=
  maxlines w <= 0 /\ maxsize w <= 0 /\ daily w = false.

(** The sequence number of the daily backups is one of 1 ..
    [maxbackup - 1], or 1 when there is no such number. *)
Definition seq_in_range (w : FileLogWriter) : Prop :=
  1 <= currbackup w <= Z.max 1 (maxbackup w - 1).

(** The backup names that a rotation by number can touch. *)
Definition counted (name : string) (maxb : Z) (p : string) : Prop :=
  exists k, 1 <= k <= maxb /\ p = countName name k.

(** The pattern of a new file writer. *)
Definition filePattern : string := "[%D %T] [%L] (%S) %M".

End FileSinkMore.

(** ** Concrete instances used in examples *)

Module Sample.

(** The short names of the levels, as the comment of [FormatLogRecord]
    lists them. *)
Definition levelStrings (l : Level) : string :=
  match l with
  | FINEST => "FNST" | FINE => "FINE" | DEBUG => "DEBG" | TRACE => "TRAC"
  | INFO => "INFO" | WARNING => "WARN" | ERROR => "EROR" | CRITICAL => "CRIT"
  end.

(** An instance of [time.Time.Format]: the layout "20060102" gives the
    date in digits, a layout without layout elements is returned as it is
    (no other layout occurs in the examples). *)
Definition Format (t : Time) (layout : string) : string :=
  if String.eqb layout "20060102"
  then Pattern.sprintf_0d 4 (t_year t) +:+ Pattern.sprintf_0d 2 (t_month t)
         +:+ Pattern.sprintf_0d 2 (t_day t)
  else layout.

(** 1 January 2024, 12:00:00 UTC and the same time one day later. *)
Definition jan1 : Time :=
  mkTime 1704110400000000000 1704110400000000 2024 1 1 12 0 0 "UTC"
    "Monday" "January".
Definition jan2 : Time :=
  mkTime 1704196800000000000 1704196800000000 2024 1 2 12 0 0 "UTC"
    "Tuesday" "January".

(** A registry as [LoadJsonConfiguration] builds it: the console filter
    under "stdout" and one file filter under "Test". *)
Definition registry (console file : Level) : gmap string Router.Filter :=
  <["Test" := Router.mkFilter file 1%nat "Test"]>
    (<["stdout" := Router.mkFilter console 0%nat "DEFAULT"]> ∅).

(** A stand-in for [fmt.Sprintf] in calls without arguments. *)
Definition noSprintf (format : string) (args : list string) : string := format.

(** A configuration with a console section, one enabled file entry and
    one disabled entry that has neither a category nor a known level. *)
Definition config (console : bool) : Config.LogConfig :=
  Config.mkLogConfig (Some (Config.mkConsoleConfig console "INFO" ""))
    [Some (Config.mkFileConfig true "Test" "DEBUG" "test.log" "" false "" ""
             false false);
     Some (Config.mkFileConfig false "" "NOISE" "" "" false "" "" false
             false)]
    [].

(** A configuration with three file entries of the category "stdout",
    the one of the console section: two enabled ones and, last, a disabled
    one. *)
Definition errFile : Config.FileConfig :=
  Config.mkFileConfig true "stdout" "ERROR" "err.log" "" false "" "" false
    false.
Definition dbgFile : Config.FileConfig :=
  Config.mkFileConfig true "stdout" "DEBUG" "dbg.log" "" false "" "" false
    false.
Definition offFile : Config.FileConfig :=
  Config.mkFileConfig false "stdout" "FINE" "off.log" "" false "" "" false
    false.
Definition shadowed : Config.LogConfig :=
  Config.mkLogConfig (Some (Config.mkConsoleConfig true "INFO" ""))
    [Some errFile; Some dbgFile; Some offFile] [].

(** A stand-in for [strToNumSuffix]; the examples give no sizes. *)
Definition noSuffix (s : string) (mult : Z) : Z := 0.

Definition hello : LogRecord :=
  mkLogRecord INFO jan1 "main.main:13" "hello" "".

(** An operating system that refuses nothing, at the time [t]. *)
Definition ok (t : Time) : FileSink.Env :=
  FileSink.mkEnv t (fun _ _ => false) (fun _ => false) false.

(** An operating system that refuses to rename "app.log.1". *)
Definition stuck (t : Time) : FileSink.Env :=
  FileSink.mkEnv t (fun a _ => String.eqb a "app.log.1") (fun _ => false)
    false.

(** A writer on "app.log" with the pattern "%M", an open descriptor, no
    header and no trailer, opened on the first of the month. *)
Definition appWriter (rotate daily sanitize : bool) (maxbackup maxlines : Z)
    (currbackup : Z) : FileSink.FileLogWriter :=
  FileSink.mkFileLogWriter "app.log" FileSink.OpenedFile "%M" "" ""
    maxlines 0 0 0 daily 1 rotate maxbackup currbackup sanitize.

Definition record (m : string) : LogRecord :=
  mkLogRecord INFO jan1 "main.main:13" m "".

Definition line (s : string) : string := s +:+ String Pattern.LF "".

(** A directory that holds "app.log" with the given bytes. *)
Definition liveOnly (data : string) : FileSink.World :=
  FileSink.mkWorld {[ "app.log" := FileSink.mkFileInfo data jan1 ]}
    Pattern.formatCache0 [].

(** A directory that holds "app.log" and the backup "app.log.1". *)
Definition liveAndBackup (data old : string) : FileSink.World :=
  FileSink.mkWorld
    (<[ "app.log.1" := FileSink.mkFileInfo old jan1 ]>
       {[ "app.log" := FileSink.mkFileInfo data jan1 ]})
    Pattern.formatCache0 [].

(** An operating system that refuses every write. *)
Definition noWrite (t : Time) : FileSink.Env :=
  FileSink.mkEnv t (fun _ _ => false) (fun _ => false) true.

(** An operating system that refuses to open "app.log". *)
Definition noOpen (t : Time) : FileSink.Env :=
  FileSink.mkEnv t (fun _ _ => false) (fun p => String.eqb p "app.log")
    false.

(** The writer [appWriter] after [SetHeadFoot "hello" "bye"], without
    limits. *)
Definition framedWriter (rotate : bool) : FileSink.FileLogWriter :=
  FileSinkMore.set_headfoot (appWriter rotate false false 99 0 1)
    "hello" "bye".

(** A directory with the daily backups 1 and 2 of 1 January 2024. *)
Definition dailyTaken : FileSink.FS :=
  <[ "app.log.20240101.2" := FileSink.mkFileInfo "b" jan1 ]>
    {[ "app.log.20240101.1" := FileSink.mkFileInfo "a" jan1 ]}.

End Sample.
(** * Properties *)

(** ** Machine integers *)

Lemma int_wrap_id z : is_int z -> int_wrap z = z.
Proof.
  unfold is_int, int_min, int_max, int_wrap. intros H.
  rewrite Z.mod_small; lia.
Qed.

Lemma int_wrap_is_int z : is_int (int_wrap z).
Proof.
  unfold is_int, int_min, int_max, int_wrap.
  pose proof (Z.mod_pos_bound (z + 2 ^ 63) (2 ^ 64)). lia.
Qed.


Lemma level_rank_inj a b : level_rank a = level_rank b -> a = b.
Proof. destruct a, b; simpl; intros H; try reflexivity; discriminate H. Qed.

(** ** Byte strings *)

Lemma string_app_cons (x : ascii) (a b : string) :
  String x a +:+ b = String x (a +:+ b).
Proof. reflexivity. Qed.

Lemma string_app_nil_l (b : string) : "" +:+ b = b.
Proof. reflexivity. Qed.

Lemma string_app_assoc (a b c : string) : (a +:+ b) +:+ c = a +:+ (b +:+ c).
Proof.
  induction a as [|x a IH]; [reflexivity|].
  rewrite !string_app_cons. f_equal. exact IH.
Qed.

Lemma string_app_nil_r (a : string) : a +:+ "" = a.
Proof.
  induction a as [|x a IH]; [reflexivity|].
  rewrite string_app_cons. f_equal. exact IH.
Qed.

Lemma string_length_app (a b : string) :
  String.length (a +:+ b) = (String.length a + String.length b)%nat.
Proof.
  induction a as [|x a IH]; [reflexivity|].
  rewrite string_app_cons. simpl. now rewrite IH.
Qed.

Lemma string_app_inv_head (a b c : string) : a +:+ b = a +:+ c -> b = c.
Proof.
  induction a as [|x a IH]; intros H; [exact H|].
  rewrite !string_app_cons in H. injection H. exact IH.
Qed.

(** ** The category router *)

Module RouterFacts.
Import Router.

Lemma level_ge_spec a b : level_ge a b = true <-> level_rank b <= level_rank a.
Proof. unfold level_ge. apply Z.leb_le. Qed.

Lemma level_gt_spec a b : level_gt a b = true <-> level_rank b < level_rank a.
Proof. unfold level_gt. apply Z.ltb_lt. Qed.

Lemma eqb_neq_string (a b : string) : negb (String.eqb a b) = true <-> a <> b.
Proof.
  destruct (String.eqb_spec a b) as [->|Hne]; simpl; split; intros H;
    try congruence; try reflexivity.
Qed.

(** The two halves of [dispatch], each with the condition that decides it. *)
Lemma dispatch_shape Global f d lvl rec :
  Global !! "stdout" = Some d ->
  exists wd wo,
    dispatch Global f lvl rec = Some (wd ++ wo) /\
    (wd = [(FWriter d, rec)] \/ wd = []) /\
    (wd = [(FWriter d, rec)] <-> level_rank (FLevel d) < level_rank lvl) /\
    (wo = [(FWriter f, rec)] \/ wo = []) /\
    (wo = [(FWriter f, rec)] <->
       FCategory f <> "DEFAULT" /\ FCategory f <> "stdout").
Proof.
  intros Hd. unfold dispatch. rewrite Hd.
  eexists _, _. split; [reflexivity|].
  split; [destruct (level_gt lvl (FLevel d)); auto|].
  split.
  { rewrite <- level_gt_spec.
    destruct (level_gt lvl (FLevel d)); split; intros H;
      try reflexivity; discriminate H. }
  split; [destruct (_ && _); auto|].
  rewrite <- !eqb_neq_string.
  destruct (negb (String.eqb (FCategory f) "DEFAULT")),
    (negb (String.eqb (FCategory f) "stdout")); simpl; split; intros H;
    try reflexivity; try discriminate H; destruct H; auto; discriminate.
Qed.

Lemma dispatch_registered Global cat own d lvl rec :
  Global !! "stdout" = Some d ->
  cat <> "DEFAULT" -> cat <> "stdout" ->
  FCategory own = cat ->
  dispatch Global own lvl rec =
    Some ((if level_gt lvl (FLevel d) then [(FWriter d, rec)] else [])
            ++ [(FWriter own, rec)]).
Proof.
  intros Hd H1 H2 Hc. unfold dispatch. rewrite Hd, Hc.
  apply eqb_neq_string in H1, H2. now rewrite H1, H2.
Qed.

(** C2.  A call that passes the threshold of the resolved filter makes at
    most two [LogWrite] calls, in this order: one on the "stdout" filter,
    made exactly when the level of the record is strictly greater than the
    threshold of that filter, and one on the resolved filter itself, made
    exactly when its category is neither "DEFAULT" nor "stdout".  This holds
    for [intLogf], [intLogc] and [Log] alike. *)
Theorem C2_dispatch_rule Sprintf now src Global f d lvl :
  Global !! "stdout" = Some d ->
  level_rank (FLevel f) <= level_rank lvl ->
  forall call : option (list Write),
    (exists format args,
       call = intLogf Sprintf now src Global f lvl format args) \/
    (exists closure, call = intLogc now src Global f lvl closure) \/
    (exists source message, call = Log now Global f lvl source message) ->
  exists rec wd wo,
    call = Some (wd ++ wo) /\
    Level_ rec = lvl /\ Category rec = FCategory f /\
    (wd = [(FWriter d, rec)] \/ wd = []) /\
    (wd = [(FWriter d, rec)] <-> level_rank (FLevel d) < level_rank lvl) /\
    (wo = [(FWriter f, rec)] \/ wo = []) /\
    (wo = [(FWriter f, rec)] <->
       FCategory f <> "DEFAULT" /\ FCategory f <> "stdout").
Proof.
  intros Hd Hge call Hcall.
  apply level_ge_spec in Hge.
  destruct Hcall
    as [(format & args & ->)|[(closure & ->)|(source & message & ->)]].
  - unfold intLogf. rewrite Hge. simpl negb. cbv iota.
    set (rec := mkLogRecord lvl now src _ (FCategory f)).
    destruct (dispatch_shape Global f d lvl rec Hd) as (wd & wo & H).
    exists rec, wd, wo. intuition.
  - unfold intLogc. rewrite Hge. simpl negb. cbv iota.
    set (rec := mkLogRecord lvl now src _ (FCategory f)).
    destruct (dispatch_shape Global f d lvl rec Hd) as (wd & wo & H).
    exists rec, wd, wo. intuition.
  - unfold Log. rewrite Hge. simpl negb. cbv iota.
    set (rec := mkLogRecord lvl now source message (FCategory f)).
    destruct (dispatch_shape Global f d lvl rec Hd) as (wd & wo & H).
    exists rec, wd, wo. intuition.
Qed.

Lemma C2_dispatch_rule_witness :
  exists rec wd wo,
    intLogf Sample.noSprintf Sample.jan1 "main.main:13"
      (Sample.registry FINE DEBUG) (mkFilter DEBUG 1%nat "Test") INFO
      "hello" [] = Some (wd ++ wo) /\
    Level_ rec = INFO /\ Category rec = "Test" /\
    (wd = [(0%nat, rec)] \/ wd = []) /\
    (wd = [(0%nat, rec)] <-> level_rank FINE < level_rank INFO) /\
    (wo = [(1%nat, rec)] \/ wo = []) /\
    (wo = [(1%nat, rec)] <-> "Test" <> "DEFAULT" /\ "Test" <> "stdout").
Proof.
  apply (C2_dispatch_rule Sample.noSprintf Sample.jan1 "main.main:13"
           (Sample.registry FINE DEBUG)
           (mkFilter DEBUG 1%nat "Test") (mkFilter FINE 0%nat "DEFAULT") INFO).
  - reflexivity.
  - simpl. lia.
  - left. exists "hello", []. reflexivity.
Defined.


Lemma LOGGER_registered (Global : Logger) cat own :
  Global !! cat = Some own ->
  LOGGER Global cat =
    Some (<[cat := set_FCategory own cat]> Global, set_FCategory own cat).
Proof. intros H. unfold LOGGER. now rewrite H. Qed.

Lemma LOGGER_default (Global : Logger) cat d :
  Global !! "stdout" = Some d ->
  cat = "stdout" \/ Global !! cat = None ->
  exists Global' f,
    LOGGER Global cat = Some (Global', f) /\
    Global' !! "stdout" = Some f /\
    FLevel f = FLevel d /\ FWriter f = FWriter d /\
    (FCategory f = "DEFAULT" \/ FCategory f = "stdout").
Proof.
  intros Hd [->|Hnone]; unfold LOGGER.
  - rewrite Hd. eexists _, _. split; [reflexivity|].
    rewrite lookup_insert_eq. simpl. auto.
  - rewrite Hnone, Hd. eexists _, _. split; [reflexivity|].
    rewrite lookup_insert_eq. simpl. auto.
Qed.

(** C1 (as the code has it).  In a registry with a category (other than
    "DEFAULT" and "stdout") whose filter has threshold DEBUG and writes to
    a sink of its own, [LOGGER(category).Info(..)] writes the record exactly
    once to the sink of the category; the "stdout" sink receives it once
    when its threshold is strictly below INFO and not at all otherwise, so
    with the threshold WARNING it does not receive the record. *)
Theorem C1_category_duplication Sprintf now src (Global : Logger) cat own d
    format :
  Global !! cat = Some own ->
  FLevel own = DEBUG ->
  Global !! "stdout" = Some d ->
  cat <> "DEFAULT" -> cat <> "stdout" ->
  FWriter own <> FWriter d ->
  exists ws,
    LOGGER_Info Sprintf now src Global cat format = Some ws /\
    writes_to (FWriter own) ws = 1%nat /\
    writes_to (FWriter d) ws =
      (if level_gt INFO (FLevel d) then 1%nat else 0%nat) /\
    (FLevel d = WARNING -> writes_to (FWriter d) ws = 0%nat).
Proof.
  intros Hown Hlvl Hd Hc1 Hc2 Hsink.
  unfold LOGGER_Info. rewrite (LOGGER_registered _ _ _ Hown).
  unfold intLogf. simpl FLevel. rewrite Hlvl. simpl negb. cbv iota.
  simpl FCategory.
  erewrite dispatch_registered; eauto;
    [|rewrite lookup_insert_ne; [exact Hd | exact Hc2]].
  eexists. split; [reflexivity|].
  assert (Hcount :
    forall rec : LogRecord,
      writes_to (FWriter own)
        ((if level_gt INFO (FLevel d) then [(FWriter d, rec)] else [])
           ++ [(FWriter (set_FCategory own cat), rec)]) = 1%nat /\
      writes_to (FWriter d)
        ((if level_gt INFO (FLevel d) then [(FWriter d, rec)] else [])
           ++ [(FWriter (set_FCategory own cat), rec)]) =
        (if level_gt INFO (FLevel d) then 1%nat else 0%nat)).
  { intros rec. unfold writes_to. simpl FWriter.
    destruct (level_gt INFO (FLevel d)); simpl;
      repeat (rewrite ?filter_cons, ?filter_nil; simpl; case_decide);
      simpl; try congruence; auto. }
  split; [apply Hcount|]. split; [apply Hcount|].
  intros Hw. rewrite (proj2 (Hcount _)), Hw. reflexivity.
Qed.

Lemma C1_category_duplication_witness :
  exists ws,
    LOGGER_Info Sample.noSprintf Sample.jan1 "main.main:13"
      (Sample.registry WARNING DEBUG) "Test" "hello" = Some ws /\
    writes_to 1%nat ws = 1%nat /\
    writes_to 0%nat ws = (if level_gt INFO WARNING then 1%nat else 0%nat) /\
    (WARNING = WARNING -> writes_to 0%nat ws = 0%nat).
Proof.
  apply (C1_category_duplication Sample.noSprintf Sample.jan1 "main.main:13"
           (Sample.registry WARNING DEBUG) "Test"
           (mkFilter DEBUG 1%nat "Test") (mkFilter WARNING 0%nat "DEFAULT")
           "hello"); try reflexivity; try discriminate.
Defined.

(** The claim C1 fails as stated: with the console at WARNING and the
    category at DEBUG, an INFO record reaches the sink of the category only. *)
Lemma C1_counterexample :
  let rec := mkLogRecord INFO Sample.jan1 "main.main:13" "hello" "Test" in
  LOGGER_Info Sample.noSprintf Sample.jan1 "main.main:13"
    (Sample.registry WARNING DEBUG) "Test" "hello" = Some [(1%nat, rec)] /\
  writes_to 1%nat [(1%nat, rec)] = 1%nat /\
  writes_to 0%nat [(1%nat, rec)] = 0%nat /\
  writes_to 0%nat [(1%nat, rec)] <> 1%nat.
Proof. repeat split; try reflexivity. discriminate. Qed.

(** C10.  A record that passes the threshold of the resolved filter, whose
    level is not strictly greater than the threshold of the "stdout" filter
    and whose filter has the category "DEFAULT" or "stdout", is written to no
    sink; so a record logged through the default filter (by its own name or
    by an unregistered category) at exactly the threshold of that filter is
    dropped. *)
Theorem C10_default_threshold_drop Sprintf now src (Global : Logger) d :
  Global !! "stdout" = Some d ->
  (forall f lvl,
     level_rank (FLevel f) <= level_rank lvl ->
     ~ level_rank (FLevel d) < level_rank lvl ->
     FCategory f = "DEFAULT" \/ FCategory f = "stdout" ->
     (forall format args,
        intLogf Sprintf now src Global f lvl format args = Some []) /\
     (forall closure, intLogc now src Global f lvl closure = Some []) /\
     (forall source message,
        Log now Global f lvl source message = Some [])) /\
  (forall cat format,
     cat = "stdout" \/ Global !! cat = None ->
     level_ge (FLevel d) (FLevel d) = true /\
     LOGGER_Logf Sprintf now src Global cat (FLevel d) format = Some []).
Proof.
  intros Hd.
  assert (Hdisp : forall G f lvl rec dd,
            G !! "stdout" = Some dd ->
            ~ level_rank (FLevel dd) < level_rank lvl ->
            FCategory f = "DEFAULT" \/ FCategory f = "stdout" ->
            dispatch G f lvl rec = Some []).
  { intros G f lvl rec dd HG Hgt Hcat. unfold dispatch. rewrite HG.
    destruct (level_gt lvl (FLevel dd)) eqn:E;
      [apply level_gt_spec in E; contradiction|].
    destruct Hcat as [-> | ->]; reflexivity. }
  split.
  - intros f lvl Hge Hgt Hcat. apply level_ge_spec in Hge.
    unfold intLogf, intLogc, Log. rewrite Hge. simpl negb. cbv iota.
    repeat split; intros; eapply Hdisp; eauto.
  - intros cat format Hcat.
    split; [apply level_ge_spec; lia|].
    destruct (LOGGER_default Global cat d Hd Hcat)
      as (G' & f & HL & HG' & Hlv & _ & Hc).
    unfold LOGGER_Logf. rewrite HL. unfold intLogf.
    rewrite <- Hlv.
    replace (level_ge (FLevel f) (FLevel f)) with true
      by (symmetry; apply level_ge_spec; lia).
    simpl negb. cbv iota. eapply Hdisp; eauto. lia.
Qed.

Lemma C10_default_threshold_drop_witness :
  (LOGGER_Logf Sample.noSprintf Sample.jan1 "main.main:24"
     (Sample.registry INFO DEBUG) "Other" INFO "normal info test"
   = Some []) /\
  (intLogc Sample.jan1 "main.main:24" (Sample.registry INFO DEBUG)
     (mkFilter DEBUG 0%nat "DEFAULT") INFO (fun _ => "lazy") = Some []).
Proof.
  pose proof (C10_default_threshold_drop Sample.noSprintf Sample.jan1
                "main.main:24"
                (Sample.registry INFO DEBUG) (mkFilter INFO 0%nat "DEFAULT")
                eq_refl) as [H1 H2].
  split.
  - apply (H2 "Other" "normal info test"). right. reflexivity.
  - apply (H1 (mkFilter DEBUG 0%nat "DEFAULT") INFO); simpl; try lia.
    left. reflexivity.
Defined.

End RouterFacts.

(** ** The pattern engine *)

Module PatternFacts.
Import Pattern.

(** *** Splitting *)

Lemma Split_nonempty sep s : Split sep s <> [].
Proof.
  destruct s as [|c s]; simpl; [discriminate|].
  destruct (Ascii.eqb c sep); [discriminate|].
  destruct (Split sep s); discriminate.
Qed.

Lemma Join_Split sep s : Join sep (Split sep s) = s.
Proof.
  induction s as [|c s IH]; [reflexivity|].
  cbn [Split]. destruct (Ascii.eqb_spec c sep) as [->|Hne].
  - pose proof (Split_nonempty sep s) as Hn.
    destruct (Split sep s) as [|p ps]; [congruence|].
    change (Join sep ("" :: p :: ps))
      with ("" +:+ String sep (Join sep (p :: ps))).
    rewrite string_app_nil_l. now rewrite IH.
  - pose proof (Split_nonempty sep s) as Hn.
    destruct (Split sep s) as [|p ps]; [congruence|].
    rewrite <- IH. destruct ps; reflexivity.
Qed.

Lemma Split_pieces sep s : Forall (fun p => occurs sep p = false) (Split sep s).
Proof.
  induction s as [|c s IH]; [repeat constructor|].
  cbn [Split]. destruct (Ascii.eqb c sep) eqn:E.
  - constructor; [reflexivity | exact IH].
  - destruct (Split sep s) as [|p ps];
      [repeat constructor; simpl; now rewrite E|].
    inversion IH; subst. constructor; [|assumption].
    simpl. now rewrite E.
Qed.

(** A pattern without a percent sign has no datetime directive. *)
Lemma replaceAllDttm_plain Format rec i s :
  occurs "%" s = false -> replaceAllDttm Format rec i O s = s.
Proof.
  induction s as [|c s IH]; [reflexivity|].
  cbn [occurs]. intros H. apply orb_false_elim in H as [Hc Hs].
  cbn [replaceAllDttm].
  assert (Hm : dttm_match (String c s) = None).
  { unfold dttm_match.
    change (String.prefix "%D{" (String c s))
      with (if ascii_dec "%" c then String.prefix "D{" s else false).
    destruct (ascii_dec "%" c) as [<-|_]; [discriminate Hc | reflexivity]. }
  rewrite Hm. now rewrite IH.
Qed.

Section RenderFacts.

Variable Format : Time -> string -> string.
Variable levelStrings : Level -> string.

Local Abbreviation directive := (directive levelStrings).
Local Abbreviation renderPiece := (renderPiece levelStrings).
Local Abbreviation renderPieces := (renderPieces levelStrings).
Local Abbreviation FormatLogRecord := (FormatLogRecord Format levelStrings).
Local Abbreviation changeDttmFormat := (changeDttmFormat Format).

Lemma directive_unknown cache rec c :
  known_selector c = false -> directive cache rec c = ("", rec).
Proof.
  unfold known_selector, directive. simpl existsb. intros H.
  repeat (apply orb_false_elim in H; destruct H as [-> H]).
  reflexivity.
Qed.

Lemma renderPiece_unknown cache rec c tail :
  known_selector c = false ->
  renderPiece cache false (String c tail) rec = (tail, rec).
Proof.
  intros H. unfold renderPiece. rewrite (directive_unknown _ _ _ H).
  reflexivity.
Qed.

Lemma renderPieces_app cache first pre post rec :
  renderPieces cache first (pre ++ post) rec =
    let '(o1, r1) := renderPieces cache first pre rec in
    let '(o2, r2) :=
      renderPieces cache (match pre with [] => first | _ => false end)
        post r1 in
    (o1 +:+ o2, r2).
Proof.
  revert first rec. induction pre as [|p pre IH]; intros first rec.
  - simpl. now destruct (renderPieces cache first post rec).
  - simpl app. simpl Pattern.renderPieces.
    destruct (renderPiece cache first p rec) as [o1 r1].
    rewrite IH.
    destruct (renderPieces cache false pre r1) as [o2 r2].
    destruct pre as [|q pre];
      destruct (renderPieces cache false post r2) as [o3 r3];
      now rewrite string_app_assoc.
Qed.

Lemma FormatLogRecord_nonempty fc format rec :
  format <> "" ->
  FormatLogRecord fc format (Some rec) =
    let secs := Z.quot (t_unixnano (Created rec)) 1000000000 in
    let cache := if negb (LastUpdateSeconds fc =? secs)
                 then updatedCache secs (Created rec) else fc in
    let '(out, r') :=
      renderPieces cache true (Split "%" (changeDttmFormat format rec)) rec in
    (out +:+ String LF "", Some r', cache).
Proof.
  intros Hne. unfold Pattern.FormatLogRecord.
  destruct format as [|c format]; [congruence|]. reflexivity.
Qed.

Lemma patched_idem rec : patched (patched rec) = patched rec.
Proof.
  unfold patched. destruct (Category rec) as [|c s] eqn:E; simpl.
  - reflexivity.
  - rewrite E. reflexivity.
Qed.

Lemma directive_record cache rec c :
  (directive cache rec c).2 =
    if Ascii.eqb c "C" then patched rec else rec.
Proof.
  unfold Pattern.directive, patched.
  destruct (Ascii.eqb_spec c "C") as [->|Hc]; [reflexivity|].
  repeat match goal with
         | |- context [Ascii.eqb c ?x] => destruct (Ascii.eqb c x)
         end; reflexivity.
Qed.

Lemma prefix_C c tail :
  String.prefix "C" (String c tail) = Ascii.eqb c "C".
Proof.
  change (String.prefix "C" (String c tail))
    with (if ascii_dec "C" c then String.prefix "" tail else false).
  destruct (ascii_dec "C" c) as [<-|n].
  - now destruct tail.
  - symmetry. apply Ascii.eqb_neq. congruence.
Qed.

Lemma renderPiece_record cache piece rec :
  (renderPiece cache false piece rec).2 =
    if String.prefix "C" piece then patched rec else rec.
Proof.
  destruct piece as [|c tail]; [reflexivity|].
  unfold Pattern.renderPiece.
  pose proof (directive_record cache rec c) as H.
  destruct (directive cache rec c) as [sub r']. simpl in H. subst r'.
  rewrite prefix_C. reflexivity.
Qed.

Lemma renderPieces_record cache pieces rec :
  (renderPieces cache false pieces rec).2 =
    if existsb (String.prefix "C") pieces then patched rec else rec.
Proof.
  revert rec. induction pieces as [|p ps IH]; intros rec; [reflexivity|].
  simpl. pose proof (renderPiece_record cache p rec) as Hp.
  destruct (renderPiece cache false p rec) as [o1 r1]. simpl in Hp.
  specialize (IH r1).
  destruct (renderPieces cache false ps r1) as [o2 r2]. simpl in IH.
  simpl. subst r2 r1.
  destruct (String.prefix "C" p), (existsb (String.prefix "C") ps); simpl;
    auto using patched_idem.
Qed.

Lemma renderPieces_first_record cache pieces rec :
  (renderPieces cache true pieces rec).2 =
    if has_category_directive pieces then patched rec else rec.
Proof.
  destruct pieces as [|p ps]; [reflexivity|].
  unfold has_category_directive. simpl List.tl.
  simpl. assert (Hp : renderPiece cache true p rec = (p, rec))
    by now destruct p.
  rewrite Hp. pose proof (renderPieces_record cache ps rec) as H.
  destruct (renderPieces cache false ps rec) as [o2 r2]. exact H.
Qed.

(** C9 (as the code has it).  A call with a non-empty pattern and a
    record whose category is empty sets the category to "DEFAULT" exactly
    when, after the datetime directives are rewritten, some piece after
    the first begins with the selector C; otherwise the record is left as
    it was.  A call with the empty pattern leaves the record as it was. *)
Theorem C9_category_default fc format rec :
  Category rec = "" ->
  (format <> "" ->
   (FormatLogRecord fc format (Some rec)).1.2 =
     if has_category_directive (Split "%" (changeDttmFormat format rec))
     then Some (set_Category rec "DEFAULT") else Some rec) /\
  (format = "" -> (FormatLogRecord fc format (Some rec)).1.2 = Some rec).
Proof.
  intros Hcat. split.
  - intros Hne. rewrite (FormatLogRecord_nonempty _ _ _ Hne). cbv zeta.
    pose proof (renderPieces_first_record
                  (if negb (LastUpdateSeconds fc =?
                              Z.quot (t_unixnano (Created rec)) 1000000000)
                   then updatedCache
                          (Z.quot (t_unixnano (Created rec)) 1000000000)
                          (Created rec)
                   else fc)
                  (Split "%" (changeDttmFormat format rec)) rec) as H.
    destruct (renderPieces _ true _ rec) as [out r']. simpl in H. simpl.
    rewrite H. unfold patched. rewrite Hcat. simpl.
    now destruct (has_category_directive _).
  - intros ->. reflexivity.
Qed.

End RenderFacts.

Lemma C9_category_default_witness :
  (FormatLogRecord Sample.Format Sample.levelStrings formatCache0
     "[%C] %M" (Some Sample.hello)).1.2
   = Some (set_Category Sample.hello "DEFAULT") /\
  (FormatLogRecord Sample.Format Sample.levelStrings formatCache0
     "" (Some Sample.hello)).1.2 = Some Sample.hello.
Proof.
  destruct (C9_category_default Sample.Format Sample.levelStrings
              formatCache0 "[%C] %M" Sample.hello eq_refl) as [H1 _].
  destruct (C9_category_default Sample.Format Sample.levelStrings
              formatCache0 "" Sample.hello eq_refl) as [_ H2].
  split; [apply H1; discriminate | apply H2; reflexivity].
Defined.

(** The claim C9 fails as stated: the pattern "%M" has no category
    directive, and the empty category of the record stays empty. *)
Lemma C9_counterexample :
  Category Sample.hello = "" /\
  (FormatLogRecord Sample.Format Sample.levelStrings formatCache0
     "%M" (Some Sample.hello)).1.2 = Some Sample.hello /\
  (FormatLogRecord Sample.Format Sample.levelStrings formatCache0
     "%M" (Some Sample.hello)).1.2
    <> Some (set_Category Sample.hello "DEFAULT").
Proof. split; [reflexivity|]. split; [reflexivity | discriminate]. Qed.

End PatternFacts.

(** ** The second version of the pattern engine *)

Module PatternAltFacts.
Import Pattern.

Section RenderV2Facts.

Variable Format : Time -> string -> string.
Variable levelStrings : Level -> string.

Lemma alt_directive_unknown cache rec c :
  PatternAlt.known_selector_v2 c = false ->
  PatternAlt.directive_v2 levelStrings cache rec c = ("", rec).
Proof.
  unfold PatternAlt.known_selector_v2, PatternAlt.directive_v2. simpl existsb.
  intros H. repeat (apply orb_false_elim in H; destruct H as [-> H]).
  reflexivity.
Qed.

(** The policy for unknown selectors is the one of pattlog.go. *)
Lemma alt_renderPiece_unknown cache rec c tail :
  PatternAlt.known_selector_v2 c = false ->
  PatternAlt.renderPiece_v2 levelStrings cache false (String c tail) rec
    = (tail, rec).
Proof.
  intros H. unfold PatternAlt.renderPiece_v2.
  now rewrite (alt_directive_unknown _ _ _ H).
Qed.

(** With the table of the second version the message is selected by I; the
    selector M gives the minute of the time stamp. *)
Lemma alt_example fc rec :
  Message rec = "hello" ->
  (PatternAlt.FormatLogRecord_v2 Format levelStrings fc "[%Q] %I" (Some rec)).1.1
    = "[] hello" +:+ String LF "" /\
  (PatternAlt.FormatLogRecord_v2 Format levelStrings PatternAlt.formatCache0_v2
     "[%Q] %M" (Some (set_Message Sample.hello (Message rec)))).1.1
    = "[] 00" +:+ String LF "".
Proof.
  intros Hm. destruct rec as [lvl t s m c]. simpl in Hm. subst m.
  split; reflexivity.
Qed.

Lemma renderPieces_v2_app cache first pre post rec :
  PatternAlt.renderPieces_v2 levelStrings cache first (pre ++ post) rec =
    let '(o1, r1) :=
      PatternAlt.renderPieces_v2 levelStrings cache first pre rec in
    let '(o2, r2) :=
      PatternAlt.renderPieces_v2 levelStrings cache
        (match pre with [] => first | _ => false end) post r1 in
    (o1 +:+ o2, r2).
Proof.
  revert first rec. induction pre as [|p pre IH]; intros first rec.
  - simpl. now destruct (PatternAlt.renderPieces_v2 _ cache first post rec).
  - simpl app. simpl PatternAlt.renderPieces_v2.
    destruct (PatternAlt.renderPiece_v2 _ cache first p rec) as [o1 r1].
    rewrite IH.
    destruct (PatternAlt.renderPieces_v2 _ cache false pre r1) as [o2 r2].
    destruct pre as [|q pre];
      destruct (PatternAlt.renderPieces_v2 _ cache false post r2)
        as [o3 r3];
      now rewrite string_app_assoc.
Qed.

Lemma FormatLogRecord_v2_nonempty fc format rec :
  format <> "" ->
  PatternAlt.FormatLogRecord_v2 Format levelStrings fc format (Some rec) =
    let secs := Z.quot (t_unixnano (Created rec)) 1000000000 in
    let cache := if negb (PatternAlt.LastUpdateSeconds_v2 fc =? secs)
                 then PatternAlt.updatedCache_v2 secs (Created rec)
                 else fc in
    let '(out, r') :=
      PatternAlt.renderPieces_v2 levelStrings cache true
        (Split "%" (changeDttmFormat Format format rec)) rec in
    (out +:+ String LF "", Some r', cache).
Proof.
  intros Hne. unfold PatternAlt.FormatLogRecord_v2.
  destruct format as [|c format]; [congruence|]. reflexivity.
Qed.

(** *** The line feed at the end *)

Lemma allLF_app_LF s :
  PatternSpec.allLF (s +:+ String LF "") = PatternSpec.allLF s.
Proof.
  induction s as [|c s IH]; [reflexivity|].
  rewrite string_app_cons. cbn [PatternSpec.allLF]. now rewrite IH.
Qed.

(** One more line feed at the end of a text is one more trailing line
    feed. *)
Lemma trailingLF_app_LF s :
  PatternSpec.trailingLF (s +:+ String LF "") = S (PatternSpec.trailingLF s).
Proof.
  induction s as [|c s IH]; [reflexivity|].
  rewrite string_app_cons. cbn [PatternSpec.trailingLF].
  rewrite <- string_app_cons, allLF_app_LF, string_app_cons.
  destruct (PatternSpec.allLF (String c s)); [|exact IH].
  cbn [String.length]. rewrite string_length_app. cbn [String.length]. lia.
Qed.

(** C8 (as the code has it).  In both versions of [FormatLogRecord], a
    piece after the first whose selector is none of the selectors of that
    version contributes its text after the selector and nothing else,
    inside any rendering.  The result for a non-empty pattern is the
    rendering of the pieces followed by one line feed: it ends with one
    line feed more than the rendered pieces do, hence with exactly one
    when they do not end with a line feed.  With the selectors of
    pattlog.go the pattern "[%Q] %M" and the message "hello" give
    "[] hello" and a line feed; with the selectors of the second version
    the message is written by I, and "[%Q] %I" gives that text. *)
Theorem C8_unknown_directive :
  ((forall cache rec c tail,
      known_selector c = false ->
      renderPiece levelStrings cache false (String c tail) rec = (tail, rec)) /\
   (forall cache pre c tail post rec,
      pre <> [] ->
      known_selector c = false ->
      renderPieces levelStrings cache true (pre ++ String c tail :: post) rec =
        let '(o1, r1) := renderPieces levelStrings cache true pre rec in
        let '(o2, r2) := renderPieces levelStrings cache false post r1 in
        (o1 +:+ tail +:+ o2, r2)) /\
   (forall fc format rec,
      format <> "" ->
      exists body rec' cache,
        FormatLogRecord Format levelStrings fc format (Some rec)
          = (body +:+ String LF "", Some rec', cache) /\
        renderPieces levelStrings cache true
          (Split "%" (changeDttmFormat Format format rec)) rec
          = (body, rec') /\
        PatternSpec.trailingLF (body +:+ String LF "")
          = S (PatternSpec.trailingLF body)) /\
   (forall fc rec,
      Message rec = "hello" ->
      (FormatLogRecord Format levelStrings fc "[%Q] %M" (Some rec)).1.1
        = "[] hello" +:+ String LF "")) /\
  ((forall cache rec c tail,
      PatternAlt.known_selector_v2 c = false ->
      PatternAlt.renderPiece_v2 levelStrings cache false (String c tail) rec
        = (tail, rec)) /\
   (forall cache pre c tail post rec,
      pre <> [] ->
      PatternAlt.known_selector_v2 c = false ->
      PatternAlt.renderPieces_v2 levelStrings cache true
        (pre ++ String c tail :: post) rec =
        let '(o1, r1) :=
          PatternAlt.renderPieces_v2 levelStrings cache true pre rec in
        let '(o2, r2) :=
          PatternAlt.renderPieces_v2 levelStrings cache false post r1 in
        (o1 +:+ tail +:+ o2, r2)) /\
   (forall fc format rec,
      format <> "" ->
      exists body rec' cache,
        PatternAlt.FormatLogRecord_v2 Format levelStrings fc format (Some rec)
          = (body +:+ String LF "", Some rec', cache) /\
        PatternAlt.renderPieces_v2 levelStrings cache true
          (Split "%" (changeDttmFormat Format format rec)) rec
          = (body, rec') /\
        PatternSpec.trailingLF (body +:+ String LF "")
          = S (PatternSpec.trailingLF body)) /\
   (forall fc rec,
      Message rec = "hello" ->
      (PatternAlt.FormatLogRecord_v2 Format levelStrings fc "[%Q] %I"
         (Some rec)).1.1
        = "[] hello" +:+ String LF "")).
Proof.
  split.
  - split; [exact (PatternFacts.renderPiece_unknown levelStrings)|].
    split.
    { intros cache pre c tail post rec Hpre Hc.
      destruct pre as [|p pre]; [congruence|].
      rewrite PatternFacts.renderPieces_app. cbv iota.
      destruct (renderPieces levelStrings cache true (p :: pre) rec)
        as [o1 r1].
      change (renderPieces levelStrings cache false (String c tail :: post)
                r1)
        with (let '(a, ra) :=
                renderPiece levelStrings cache false (String c tail) r1 in
              let '(b, rb) := renderPieces levelStrings cache false post ra in
              (a +:+ b, rb)).
      rewrite (PatternFacts.renderPiece_unknown levelStrings _ _ _ _ Hc).
      now destruct (renderPieces levelStrings cache false post r1). }
    split.
    { intros fc format rec Hne.
      rewrite (PatternFacts.FormatLogRecord_nonempty Format levelStrings
                 _ _ _ Hne).
      cbv zeta.
      destruct (renderPieces levelStrings _ true _ rec) as [out r'] eqn:E.
      eexists _, _, _. split; [reflexivity|]. split; [exact E|].
      apply trailingLF_app_LF. }
    intros fc rec Hm. destruct rec as [lvl t s m c]. simpl in Hm. subst m.
    reflexivity.
  - split; [exact alt_renderPiece_unknown|].
    split.
    { intros cache pre c tail post rec Hpre Hc.
      destruct pre as [|p pre]; [congruence|].
      rewrite renderPieces_v2_app. cbv iota.
      destruct (PatternAlt.renderPieces_v2 levelStrings cache true (p :: pre)
                  rec) as [o1 r1].
      change (PatternAlt.renderPieces_v2 levelStrings cache false
                (String c tail :: post) r1)
        with (let '(a, ra) :=
                PatternAlt.renderPiece_v2 levelStrings cache false
                  (String c tail) r1 in
              let '(b, rb) :=
                PatternAlt.renderPieces_v2 levelStrings cache false post ra in
              (a +:+ b, rb)).
      rewrite (alt_renderPiece_unknown _ _ _ _ Hc).
      now destruct (PatternAlt.renderPieces_v2 levelStrings cache false post
                      r1). }
    split.
    { intros fc format rec Hne.
      rewrite (FormatLogRecord_v2_nonempty _ _ _ Hne). cbv zeta.
      destruct (PatternAlt.renderPieces_v2 levelStrings _ true _ rec)
        as [out r'] eqn:E.
      eexists _, _, _. split; [reflexivity|]. split; [exact E|].
      apply trailingLF_app_LF. }
    intros fc rec Hm. destruct rec as [lvl t s m c]. simpl in Hm. subst m.
    reflexivity.
Qed.

End RenderV2Facts.

Lemma C8_unknown_directive_witness :
  (known_selector "Q" = false /\
   renderPiece Sample.levelStrings formatCache0 false "Q] " Sample.hello
     = ("] ", Sample.hello) /\
   renderPieces Sample.levelStrings formatCache0 true
     (["["] ++ "Q] " :: ["M"]) Sample.hello
     = ("[" +:+ "] " +:+ "hello", Sample.hello) /\
   (exists body rec' cache,
      FormatLogRecord Sample.Format Sample.levelStrings formatCache0
        "[%Q] %M" (Some Sample.hello)
        = (body +:+ String LF "", Some rec', cache) /\
      renderPieces Sample.levelStrings cache true
        (Split "%" (changeDttmFormat Sample.Format "[%Q] %M" Sample.hello))
        Sample.hello = (body, rec') /\
      PatternSpec.trailingLF (body +:+ String LF "")
        = S (PatternSpec.trailingLF body)) /\
   (FormatLogRecord Sample.Format Sample.levelStrings formatCache0 "[%Q] %M"
      (Some Sample.hello)).1.1 = "[] hello" +:+ String LF "") /\
  (PatternAlt.known_selector_v2 "Q" = false /\
   PatternAlt.renderPiece_v2 Sample.levelStrings PatternAlt.formatCache0_v2
     false "Q] " Sample.hello = ("] ", Sample.hello) /\
   PatternAlt.renderPieces_v2 Sample.levelStrings PatternAlt.formatCache0_v2
     true (["["] ++ "Q] " :: ["I"]) Sample.hello
     = ("[" +:+ "] " +:+ "hello", Sample.hello) /\
   (PatternAlt.FormatLogRecord_v2 Sample.Format Sample.levelStrings
      PatternAlt.formatCache0_v2 "[%Q] %I" (Some Sample.hello)).1.1
     = "[] hello" +:+ String LF "").
Proof.
  destruct (C8_unknown_directive Sample.Format Sample.levelStrings)
    as ((H1 & H2 & H3 & H4) & (A1 & A2 & _ & A4)).
  split.
  - split; [reflexivity|].
    split; [apply H1; reflexivity|].
    split.
    { apply (H2 formatCache0 ["["] "Q"%char "] " ["M"] Sample.hello);
        [discriminate | reflexivity]. }
    split; [apply H3; discriminate | apply H4; reflexivity].
  - split; [reflexivity|].
    split; [apply A1; reflexivity|].
    split.
    { apply (A2 PatternAlt.formatCache0_v2 ["["] "Q"%char "] " ["I"]
               Sample.hello); [discriminate | reflexivity]. }
    apply A4. reflexivity.
Defined.

(** With the selectors of the second version, M is the minute: the
    pattern "[%Q] %M" does not write the message.  And a line that ends
    with the message ends with the line feeds of the message and one
    more. *)
Lemma C8_counterexample :
  (PatternAlt.FormatLogRecord_v2 Sample.Format Sample.levelStrings
     PatternAlt.formatCache0_v2 "[%Q] %M" (Some Sample.hello)).1.1
    = "[] 00" +:+ String LF "" /\
  (let out :=
     (FormatLogRecord Sample.Format Sample.levelStrings formatCache0 "%M"
        (Some (Sample.record (String "x" (String LF ""))))).1.1 in
   out = String "x" (String LF (String LF "")) /\
   PatternSpec.trailingLF out = 2%nat).
Proof. split; [reflexivity | split; reflexivity]. Qed.

End PatternAltFacts.

(** ** The rotating file writer *)

Module FileSinkFacts.
Import Pattern FileSink.

(** *** Backup names *)

Lemma countName_inj name a b : countName name a = countName name b -> a = b.
Proof.
  unfold countName. intros H.
  apply string_app_inv_head in H. apply string_app_inv_head in H.
  now apply (inj pretty) in H.
Qed.

Lemma countName_neq_name name a : countName name a <> name.
Proof.
  unfold countName. intros H. apply (f_equal String.length) in H.
  rewrite !string_length_app in H. simpl in H. lia.
Qed.

Lemma countName_nonempty name a : String.eqb (countName name a) "" = false.
Proof.
  apply String.eqb_neq. unfold countName. intros H.
  apply (f_equal String.length) in H.
  rewrite !string_length_app in H. simpl in H. lia.
Qed.

Lemma dailyName_neq_name name date a : dailyName name date a <> name.
Proof.
  unfold dailyName. intros H. apply (f_equal String.length) in H.
  rewrite !string_length_app in H. simpl in H. lia.
Qed.

Lemma dailyName_nonempty name date a :
  String.eqb (dailyName name date a) "" = false.
Proof.
  apply String.eqb_neq. unfold dailyName. intros H.
  apply (f_equal String.length) in H.
  rewrite !string_length_app in H. simpl in H. lia.
Qed.

(** *** The shift of the numbered backups *)

Section ShiftFacts.

Variable env : Env.
Hypothesis rename_ok : forall a b, rename_fails env a b = false.
Variable name : string.

Lemma os_Rename_ok (m : FS) a b fi :
  m !! a = Some fi -> String.eqb b "" = false ->
  os_Rename env m a b = inl (<[b := fi]> (delete a m)).
Proof.
  intros Ha Hb. unfold os_Rename. now rewrite rename_ok, Ha, Hb.
Qed.

Lemma shiftBackups_step (n : nat) fname (m : FS) :
  Z.of_nat (S n) < int_max ->
  shiftBackups env name (S n) (Z.of_nat (S n)) fname m =
    shiftBackups env name n (Z.of_nat n)
      (countName name (Z.of_nat (S n))) (shift1 name (Z.of_nat (S n)) m).
Proof.
  intros Hb. cbn [shiftBackups].
  replace (1 <=? Z.of_nat (S n)) with true by (symmetry; apply Z.leb_le; lia).
  rewrite !int_wrap_id by (unfold is_int, int_min, int_max in *; lia).
  replace (Z.of_nat (S n) - 1) with (Z.of_nat n) by lia.
  f_equal. unfold shift1, os_Stat.
  destruct (m !! countName name (Z.of_nat (S n))) as [fi|] eqn:E;
    [|reflexivity].
  erewrite os_Rename_ok; eauto using countName_nonempty.
Qed.

Lemma shift1_lookup k (m : FS) p :
  shift1 name k m !! p =
    if decide (p = countName name (k + 1)) then
      match m !! countName name k with
      | Some fi => Some fi
      | None => m !! countName name (k + 1)
      end
    else if decide (p = countName name k) then None
    else m !! p.
Proof.
  unfold shift1.
  destruct (m !! countName name k) as [fi|] eqn:E.
  - destruct (decide (p = countName name (k + 1))) as [->|Hp].
    + now rewrite lookup_insert_eq.
    + rewrite lookup_insert_ne by congruence.
      destruct (decide (p = countName name k)) as [->|Hq].
      * now rewrite lookup_delete_eq.
      * rewrite lookup_delete_ne by congruence. reflexivity.
  - destruct (decide (p = countName name (k + 1))) as [->|Hp];
      [reflexivity|].
    destruct (decide (p = countName name k)) as [->|Hq]; [exact E|].
    reflexivity.
Qed.

(** The files after the whole loop for the numbers [n], .., 1. *)
Lemma shiftBackups_lookup (n : nat) :
  Z.of_nat n < int_max ->
  forall fname (m : FS),
    let m' := (shiftBackups env name n (Z.of_nat n) fname m).1 in
    (forall k, 1 <= k < Z.of_nat n ->
       m' !! countName name (k + 1) = m !! countName name k) /\
    ((0 < n)%nat ->
       m' !! countName name (Z.of_nat n + 1) =
         match m !! countName name (Z.of_nat n) with
         | Some fi => Some fi
         | None => m !! countName name (Z.of_nat n + 1)
         end) /\
    ((0 < n)%nat -> m' !! countName name 1 = None) /\
    (forall p, (forall k, 1 <= k <= Z.of_nat n + 1 -> p <> countName name k) ->
       m' !! p = m !! p).
Proof.
  induction n as [|n IH]; intros Hb fname m.
  - simpl. repeat split; intros; try lia; reflexivity.
  - rewrite shiftBackups_step by exact Hb. cbv zeta.
    assert (Hb' : Z.of_nat n < int_max) by lia.
    specialize (IH Hb' (countName name (Z.of_nat (S n)))
                  (shift1 name (Z.of_nat (S n)) m)).
    cbv zeta in IH. destruct IH as (IH1 & IH2 & IH3 & IH4).
    set (m' := (shiftBackups env name n (Z.of_nat n) _ _).1) in *.
    assert (Hne : forall a b : Z,
              a <> b -> countName name a <> countName name b)
      by (intros a b Hab Heq; apply Hab; eapply countName_inj; eauto).
    repeat split.
    + intros k Hk.
      destruct (decide (k = Z.of_nat n)) as [->|Hkn].
      * destruct n as [|n]; [lia|].
        rewrite IH2 by lia. rewrite !shift1_lookup.
        rewrite decide_False by (apply Hne; lia).
        rewrite decide_False by (apply Hne; lia).
        replace (Z.of_nat (S n) + 1) with (Z.of_nat (S (S n))) by lia.
        rewrite decide_False by (apply Hne; lia).
        rewrite decide_True by reflexivity.
        now destruct (m !! countName name (Z.of_nat (S n))).
      * rewrite IH1 by lia. rewrite shift1_lookup.
        rewrite decide_False by (apply Hne; lia).
        rewrite decide_False by (apply Hne; lia). reflexivity.
    + intros _. rewrite IH4.
      * rewrite shift1_lookup. rewrite decide_True by reflexivity.
        reflexivity.
      * intros k Hk. apply Hne. lia.
    + intros _. destruct n as [|n].
      * simpl in m'. subst m'. simpl. rewrite shift1_lookup.
        rewrite decide_False by (apply Hne; lia).
        rewrite decide_True by reflexivity. reflexivity.
      * apply IH3. lia.
    + intros p Hp. rewrite IH4.
      * rewrite shift1_lookup.
        rewrite decide_False by (apply Hp; lia).
        rewrite decide_False by (apply Hp; lia). reflexivity.
      * intros k Hk. apply Hp. lia.
Qed.

Lemma shiftBackups_fname (n : nat) :
  Z.of_nat n < int_max ->
  forall fname (m : FS),
    (shiftBackups env name n (Z.of_nat n) fname m).2 =
      match n with O => fname | S _ => countName name 1 end.
Proof.
  induction n as [|n IH]; intros Hb fname m; [reflexivity|].
  rewrite shiftBackups_step by exact Hb.
  rewrite IH by lia. destruct n; reflexivity.
Qed.

End ShiftFacts.

(** *** The loops have fuel enough *)

(** More fuel does not change the result of the shift loop: the loop has
    ended when the fuel of [moveAway] is used up. *)
Lemma shiftBackups_fuel env name extra num fname (m : FS) :
  is_int num ->
  shiftBackups env name (Z.to_nat num + extra) num fname m =
    shiftBackups env name (Z.to_nat num) num fname m.
Proof.
  remember (Z.to_nat num) as n eqn:Hn. revert num fname m Hn.
  induction n as [|n IH]; intros num fname m Hn Hint.
  - assert (Hle : num <= 0) by lia.
    destruct extra as [|k]; [reflexivity|]. simpl plus.
    cbn [shiftBackups].
    now replace (1 <=? num) with false by (symmetry; apply Z.leb_gt; lia).
  - assert (Hge : 1 <= num) by lia.
    simpl plus. cbn [shiftBackups].
    replace (1 <=? num) with true by (symmetry; apply Z.leb_le; lia).
    assert (Hw : int_wrap (num - 1) = num - 1)
      by (apply int_wrap_id; unfold is_int, int_min, int_max in *; lia).
    rewrite Hw. apply IH; [lia|].
    unfold is_int, int_min, int_max in *. lia.
Qed.

(** The same for the loop of [getCurrBackup]. *)
Lemma getCurrBackup_loop_fuel (m : FS) name day maxb f1 f2 i :
  maxb <= int_max -> 1 <= i ->
  (Z.to_nat (maxb - i) <= f1)%nat -> (Z.to_nat (maxb - i) <= f2)%nat ->
  getCurrBackup_loop m name day maxb f1 i =
    getCurrBackup_loop m name day maxb f2 i.
Proof.
  intros Hmax. revert f2 i. induction f1 as [|k1 IH]; intros f2 i Hi H1 H2.
  - assert (Hge : maxb <= i) by lia.
    destruct f2 as [|k2]; [reflexivity|]. cbn [getCurrBackup_loop].
    now replace (i <? maxb) with false by (symmetry; apply Z.ltb_ge; lia).
  - cbn [getCurrBackup_loop]. destruct (i <? maxb) eqn:E.
    + apply Z.ltb_lt in E. destruct f2 as [|k2]; [lia|].
      cbn [getCurrBackup_loop].
      replace (i <? maxb) with true by (symmetry; apply Z.ltb_lt; lia).
      destruct (negb (fileExist m (dailyName name day i))); [reflexivity|].
      assert (Hw : int_wrap (i + 1) = i + 1)
        by (apply int_wrap_id; unfold is_int, int_min, int_max in *; lia).
      rewrite Hw. apply IH; lia.
    + apply Z.ltb_ge in E. destruct f2 as [|k2]; [reflexivity|].
      cbn [getCurrBackup_loop].
      now replace (i <? maxb) with false by (symmetry; apply Z.ltb_ge; lia).
Qed.

(** *** Files and descriptors *)

(** Projections of updated records. *)
Ltac fields :=
  cbn [filename file format header trailer maxlines maxlines_curlines
       maxsize maxsize_cursize daily daily_opendate rotate maxbackup
       currbackup sanitize set_file set_daily_opendate set_currbackup
       set_counts fs formatCache stderr set_fs report fst snd] in *.

Lemma fs_append_data env (m : FS) p s fi :
  m !! p = Some fi ->
  f_data <$> (fs_append env m p s !! p) = Some (f_data fi +:+ s).
Proof.
  intros H. unfold fs_append. destruct (String.eqb_spec s "") as [->|Hs].
  - rewrite H. simpl. now rewrite string_app_nil_r.
  - rewrite H, lookup_insert_eq. reflexivity.
Qed.

Lemma fs_append_ne env (m : FS) p q s :
  p <> q -> fs_append env m p s !! q = m !! q.
Proof.
  intros H. unfold fs_append. destruct (String.eqb s ""); [reflexivity|].
  destruct (m !! p); [|reflexivity]. now rewrite lookup_insert_ne.
Qed.

Lemma fs_append_is_Some env (m : FS) p q s :
  is_Some (fs_append env m p s !! q) <-> is_Some (m !! q).
Proof.
  unfold fs_append. destruct (String.eqb s ""); [reflexivity|].
  destruct (m !! p) as [fi|] eqn:E; [|reflexivity].
  destruct (decide (p = q)) as [->|Hne].
  - rewrite lookup_insert_eq, E. split; eauto.
  - now rewrite lookup_insert_ne.
Qed.

Section WriterFacts.

Variable Format : Time -> string -> string.
Variable levelStrings : Level -> string.

Local Abbreviation renderAt := (renderAt Format levelStrings).
Local Abbreviation closeCurrent := (closeCurrent Format levelStrings).
Local Abbreviation moveAway := (moveAway Format).
Local Abbreviation intRotate := (intRotate Format levelStrings).
Local Abbreviation writeRecord := (writeRecord Format levelStrings).
Local Abbreviation turn := (turn Format levelStrings).
Local Abbreviation consume := (consume Format levelStrings).
Local Abbreviation onReturn := (onReturn Format levelStrings).
Local Abbreviation FormatLogRecord := (FormatLogRecord Format levelStrings).
Local Abbreviation renderText := (renderText Format levelStrings).
Local Abbreviation recordText := (recordText Format levelStrings).
Local Abbreviation writeOnly := (writeOnly Format levelStrings).
Local Abbreviation rotateThenWrite := (rotateThenWrite Format levelStrings).

Lemma renderAt_fs env x pattern : fs (renderAt env x pattern).2 = fs x.
Proof.
  unfold FileSink.renderAt.
  now destruct (FormatLogRecord _ _ _) as [[s r] fc].
Qed.

Lemma renderAt_stderr env x pattern :
  stderr (renderAt env x pattern).2 = stderr x.
Proof.
  unfold FileSink.renderAt.
  now destruct (FormatLogRecord _ _ _) as [[s r] fc].
Qed.

Lemma Fprint__stderr env w x s : stderr (Fprint_ env w x s) = stderr x.
Proof.
  unfold Fprint_, Fprint.
  destruct (file w); try reflexivity. now destruct (write_fails env).
Qed.

Lemma Fprint__closed env w x s :
  file w <> OpenedFile -> Fprint_ env w x s = x.
Proof.
  intros H. unfold Fprint_, Fprint. destruct (file w); congruence.
Qed.

Lemma Fprint__opened env w x s :
  file w = OpenedFile -> write_fails env = false ->
  Fprint_ env w x s = set_fs x (fs_append env (fs x) (filename w) s).
Proof.
  intros H1 H2. unfold Fprint_, Fprint. now rewrite H1, H2.
Qed.

(** [closeCurrent] leaves no open descriptor and reports nothing. *)
Lemma closeCurrent_file env w x :
  file (closeCurrent env w x).1 <> OpenedFile.
Proof.
  unfold FileSink.closeCurrent.
  destruct (file w) eqn:E; simpl; try congruence;
    destruct (renderAt env x (trailer w)) as [s x1]; simpl;
    unfold Close_file; rewrite E; simpl; congruence.
Qed.

Lemma closeCurrent_fields env w x :
  let w' := (closeCurrent env w x).1 in
  filename w' = filename w /\ rotate w' = rotate w /\ daily w' = daily w /\
  maxbackup w' = maxbackup w /\ currbackup w' = currbackup w /\
  header w' = header w /\ trailer w' = trailer w /\ format w' = format w /\
  sanitize w' = sanitize w /\ maxlines w' = maxlines w /\
  maxsize w' = maxsize w.
Proof.
  unfold FileSink.closeCurrent.
  destruct (file w) eqn:E; simpl; try (repeat split; reflexivity);
    destruct (renderAt env x (trailer w)) as [s x1]; simpl;
    unfold Close_file; rewrite E; simpl; repeat split; reflexivity.
Qed.

Lemma closeCurrent_stderr env w x :
  stderr (closeCurrent env w x).2 = stderr x.
Proof.
  unfold FileSink.closeCurrent.
  destruct (file w) eqn:E; simpl; try reflexivity;
    pose proof (renderAt_stderr env x (trailer w)) as H;
    destruct (renderAt env x (trailer w)) as [s x1]; simpl in *;
    now rewrite Fprint__stderr.
Qed.

(** On a descriptor that is not open, [closeCurrent] writes nothing. *)
Lemma closeCurrent_closed_fs env w x :
  file w <> OpenedFile -> fs (closeCurrent env w x).2 = fs x.
Proof.
  intros H. unfold FileSink.closeCurrent.
  destruct (file w) eqn:E; simpl; try reflexivity; try congruence.
  pose proof (renderAt_fs env x (trailer w)) as Hfs.
  destruct (renderAt env x (trailer w)) as [s x1]. simpl in *.
  rewrite Fprint__closed by (rewrite E; congruence). exact Hfs.
Qed.

Lemma Close_file_fields w :
  let w' := Close_file w in
  filename w' = filename w /\ rotate w' = rotate w /\ daily w' = daily w /\
  maxbackup w' = maxbackup w /\ currbackup w' = currbackup w /\
  header w' = header w /\ trailer w' = trailer w /\ format w' = format w /\
  sanitize w' = sanitize w /\ maxlines w' = maxlines w /\
  maxsize w' = maxsize w /\ daily_opendate w' = daily_opendate w /\
  file w' <> OpenedFile.
Proof.
  unfold Close_file. destruct (file w) eqn:E; simpl;
    repeat split; try reflexivity; congruence.
Qed.

(** The numbered policy: every backup moves up by one, the live file
    becomes backup 1, and nothing else changes. *)
Lemma moveAway_count env w x live :
  (forall a b, rename_fails env a b = false) ->
  rotate w = true -> daily w = false ->
  2 <= maxbackup w <= int_max ->
  fs x !! filename w = Some live ->
  exists m,
    moveAway env w x =
      (None, Close_file (set_daily_opendate w (t_day (ModTime live))),
       set_fs x m) /\
    m !! countName (filename w) 1 = Some live /\
    m !! filename w = None /\
    (forall k fi, 1 <= k <= maxbackup w - 1 ->
       fs x !! countName (filename w) k = Some fi ->
       m !! countName (filename w) (k + 1) = Some fi) /\
    (forall k, 1 <= k < maxbackup w - 1 ->
       m !! countName (filename w) (k + 1)
         = fs x !! countName (filename w) k) /\
    (forall p, p <> filename w ->
       (forall k, 1 <= k <= maxbackup w -> p <> countName (filename w) k) ->
       m !! p = fs x !! p).
Proof.
  intros Hren Hrot Hdaily Hmb Hlive.
  unfold FileSink.moveAway. rewrite Hrot. unfold os_Stat. rewrite Hlive.
  fields. rewrite Hdaily.
  rewrite int_wrap_id by (unfold is_int, int_min, int_max in *; lia).
  set (n := Z.to_nat (maxbackup w - 1)).
  assert (Hn : maxbackup w - 1 = Z.of_nat n) by (unfold n; lia).
  rewrite Hn.
  assert (Hb : Z.of_nat n < int_max) by lia.
  pose proof (shiftBackups_lookup env Hren (filename w) n Hb "" (fs x)) as HL.
  pose proof (shiftBackups_fname env Hren (filename w) n Hb "" (fs x)) as HF.
  cbv zeta in HL.
  destruct (shiftBackups env (filename w) n (Z.of_nat n) "" (fs x))
    as [m fname]. simpl in HL, HF.
  destruct HL as (HL1 & HL2 & HL3 & HL4).
  destruct n as [|n']; [lia|]. subst fname.
  set (w1 := set_daily_opendate w (t_day (ModTime live))).
  destruct (Close_file_fields w1) as (Hfn & _). rewrite Hfn.
  unfold w1. fields.
  assert (Hm : m !! filename w = Some live).
  { rewrite HL4; [exact Hlive|]. intros k _ Heq.
    symmetry in Heq. now apply countName_neq_name in Heq. }
  rewrite (os_Rename_ok env Hren _ _ _ _ Hm (countName_nonempty _ _)).
  eexists. split; [reflexivity|].
  assert (Hne : forall a b : Z, a <> b ->
                  countName (filename w) a <> countName (filename w) b)
    by (intros a b Hab Heq; apply Hab; eapply countName_inj; eauto).
  assert (Hup : forall k, 1 <= k <= maxbackup w - 1 ->
            m !! countName (filename w) (k + 1) =
              if decide (k = maxbackup w - 1) then
                match fs x !! countName (filename w) k with
                | Some fi => Some fi
                | None => fs x !! countName (filename w) (k + 1)
                end
              else fs x !! countName (filename w) k).
  { intros k Hk. case_decide as Hd.
    - subst k. rewrite Hn. apply HL2. lia.
    - apply HL1. lia. }
  split; [now rewrite lookup_insert_eq|].
  split.
  { rewrite lookup_insert_ne by apply countName_neq_name.
    now rewrite lookup_delete_eq. }
  split.
  { intros k fi Hk Hfi.
    rewrite lookup_insert_ne by (apply Hne; lia).
    rewrite lookup_delete_ne by (apply not_eq_sym, countName_neq_name).
    rewrite Hup by lia. case_decide; now rewrite Hfi. }
  split.
  { intros k Hk.
    rewrite lookup_insert_ne by (apply Hne; lia).
    rewrite lookup_delete_ne by (apply not_eq_sym, countName_neq_name).
    rewrite Hup by lia. rewrite decide_False by lia. reflexivity. }
  intros p Hp Hpk.
  rewrite lookup_insert_ne by (apply not_eq_sym, Hpk; lia).
  rewrite lookup_delete_ne by congruence.
  apply HL4. intros k Hk. apply Hpk. lia.
Qed.

Lemma same_config_refl w : same_config w w.
Proof. unfold same_config. repeat split. Qed.

Lemma same_config_trans a b c :
  same_config a b -> same_config b c -> same_config a c.
Proof. unfold same_config. intuition congruence. Qed.

Lemma recordText_config w w' fc rec :
  same_config w w' -> recordText w' fc rec = recordText w fc rec.
Proof.
  intros (_ & Hf & _ & _ & _ & _ & _ & _ & _ & Hs).
  unfold FileSink.recordText. now rewrite Hf, Hs.
Qed.

Lemma renderAt_eq env x pattern :
  renderAt env x pattern =
    ((renderText env (formatCache x) pattern).1,
     mkWorld (fs x) (renderText env (formatCache x) pattern).2 (stderr x)).
Proof.
  unfold FileSink.renderAt, FileSink.renderText.
  now destruct (FormatLogRecord _ _ _) as [[s r] fc].
Qed.

Lemma closeCurrent_opened env w x :
  file w = OpenedFile -> write_fails env = false ->
  closeCurrent env w x =
    (set_file w ClosedFile,
     mkWorld
       (fs_append env (fs x) (filename w)
          (renderText env (formatCache x) (trailer w)).1)
       (renderText env (formatCache x) (trailer w)).2 (stderr x)).
Proof.
  intros Hf Hw. unfold FileSink.closeCurrent. rewrite Hf, renderAt_eq.
  rewrite Fprint__opened by assumption.
  unfold Close_file. rewrite Hf. reflexivity.
Qed.

Lemma os_OpenFile_fresh env (m : FS) p :
  open_fails env p = false -> p <> "" -> m !! p = None ->
  os_OpenFile env m p = inl (<[p := mkFileInfo "" (now env)]> m).
Proof.
  intros H1 H2 H3. unfold os_OpenFile. rewrite H1, H3.
  apply String.eqb_neq in H2. now rewrite H2.
Qed.

Lemma os_OpenFile_existing env (m : FS) p fi :
  open_fails env p = false -> p <> "" -> m !! p = Some fi ->
  os_OpenFile env m p = inl m.
Proof.
  intros H1 H2 H3. unfold os_OpenFile. rewrite H1, H3.
  apply String.eqb_neq in H2. now rewrite H2.
Qed.

(** A rotation under the numbered policy, without refusals: the old file,
    with the trailer, is backup 1; the new file holds the header; the
    counters restart. *)
Lemma intRotate_count env w x live :
  (forall a b, rename_fails env a b = false) ->
  open_fails env (filename w) = false ->
  write_fails env = false ->
  filename w <> "" ->
  rotate w = true -> daily w = false ->
  2 <= maxbackup w <= int_max ->
  file w = OpenedFile ->
  fs x !! filename w = Some live ->
  exists w' x',
    intRotate env w x = (None, w', x') /\
    same_config w w' /\
    file w' = OpenedFile /\
    maxlines_curlines w' = 0 /\ maxsize_cursize w' = 0 /\
    daily_opendate w' = t_day (now env) /\
    currbackup w' = currbackup w /\
    stderr x' = stderr x /\
    formatCache x' =
      (renderText env (renderText env (formatCache x) (trailer w)).2
         (header w)).2 /\
    f_data <$> (fs x' !! countName (filename w) 1) =
      Some (f_data live +:+ (renderText env (formatCache x) (trailer w)).1) /\
    f_data <$> (fs x' !! filename w) =
      Some (renderText env (renderText env (formatCache x) (trailer w)).2
              (header w)).1 /\
    (forall k fi, 1 <= k <= maxbackup w - 1 ->
       fs x !! countName (filename w) k = Some fi ->
       fs x' !! countName (filename w) (k + 1) = Some fi).
Proof.
  intros Hren Hopen Hwr Hname Hrot Hdaily Hmb Hfile Hlive.
  unfold FileSink.intRotate.
  rewrite closeCurrent_opened by assumption.
  set (tr := renderText env (formatCache x) (trailer w)).
  set (x1 := mkWorld _ (tr.2) (stderr x)).
  assert (Hlive1 : exists live1,
             fs x1 !! filename w = Some live1 /\
             f_data live1 = f_data live +:+ tr.1).
  { pose proof (fs_append_data env (fs x) (filename w) tr.1 live Hlive) as H.
    unfold x1. fields.
    destruct (fs_append env (fs x) (filename w) tr.1 !! filename w)
      as [l1|]; [|discriminate]. exists l1. split; [reflexivity|].
    simpl in H. congruence. }
  destruct Hlive1 as (live1 & Hl1 & Hd1).
  destruct (moveAway_count env (set_file w ClosedFile) x1 live1 Hren)
    as (m & Hmove & Hm1 & Hm0 & Hchain & _ & _); try assumption.
  rewrite Hmove.
  set (w2 := Close_file _).
  destruct (Close_file_fields
              (set_daily_opendate (set_file w ClosedFile)
                 (t_day (ModTime live1))))
    as (F1 & F2 & F3 & F4 & F5 & F6 & F7 & F8 & F9 & F10 & F11 & F12 & F13).
  fold w2 in F1, F2, F3, F4, F5, F6, F7, F8, F9, F10, F11, F12, F13.
  fields.
  rewrite F1. rewrite os_OpenFile_fresh by assumption.
  rewrite renderAt_eq. fields.
  set (hd := renderText env tr.2 (header (set_file w2 OpenedFile))).
  rewrite Fprint__opened by (fields; auto).
  fields. rewrite F1.
  eexists _, _. split; [reflexivity|]. fields.
  assert (Hhd : hd = renderText env tr.2 (header w))
    by (unfold hd; fields; now rewrite F6).
  split; [unfold same_config; fields; repeat split; assumption|].
  split; [reflexivity|]. split; [reflexivity|]. split; [reflexivity|].
  split; [reflexivity|]. split; [exact F5|]. split; [reflexivity|].
  split; [now rewrite <- Hhd|].
  split.
  { rewrite fs_append_ne by (apply not_eq_sym, countName_neq_name).
    rewrite lookup_insert_ne by (apply not_eq_sym, countName_neq_name).
    rewrite Hm1. simpl. now rewrite Hd1. }
  split.
  { erewrite fs_append_data by apply lookup_insert_eq.
    cbn [f_data]. rewrite string_app_nil_l, F6. reflexivity. }
  intros k fi Hk Hfi.
  rewrite fs_append_ne by (apply not_eq_sym, countName_neq_name).
  rewrite lookup_insert_ne by (apply not_eq_sym, countName_neq_name).
  apply Hchain; [exact Hk|].
  unfold x1. fields.
  rewrite fs_append_ne by (apply not_eq_sym, countName_neq_name).
  exact Hfi.
Qed.

(** *** One record *)

Lemma writeRecord_ok env w x rec :
  file w = OpenedFile -> write_fails env = false ->
  writeRecord env w x rec =
    (None,
     set_counts w (int_wrap (maxlines_curlines w + 1))
       (int_wrap (maxsize_cursize w
                  + Z.of_nat (String.length
                                (recordText w (formatCache x) rec).1))),
     mkWorld
       (fs_append env (fs x) (filename w)
          (recordText w (formatCache x) rec).1)
       (recordText w (formatCache x) rec).2 (stderr x)).
Proof.
  intros Hf Hw. unfold FileSink.writeRecord, FileSink.recordText.
  destruct (FormatLogRecord _ _ _) as [[s r] fc].
  unfold Fprint. now rewrite Hf, Hw.
Qed.

Lemma needRotate_trigger env w : needRotate env w = true <-> trigger env w.
Proof.
  unfold needRotate, trigger.
  rewrite !orb_true_iff, !andb_true_iff, negb_true_iff.
  rewrite !Z.ltb_lt, !Z.leb_le, Z.eqb_neq. tauto.
Qed.

Lemma turn_record env rec w x :
  turn env (Record_ rec) w x =
    if needRotate env w then rotateThenWrite env rec w x
    else writeOnly env rec w x.
Proof.
  unfold FileSink.turn, FileSink.rotateThenWrite, FileSink.writeOnly.
  destruct (needRotate env w); [|reflexivity].
  now destruct (intRotate env w x) as [[[e|] w'] x'].
Qed.

Lemma writeOnly_ok env rec w x :
  file w = OpenedFile -> write_fails env = false ->
  writeOnly env rec w x =
    (true,
     set_counts w (int_wrap (maxlines_curlines w + 1))
       (int_wrap (maxsize_cursize w
                  + Z.of_nat (String.length
                                (recordText w (formatCache x) rec).1))),
     mkWorld
       (fs_append env (fs x) (filename w)
          (recordText w (formatCache x) rec).1)
       (recordText w (formatCache x) rec).2 (stderr x)).
Proof.
  intros Hf Hw. unfold FileSink.writeOnly. now rewrite writeRecord_ok.
Qed.

Lemma needRotate_lines_only env w :
  maxsize w <= 0 -> daily w = false ->
  needRotate env w =
    (0 <? maxlines w) && (maxlines w <=? maxlines_curlines w).
Proof.
  intros Hs Hd. unfold needRotate. rewrite Hd.
  replace (0 <? maxsize w) with false by (symmetry; apply Z.ltb_ge; lia).
  simpl. now rewrite !orb_false_r.
Qed.

(** *** A rotation that keeps a backup *)

Lemma needRotate_same_day env w :
  maxsize w <= 0 ->
  (daily w = true -> t_day (now env) = daily_opendate w) ->
  needRotate env w =
    (0 <? maxlines w) && (maxlines w <=? maxlines_curlines w).
Proof.
  intros Hs Hd. unfold needRotate.
  replace (0 <? maxsize w) with false by (symmetry; apply Z.ltb_ge; lia).
  destruct (daily w).
  - rewrite (Hd eq_refl), Z.eqb_refl. cbn. now rewrite !orb_false_r.
  - cbn. now rewrite !orb_false_r.
Qed.

Lemma dailyBackup_name env w t :
  exists seq,
    (dailyBackup Format env w t).1
      = dailyName (filename w) (Format t "20060102") seq.
Proof.
  unfold dailyBackup.
  destruct (negb (t_day (now env) =? daily_opendate w));
    [exists 0 | exists (currbackup w)]; reflexivity.
Qed.

(** A rotation under the daily policy, with nothing refused: the file,
    with the trailer, is found under a dated name, and the new file begins
    with the header. *)
Lemma intRotate_daily env w x live :
  (forall a b, rename_fails env a b = false) ->
  open_fails env (filename w) = false ->
  write_fails env = false ->
  filename w <> "" ->
  rotate w = true -> daily w = true ->
  file w = OpenedFile ->
  fs x !! filename w = Some live ->
  exists w' x' date seq,
    intRotate env w x = (None, w', x') /\
    same_config w w' /\
    file w' = OpenedFile /\
    maxlines_curlines w' = 0 /\ maxsize_cursize w' = 0 /\
    stderr x' = stderr x /\
    formatCache x' =
      (renderText env (renderText env (formatCache x) (trailer w)).2
         (header w)).2 /\
    f_data <$> (fs x' !! dailyName (filename w) date seq) =
      Some (f_data live +:+ (renderText env (formatCache x) (trailer w)).1) /\
    f_data <$> (fs x' !! filename w) =
      Some (renderText env (renderText env (formatCache x) (trailer w)).2
              (header w)).1.
Proof.
  intros Hren Hopen Hwr Hname Hrot Hdaily Hfile Hlive.
  unfold FileSink.intRotate.
  rewrite closeCurrent_opened by assumption.
  set (tr := renderText env (formatCache x) (trailer w)).
  pose proof (fs_append_data env (fs x) (filename w) tr.1 live Hlive) as Hd.
  destruct (fs_append env (fs x) (filename w) tr.1 !! filename w)
    as [live1|] eqn:Hl1; [|discriminate].
  cbn in Hd. injection Hd as Hd1.
  unfold FileSink.moveAway. fields. rewrite Hrot. unfold os_Stat. fields.
  rewrite Hl1. fields. rewrite Hdaily.
  destruct (dailyBackup_name env
              (set_daily_opendate (set_file w ClosedFile)
                 (t_day (ModTime live1))) (ModTime live1)) as [seq Hseq].
  destruct (dailyBackup Format env _ (ModTime live1)) as [fname next].
  cbn [fst] in Hseq. fields. subst fname.
  set (date := Format (ModTime live1) "20060102").
  set (w2 := Close_file _).
  destruct (Close_file_fields
              (set_currbackup
                 (set_daily_opendate (set_file w ClosedFile)
                    (t_day (ModTime live1))) next))
    as (F1 & F2 & F3 & F4 & F5 & F6 & F7 & F8 & F9 & F10 & F11 & F12 & F13).
  fold w2 in F1, F2, F3, F4, F5, F6, F7, F8, F9, F10, F11, F12, F13.
  fields. rewrite F1.
  unfold os_Rename. rewrite Hren, Hl1, dailyName_nonempty. fields.
  rewrite F1.
  rewrite os_OpenFile_fresh; try assumption.
  2:{ rewrite lookup_insert_ne by apply dailyName_neq_name.
      apply lookup_delete_eq. }
  rewrite renderAt_eq. fields.
  set (hd := renderText env tr.2 (header (set_file w2 OpenedFile))).
  rewrite Fprint__opened by (fields; auto).
  fields. rewrite F1.
  eexists _, _, date, seq. split; [reflexivity|]. fields.
  assert (Hhd : hd = renderText env tr.2 (header w))
    by (unfold hd; fields; now rewrite F6).
  split; [unfold same_config; fields; repeat split; assumption|].
  split; [reflexivity|]. split; [reflexivity|]. split; [reflexivity|].
  split; [reflexivity|].
  split; [now rewrite <- Hhd|].
  split.
  { rewrite fs_append_ne by (apply not_eq_sym, dailyName_neq_name).
    rewrite lookup_insert_ne by (apply not_eq_sym, dailyName_neq_name).
    rewrite lookup_insert_eq. cbn. now rewrite Hd1. }
  erewrite fs_append_data by apply lookup_insert_eq.
  cbn [f_data]. rewrite string_app_nil_l, F6. reflexivity.
Qed.

(** A rotation that keeps a backup, by number or by day. *)
Lemma intRotate_backup env w x live :
  (forall a b, rename_fails env a b = false) ->
  open_fails env (filename w) = false ->
  write_fails env = false ->
  filename w <> "" ->
  rotate w = true ->
  (daily w = false -> 2 <= maxbackup w <= int_max) ->
  file w = OpenedFile ->
  fs x !! filename w = Some live ->
  exists backup w' x',
    intRotate env w x = (None, w', x') /\
    backup <> filename w /\
    (daily w = false -> backup = countName (filename w) 1) /\
    (daily w = true ->
     exists date seq, backup = dailyName (filename w) date seq) /\
    same_config w w' /\
    file w' = OpenedFile /\
    stderr x' = stderr x /\
    formatCache x' =
      (renderText env (renderText env (formatCache x) (trailer w)).2
         (header w)).2 /\
    f_data <$> (fs x' !! backup) =
      Some (f_data live +:+ (renderText env (formatCache x) (trailer w)).1) /\
    f_data <$> (fs x' !! filename w) =
      Some (renderText env (renderText env (formatCache x) (trailer w)).2
              (header w)).1.
Proof.
  intros Hren Hopen Hwr Hname Hrot Hmb Hfile Hlive.
  destruct (daily w) eqn:Hdaily.
  - destruct (intRotate_daily env w x live)
      as (w' & x' & date & seq & H1 & H2 & H3 & _ & _ & H6 & H7 & H8 & H9);
      try assumption.
    exists (dailyName (filename w) date seq), w', x'.
    split; [exact H1|]. split; [apply dailyName_neq_name|].
    split; [discriminate|]. split; [eauto|]. auto 10.
  - destruct (intRotate_count env w x live)
      as (w' & x' & H1 & H2 & H3 & _ & _ & _ & _ & H6 & H7 & H8 & H9 & _);
      try assumption; [auto|].
    exists (countName (filename w) 1), w', x'.
    split; [exact H1|]. split; [apply countName_neq_name|].
    split; [reflexivity|]. split; [discriminate|]. auto 10.
Qed.


(** *** Sanitizing *)

Lemma sanitizeMessage_escape msg : sanitizeMessage msg = escapeNewlines msg.
Proof.
  unfold sanitizeMessage, Replace.
  induction msg as [|c s IH]; [reflexivity|].
  cbn [replace_go escapeNewlines].
  change (String.prefix (String LF "") (String c s))
    with (if ascii_dec LF c then String.prefix "" s else false).
  destruct (ascii_dec LF c) as [<-|Hne].
  - replace (String.prefix "" s) with true by now destruct s.
    rewrite Ascii.eqb_refl. cbn [String.length Nat.pred].
    rewrite !string_app_cons, string_app_nil_l. now rewrite IH.
  - replace (Ascii.eqb c LF) with false
      by (symmetry; apply Ascii.eqb_neq; congruence).
    now rewrite IH.
Qed.

Lemma escapeNewlines_lineFeeds msg : lineFeeds (escapeNewlines msg) = O.
Proof.
  induction msg as [|c s IH]; [reflexivity|].
  cbn [escapeNewlines]. destruct (Ascii.eqb c LF) eqn:E.
  - cbn [lineFeeds]. rewrite IH. reflexivity.
  - cbn [lineFeeds]. now rewrite E, IH.
Qed.

(** C7.  With [sanitize] set, the record is rendered with every line feed
    of its message replaced by a backslash and the letter n; that text is
    what is appended to the file, the line counter grows by one and the
    byte counter by the length of that text.  The message a, line feed, b
    under the pattern "%M" is written as a, backslash, n, b and one line
    feed: a single line. *)
Theorem C7_sanitize env w x rec :
  sanitize w = true ->
  file w = OpenedFile ->
  write_fails env = false ->
  let clean := set_Message rec (escapeNewlines (Message rec)) in
  let out := FormatLogRecord (formatCache x) (format w) (Some clean) in
  let s := out.1.1 in
  let w' := set_counts w (int_wrap (maxlines_curlines w + 1))
              (int_wrap (maxsize_cursize w + Z.of_nat (String.length s))) in
  let x' := mkWorld (fs_append env (fs x) (filename w) s) out.2 (stderr x) in
  lineFeeds (Message clean) = O /\
  writeRecord env w x rec = (None, w', x') /\
  (~ trigger env w -> turn env (Record_ rec) w x = (true, w', x')) /\
  (format w = "%M" -> Message rec = String "a" (String LF "b") ->
   s = String "a" (String backslash (String "n" (String "b" (String LF ""))))
   /\ lineFeeds s = 1%nat).
Proof.
  intros Hs Hf Hw clean out s w' x'.
  assert (Hwr : writeRecord env w x rec = (None, w', x')).
  { rewrite writeRecord_ok by assumption.
    unfold FileSink.recordText. rewrite Hs, sanitizeMessage_escape.
    fold clean. fold out. unfold w', x', s.
    now destruct out as [[s0 r0] fc0]. }
  split; [apply escapeNewlines_lineFeeds|].
  split; [exact Hwr|].
  split.
  - intros Hnt. rewrite turn_record.
    destruct (needRotate env w) eqn:E;
      [apply needRotate_trigger in E; contradiction|].
    unfold FileSink.writeOnly. now rewrite Hwr.
  - intros Hfmt Hmsg. unfold s, out, clean. rewrite Hfmt, Hmsg.
    split; reflexivity.
Qed.

(** *** Daily names *)

Lemma dailyName_zero name date :
  name +:+ "." +:+ date +:+ ".0" = dailyName name date 0.
Proof. reflexivity. Qed.

Lemma dailyBackup_seq env w t :
  int_min <= currbackup w < int_max ->
  daily_opendate w = t_day t ->
  dailyBackup Format env w t =
    (dailyName (filename w) (Format t "20060102") (dailySeq env w t).1,
     (dailySeq env w t).2).
Proof.
  intros Hcb Hd. unfold dailyBackup, dailySeq. rewrite Hd.
  destruct (t_day (now env) =? t_day t); simpl negb; cbv iota.
  - rewrite int_wrap_id
      by (unfold is_int, int_min, int_max in *; lia). reflexivity.
  - reflexivity.
Qed.

(** C3 (as the code has it).  A rotation under the daily policy renames
    the existing file to name.YYYYMMDD.seq, where the date is the one of
    the modification time that [os.Stat] reports.  When today is another
    day of the month than that of the modification time, seq is 0 and the
    counter of the writer becomes 1; on the same day seq is the counter,
    which then grows by one and goes back to 1 once it reaches
    [maxbackup]. *)
Theorem C3_daily_naming env w x info :
  rotate w = true -> daily w = true ->
  fs (closeCurrent env w x).2 !! filename w = Some info ->
  (forall new, rename_fails env (filename w) new = false) ->
  open_fails env (filename w) = false ->
  filename w <> "" ->
  int_min <= currbackup w < int_max ->
  let date := Format (ModTime info) "20060102" in
  let same_day := t_day (now env) =? t_day (ModTime info) in
  let seq := if same_day then currbackup w else 0 in
  let next := if same_day
              then (if maxbackup w <=? currbackup w + 1 then 1
                    else currbackup w + 1)
              else 1 in
  exists w' x',
    intRotate env w x = (None, w', x') /\
    fs x' !! (filename w +:+ "." +:+ date +:+ "." +:+ pretty seq)
      = Some info /\
    currbackup w' = next /\
    file w' = OpenedFile /\
    stderr x' = stderr x.
Proof.
  intros Hrot Hdaily Hinfo Hren Hopen Hname Hcb date same_day seq next.
  unfold FileSink.intRotate.
  pose proof (closeCurrent_fields env w x) as HF. cbv zeta in HF.
  pose proof (closeCurrent_stderr env w x) as HE.
  destruct (closeCurrent env w x) as [w1 x1]. fields.
  destruct HF as (F1 & F2 & F3 & F4 & F5 & F6 & _).
  unfold FileSink.moveAway. rewrite F2, Hrot. unfold os_Stat.
  rewrite F1, Hinfo. fields. rewrite F3, Hdaily.
  rewrite dailyBackup_seq by (fields; congruence).
  fields. rewrite F1.
  set (w2 := Close_file _).
  destruct (Close_file_fields
              (set_currbackup
                 (set_daily_opendate w1 (t_day (ModTime info)))
                 (dailySeq env (set_daily_opendate w1 (t_day (ModTime info)))
                    (ModTime info)).2))
    as (G1 & G2 & G3 & G4 & G5 & G6 & _).
  fold w2 in G1, G2, G3, G4, G5, G6. fields. rewrite G1, F1.
  unfold os_Rename. rewrite Hren, Hinfo, dailyName_nonempty. fields.
  rewrite ?G1, ?F1.
  rewrite os_OpenFile_fresh; try assumption.
  2:{ rewrite lookup_insert_ne by apply dailyName_neq_name.
      apply lookup_delete_eq. }
  rewrite renderAt_eq. fields.
  eexists _, _. split; [reflexivity|]. fields.
  assert (Hseq : dailySeq env (set_daily_opendate w1 (t_day (ModTime info)))
                   (ModTime info) = (seq, next)).
  { unfold dailySeq, seq, next, same_day. fields. rewrite F4, F5.
    now destruct (t_day (now env) =? t_day (ModTime info)). }
  rewrite Hseq in *. fields.
  split.
  { assert (Hfs : forall s,
              fs (Fprint_ env (set_file w2 OpenedFile)
                    (mkWorld
                       (<[filename w := mkFileInfo "" (now env)]>
                          (<[dailyName (filename w) date seq := info]>
                             (delete (filename w) (fs x1))))
                       (renderText env (formatCache x1)
                          (header (set_file w2 OpenedFile))).2 (stderr x1)) s)
                !! dailyName (filename w) date seq = Some info).
    { intros s. unfold Fprint_, Fprint. fields.
      destruct (write_fails env); fields.
      - rewrite lookup_insert_ne by (apply not_eq_sym, dailyName_neq_name).
        apply lookup_insert_eq.
      - rewrite G1, F1.
        rewrite fs_append_ne by (apply not_eq_sym, dailyName_neq_name).
        rewrite lookup_insert_ne by (apply not_eq_sym, dailyName_neq_name).
        apply lookup_insert_eq. }
    apply Hfs. }
  split; [exact G5|].
  split; [reflexivity|].
  rewrite Fprint__stderr. fields. exact HE.
Qed.

(** *** The range of the backup counter *)

Lemma getCurrBackup_loop_range m name day maxb fuel i :
  maxb <= int_max -> 1 <= i ->
  let r := getCurrBackup_loop m name day maxb fuel i in
  1 <= r < int_max.
Proof.
  intros Hmax. revert i. induction fuel as [|k IH]; intros i Hi.
  - simpl. unfold int_max. lia.
  - cbn [getCurrBackup_loop]. destruct (i <? maxb) eqn:E.
    + apply Z.ltb_lt in E.
      destruct (negb (fileExist m (dailyName name day i))); [lia|].
      apply IH. rewrite int_wrap_id
        by (unfold is_int, int_min, int_max in *; lia). lia.
    + unfold int_max. lia.
Qed.

Lemma getCurrBackup_range env w m :
  maxbackup w <= int_max ->
  1 <= getCurrBackup Format env w m < int_max.
Proof.
  intros H. unfold getCurrBackup.
  now apply getCurrBackup_loop_range.
Qed.

(** The counter stays in the range that [C3_daily_naming] asks for. *)
Lemma intRotate_currbackup env w x err w' x' :
  maxbackup w <= int_max ->
  1 <= currbackup w < int_max ->
  intRotate env w x = (err, w', x') ->
  1 <= currbackup w' < int_max.
Proof.
  intros Hmax Hcb. unfold FileSink.intRotate.
  pose proof (closeCurrent_fields env w x) as HF. cbv zeta in HF.
  destruct (closeCurrent env w x) as [w1 x1]. fields.
  destruct HF as (_ & _ & _ & F4 & F5 & _).
  assert (Hmove : forall e w2 x2,
            moveAway env w1 x1 = (e, w2, x2) ->
            1 <= currbackup w2 < int_max).
  { unfold FileSink.moveAway. intros e w2 x2.
    destruct (rotate w1); [|intros [= <- <- <-]; lia].
    destruct (os_Stat (fs x1) (filename w1)) as [info|];
      [|intros [= <- <- <-]; lia].
    fields. destruct (daily w1).
    - rewrite dailyBackup_seq
        by (fields; first [reflexivity | unfold int_min; lia]).
      set (next := (dailySeq env _ (ModTime info)).2).
      assert (Hnext : 1 <= next < int_max).
      { unfold next, dailySeq. fields.
        destruct (t_day (now env) =? t_day (ModTime info)); fields.
        - destruct (maxbackup w1 <=? currbackup w1 + 1) eqn:E.
          + unfold int_max. lia.
          + apply Z.leb_gt in E. lia.
        - unfold int_max. lia. }
      set (w3 := Close_file _).
      destruct (Close_file_fields
                  (set_currbackup
                     (set_daily_opendate w1 (t_day (ModTime info))) next))
        as (_ & _ & _ & _ & G5 & _).
      fold w3 in G5. fields.
      destruct (os_Rename env (fs x1) (filename w3) _);
        intros [= <- <- <-]; lia.
    - destruct (shiftBackups env _ _ _ "" (fs x1)) as [m fname].
      set (w3 := Close_file _).
      destruct (Close_file_fields
                  (set_daily_opendate w1 (t_day (ModTime info))))
        as (_ & _ & _ & _ & G5 & _).
      fold w3 in G5. fields.
      destruct (os_Rename env m (filename w3) fname);
        intros [= <- <- <-]; lia. }
  destruct (moveAway env w1 x1) as [[[e0|] w2] x2] eqn:EM.
  - intros [= <- <- <-]. eapply Hmove; eauto.
  - specialize (Hmove _ _ _ eq_refl).
    destruct (os_OpenFile env (fs x2) (filename w2)) as [m|e0].
    + destruct (renderAt env _ _) as [s x3].
      intros [= <- <- <-]. fields. exact Hmove.
    + intros [= <- <- <-]. exact Hmove.
Qed.

(** *** Failures *)

Lemma os_Rename_error env (m : FS) a b e :
  os_Rename env m a b = inr e -> e = ERename a b.
Proof.
  unfold os_Rename.
  destruct (rename_fails env a b); [congruence|].
  destruct (m !! a); [|congruence].
  destruct (String.eqb b ""); congruence.
Qed.

Lemma os_OpenFile_error env (m : FS) p e :
  os_OpenFile env m p = inr e -> e = EOpen p.
Proof.
  unfold os_OpenFile.
  destruct (open_fails env p); [congruence|].
  destruct (String.eqb p ""); [congruence|].
  destruct (m !! p); congruence.
Qed.

(** [moveAway] keeps the name and the reports, opens nothing, and fails
    only with the refusal to rename the live file. *)
Lemma moveAway_facts env w x err w' x' :
  moveAway env w x = (err, w', x') ->
  filename w' = filename w /\
  stderr x' = stderr x /\
  (file w <> OpenedFile -> file w' <> OpenedFile) /\
  (forall e, err = Some e ->
     exists new, e = RotateError (ERename (filename w) new)).
Proof.
  unfold FileSink.moveAway.
  destruct (rotate w);
    [|intros [= <- <- <-]; repeat split; auto; discriminate].
  destruct (os_Stat (fs x) (filename w)) as [info|];
    [|intros [= <- <- <-]; repeat split; auto; discriminate].
  fields. destruct (daily w).
  - destruct (dailyBackup Format env _ (ModTime info)) as [fname next].
    set (w2 := Close_file _).
    destruct (Close_file_fields
                (set_currbackup
                   (set_daily_opendate w (t_day (ModTime info))) next))
      as (G1 & _ & _ & _ & _ & _ & _ & _ & _ & _ & _ & _ & G13).
    fold w2 in G1, G13. fields.
    destruct (os_Rename env (fs x) (filename w2) fname) as [m|e0] eqn:E;
      intros [= <- <- <-]; fields; repeat split; auto; try discriminate.
    intros e [= <-]. apply os_Rename_error in E. subst e0.
    exists fname. now rewrite G1.
  - destruct (shiftBackups env _ _ _ "" (fs x)) as [m fname].
    set (w2 := Close_file _).
    destruct (Close_file_fields
                (set_daily_opendate w (t_day (ModTime info))))
      as (G1 & _ & _ & _ & _ & _ & _ & _ & _ & _ & _ & _ & G13).
    fold w2 in G1, G13. fields.
    destruct (os_Rename env m (filename w2) fname) as [m'|e0] eqn:E;
      intros [= <- <- <-]; fields; repeat split; auto; try discriminate.
    intros e [= <-]. apply os_Rename_error in E. subst e0.
    exists fname. now rewrite G1.
Qed.

(** A failed [intRotate] leaves no open descriptor; its error is the
    refusal to rename or to open the live file. *)
Lemma intRotate_error env w x e w' x' :
  intRotate env w x = (Some e, w', x') ->
  filename w' = filename w /\
  stderr x' = stderr x /\
  file w' <> OpenedFile /\
  ((exists new, e = RotateError (ERename (filename w) new)) \/
   e = OSError (EOpen (filename w))).
Proof.
  unfold FileSink.intRotate.
  pose proof (closeCurrent_fields env w x) as HF. cbv zeta in HF.
  pose proof (closeCurrent_stderr env w x) as HE.
  pose proof (closeCurrent_file env w x) as HC.
  destruct (closeCurrent env w x) as [w1 x1]. fields.
  destruct HF as (F1 & _).
  destruct (moveAway env w1 x1) as [[err w2] x2] eqn:EM.
  destruct (moveAway_facts _ _ _ _ _ _ EM) as (M1 & M2 & M3 & M4).
  destruct err as [e0|].
  - intros [= <- <- <-]. repeat split; try congruence; auto.
    left. destruct (M4 e0 eq_refl) as (new & ->). exists new. congruence.
  - destruct (os_OpenFile env (fs x2) (filename w2)) as [m|e0] eqn:EO.
    + destruct (renderAt env _ _) as [s x3]. discriminate.
    + intros [= <- <- <-]. repeat split; try congruence; auto.
      right. apply os_OpenFile_error in EO. congruence.
Qed.

Lemma consume_app w0 x0 pre rest w x :
  consume w0 x0 pre = mkOutcome w x true [] ->
  consume w0 x0 (pre ++ rest) = consume w x rest.
Proof.
  revert w0 x0. induction pre as [|[env msg] pre IH]; intros w0 x0.
  - cbn. intros [= -> ->]. reflexivity.
  - cbn [FileSink.consume app].
    destruct (turn env msg w0 x0) as [[[|] w1] x1].
    + apply IH.
    + destruct (onReturn env w1 x1). discriminate.
Qed.

(** C6 (as the code has it).  When [intRotate] fails during a rotation
    of the consumer loop (asked for by a signal or forced by a trigger),
    the loop reports the error on the error stream and returns: nothing
    more is written, and the messages delivered after that stay unread.
    [intRotate] fails when the live file cannot be opened or cannot be
    renamed to its backup name, and only then. *)
Theorem C6_rotation_failure_stops :
  (forall w0 x0 pre w x env msg post e w' x',
     consume w0 x0 pre = mkOutcome w x true [] ->
     msg = RotateSignal \/ ((exists rec, msg = Record_ rec) /\ trigger env w) ->
     intRotate env w x = (Some e, w', x') ->
     let o := consume w0 x0 (pre ++ (env, msg) :: post) in
     running o = false /\
     unread o = post /\
     stderr (world o) = stderr x ++ [(filename w, e)] /\
     fs (world o) = fs x' /\
     ((exists new, e = RotateError (ERename (filename w) new)) \/
      e = OSError (EOpen (filename w)))) /\
  (forall env w x,
     open_fails env (filename w) = true ->
     exists e w' x', intRotate env w x = (Some e, w', x')) /\
  (forall env w x,
     rotate w = true ->
     is_Some (fs (closeCurrent env w x).2 !! filename w) ->
     (forall new, rename_fails env (filename w) new = true) ->
     exists new w' x',
       intRotate env w x =
         (Some (RotateError (ERename (filename w) new)), w', x')).
Proof.
  split; [|split].
  - intros w0 x0 pre w x env msg post e w' x' Hpre Hmsg Hrot o.
    unfold o. rewrite (consume_app _ _ _ _ _ _ Hpre).
    destruct (intRotate_error _ _ _ _ _ _ Hrot) as (E1 & E2 & E3 & E4).
    assert (Hturn : turn env msg w x = (false, w', report x' (filename w') e)).
    { destruct Hmsg as [->|[[rec ->] Htr]].
      - cbn [FileSink.turn]. now rewrite Hrot.
      - cbn [FileSink.turn]. apply needRotate_trigger in Htr.
        now rewrite Htr, Hrot. }
    cbn [FileSink.consume]. rewrite Hturn. unfold FileSink.onReturn.
    pose proof (closeCurrent_closed_fs env w' (report x' (filename w') e) E3)
      as Hfs.
    pose proof (closeCurrent_stderr env w' (report x' (filename w') e))
      as Herr.
    destruct (closeCurrent env w' _) as [w2 x2].
    cbn [running unread world]. fields.
    repeat split; try assumption; congruence.
  - intros env w x Hopen. unfold FileSink.intRotate.
    pose proof (closeCurrent_fields env w x) as HF. cbv zeta in HF.
    destruct (closeCurrent env w x) as [w1 x1]. fields.
    destruct HF as (F1 & _).
    destruct (moveAway env w1 x1) as [[[e0|] w2] x2] eqn:EM; [eauto|].
    destruct (moveAway_facts _ _ _ _ _ _ EM) as (M1 & _).
    unfold os_OpenFile. rewrite M1, F1, Hopen. eauto.
  - intros env w x Hrot [info Hinfo] Hren. unfold FileSink.intRotate.
    pose proof (closeCurrent_fields env w x) as HF. cbv zeta in HF.
    destruct (closeCurrent env w x) as [w1 x1]. fields.
    destruct HF as (F1 & F2 & _).
    unfold FileSink.moveAway. rewrite F2, Hrot. unfold os_Stat.
    rewrite F1, Hinfo. fields.
    destruct (daily w1).
    + destruct (dailyBackup Format env _ (ModTime info)) as [fname next].
      set (w2 := Close_file _).
      destruct (Close_file_fields
                  (set_currbackup
                     (set_daily_opendate w1 (t_day (ModTime info))) next))
        as (G1 & _).
      fold w2 in G1. fields.
      unfold os_Rename. rewrite G1, F1, Hren. eauto.
    + destruct (shiftBackups env _ _ _ "" (fs x1)) as [m fname].
      set (w2 := Close_file _).
      destruct (Close_file_fields
                  (set_daily_opendate w1 (t_day (ModTime info))))
        as (G1 & _).
      fold w2 in G1. fields.
      unfold os_Rename. rewrite G1, F1, Hren. eauto.
Qed.

End WriterFacts.



Lemma C7_sanitize_witness :
  let w := Sample.appWriter false false true 99 0 1 in
  let rec := Sample.record (String "a" (String LF "b")) in
  let o := consume Sample.Format Sample.levelStrings w (Sample.liveOnly "")
             [(Sample.ok Sample.jan1, Record_ rec)] in
  f_data <$> (fs (world o) !! "app.log")
    = Some (String "a"
              (String backslash (String "n" (String "b" (String LF "")))))
  /\ maxlines_curlines (writer o) = 1 /\ maxsize_cursize (writer o) = 5.
Proof.
  intros w rec o.
  destruct (C7_sanitize Sample.Format Sample.levelStrings
              (Sample.ok Sample.jan1) w (Sample.liveOnly "") rec
              eq_refl eq_refl eq_refl) as (_ & _ & Hturn & _).
  assert (Hnt : ~ trigger (Sample.ok Sample.jan1) w).
  { unfold trigger. simpl.
    intros [[H _]|[[H _]|[H _]]]; try lia; discriminate. }
  specialize (Hturn Hnt).
  unfold o. cbn [consume]. rewrite Hturn.
  repeat split; reflexivity.
Defined.

Lemma C3_daily_naming_witness :
  let w := Sample.appWriter true true false 5 0 3 in
  (exists w' x',
     intRotate Sample.Format Sample.levelStrings (Sample.ok Sample.jan2) w
       (Sample.liveOnly "x") = (None, w', x') /\
     fs x' !! "app.log.20240101.0" = Some (mkFileInfo "x" Sample.jan1) /\
     currbackup w' = 1 /\
     file w' = OpenedFile /\
     stderr x' = []) /\
  (exists w' x',
     intRotate Sample.Format Sample.levelStrings (Sample.ok Sample.jan1) w
       (Sample.liveOnly "x") = (None, w', x') /\
     fs x' !! "app.log.20240101.3" = Some (mkFileInfo "x" Sample.jan1) /\
     currbackup w' = 4 /\
     file w' = OpenedFile /\
     stderr x' = []) /\
  (exists w' x',
     intRotate Sample.Format Sample.levelStrings (Sample.ok Sample.jan1)
       (set_currbackup w 4) (Sample.liveOnly "x") = (None, w', x') /\
     fs x' !! "app.log.20240101.4" = Some (mkFileInfo "x" Sample.jan1) /\
     currbackup w' = 1 /\
     file w' = OpenedFile /\
     stderr x' = []).
Proof.
  intros w.
  assert (Hr : forall c : Z, c = 3 \/ c = 4 -> int_min <= c < int_max)
    by (unfold int_min, int_max; simpl; lia).
  split; [|split].
  - apply (C3_daily_naming Sample.Format Sample.levelStrings
             (Sample.ok Sample.jan2) w (Sample.liveOnly "x")
             (mkFileInfo "x" Sample.jan1));
      try reflexivity; try discriminate. apply Hr. now left.
  - apply (C3_daily_naming Sample.Format Sample.levelStrings
             (Sample.ok Sample.jan1) w (Sample.liveOnly "x")
             (mkFileInfo "x" Sample.jan1));
      try reflexivity; try discriminate. apply Hr. now left.
  - apply (C3_daily_naming Sample.Format Sample.levelStrings
             (Sample.ok Sample.jan1) (set_currbackup w 4)
             (Sample.liveOnly "x") (mkFileInfo "x" Sample.jan1));
      try reflexivity; try discriminate. apply Hr. now right.
Defined.

(** The claim C3 fails as stated: at a day rollover the backup gets the
    sequence number 0, not 1 (the counter of the writer is what becomes 1). *)
Lemma C3_counterexample :
  let w := Sample.appWriter true true false 99 0 3 in
  let '(err, w', x') :=
    intRotate Sample.Format Sample.levelStrings (Sample.ok Sample.jan2) w
      (Sample.liveOnly "x") in
  err = None /\
  fs x' !! "app.log.20240101.1" = None /\
  fs x' !! "app.log.20240101.0" = Some (mkFileInfo "x" Sample.jan1) /\
  currbackup w' = 1.
Proof. vm_compute. repeat split; reflexivity. Qed.

Lemma C6_rotation_failure_stops_witness :
  let w := Sample.appWriter true false false 99 0 1 in
  let noOpen := mkEnv Sample.jan1 (fun _ _ => false)
                  (fun p => String.eqb p "app.log") false in
  let noRename := mkEnv Sample.jan1 (fun a _ => String.eqb a "app.log")
                    (fun _ => false) false in
  let o := consume Sample.Format Sample.levelStrings w (Sample.liveOnly "x")
             ([] ++ [(noOpen, RotateSignal);
                     (Sample.ok Sample.jan1,
                      Record_ (Sample.record "late"))]) in
  (running o = false /\
   unread o = [(Sample.ok Sample.jan1, Record_ (Sample.record "late"))] /\
   stderr (world o) = [] ++ [("app.log", OSError (EOpen "app.log"))] /\
   fs (world o) = {[ "app.log.1" := mkFileInfo "x" Sample.jan1 ]}) /\
  (exists e w' x',
     intRotate Sample.Format Sample.levelStrings noOpen w (Sample.liveOnly "x")
       = (Some e, w', x')) /\
  (exists new w' x',
     intRotate Sample.Format Sample.levelStrings noRename w
       (Sample.liveOnly "x")
       = (Some (RotateError (ERename "app.log" new)), w', x')).
Proof.
  intros w noOpen noRename.
  destruct (C6_rotation_failure_stops Sample.Format Sample.levelStrings)
    as (Hstop & Hopen & Hrename).
  split; [|split].
  - destruct (Hstop w (Sample.liveOnly "x") [] w (Sample.liveOnly "x") noOpen
                RotateSignal
                [(Sample.ok Sample.jan1, Record_ (Sample.record "late"))]
                (OSError (EOpen "app.log"))
                (set_daily_opendate (set_file w ClosedFile) 1)
                (mkWorld {[ "app.log.1" := mkFileInfo "x" Sample.jan1 ]}
                   formatCache0 [])
                eq_refl (or_introl eq_refl))
      as (H1 & H2 & H3 & H4 & _).
    + vm_compute. reflexivity.
    + repeat split; assumption.
  - apply (Hopen noOpen w (Sample.liveOnly "x")). reflexivity.
  - apply (Hrename noRename w (Sample.liveOnly "x")).
    + reflexivity.
    + eexists. vm_compute. reflexivity.
    + intros new. reflexivity.
Defined.

(** The claim C6 fails as stated: the refusal to rename an older backup
    up the chain is an error of a rename during the rotation, but the loop
    neither reports it nor returns; the live file then replaces backup 1,
    and the next record is written. *)
Lemma C6_counterexample :
  let w := Sample.appWriter true false false 99 0 1 in
  let x := Sample.liveAndBackup "live" "old" in
  let o := consume Sample.Format Sample.levelStrings w x
             [(Sample.stuck Sample.jan1, RotateSignal);
              (Sample.ok Sample.jan1, Record_ (Sample.record "late"))] in
  os_Rename (Sample.stuck Sample.jan1) (fs x) "app.log.1" "app.log.2"
    = inr (ERename "app.log.1" "app.log.2") /\
  running o = true /\
  stderr (world o) = [] /\
  fs (world o) =
    <[ "app.log.1" := mkFileInfo "live" Sample.jan1 ]>
      {[ "app.log" := mkFileInfo (Sample.line "late") Sample.jan1 ]}.
Proof. vm_compute. repeat split; reflexivity. Qed.

(** C4 at [maxbackup] 1.  The loop over the backups makes no turn,
    [fname] is still the empty string, and the live file is renamed to it:
    the rename fails, the constructor reports the error and returns nil, a
    running writer stops, and no backup 1 appears. *)
Theorem C4_single_backup_rename_fails :
  NewFileLogWriter Sample.Format Sample.levelStrings (Sample.ok Sample.jan1)
    (Sample.liveOnly "x") "app.log" true false 1
  = (None,
     mkWorld {[ "app.log" := mkFileInfo "x" Sample.jan1 ]} formatCache0
       [("app.log", RotateError (ERename "app.log" ""))]) /\
  (let o := consume Sample.Format Sample.levelStrings
              (Sample.appWriter true false false 1 0 1) (Sample.liveOnly "x")
              [(Sample.ok Sample.jan1, RotateSignal)] in
   running o = false /\
   stderr (world o) = [("app.log", RotateError (ERename "app.log" ""))] /\
   fs (world o) !! "app.log.1" = None).
Proof. vm_compute. repeat split; reflexivity. Qed.

End FileSinkFacts.

(** * Further properties *)

(** ** Resolution of categories and the leveled methods *)

Module RouterExtra.
Import Router Facade.

Lemma dispatch_records Global f lvl rec ws :
  dispatch Global f lvl rec = Some ws -> forall w, In w ws -> w.2 = rec.
Proof.
  unfold dispatch. destruct (Global !! "stdout") as [d|]; [|discriminate].
  intros [= <-] w Hin. apply in_app_or in Hin.
  destruct (level_gt lvl (FLevel d)), (negb _ && negb _);
    simpl in Hin; intuition; subst; reflexivity.
Qed.

(** X1.  [LOGGER] never returns nil: it panics, on the assignment to the
    field of the nil default filter, exactly when neither the category
    nor "stdout" is registered.  Otherwise it returns the filter stored
    under the category, or under "stdout" for an unregistered category, with
    the level and the writer it had and with the category set to the name
    asked for, or to "DEFAULT"; that filter is stored back under its key,
    and no other entry of the registry changes. *)
Theorem X1_LOGGER_resolution (Global : Logger) (c : string) :
  (LOGGER Global c = None <->
     Global !! c = None /\ Global !! "stdout" = None) /\
  (forall G' f,
     LOGGER Global c = Some (G', f) ->
     let key := if decide (is_Some (Global !! c)) then c else "stdout" in
     G' !! key = Some f /\
     FCategory f = (if decide (is_Some (Global !! c)) then c else "DEFAULT") /\
     (exists g, Global !! key = Some g /\
                FLevel f = FLevel g /\ FWriter f = FWriter g) /\
     (forall k, k <> key -> G' !! k = Global !! k) /\
     dom G' = dom Global).
Proof.
  unfold LOGGER. split.
  - destruct (Global !! c) as [g|] eqn:Ec.
    + split; [congruence | intros [? ?]; congruence].
    + destruct (Global !! "stdout") as [d|] eqn:Ed.
      * split; [congruence | intros [? ?]; congruence].
      * split; auto.
  - intros G' f. destruct (Global !! c) as [g|] eqn:Ec.
    + intros [= <- <-]. rewrite decide_True by eauto. cbv zeta.
      split; [apply lookup_insert_eq|]. split; [reflexivity|].
      split; [exists g; auto|].
      split; [intros k Hk; now apply lookup_insert_ne|].
      rewrite dom_insert_L. apply elem_of_dom_2 in Ec. set_solver.
    + destruct (Global !! "stdout") as [d|] eqn:Ed; [|discriminate].
      intros [= <- <-].
      rewrite decide_False by (intros [? ?]; discriminate). cbv zeta.
      split; [apply lookup_insert_eq|]. split; [reflexivity|].
      split; [exists d; auto|].
      split; [intros k Hk; now apply lookup_insert_ne|].
      rewrite dom_insert_L. apply elem_of_dom_2 in Ed. set_solver.
Qed.

Lemma X1_LOGGER_resolution_witness :
  LOGGER (Sample.registry INFO DEBUG) "Other"
    = Some (Sample.registry INFO DEBUG, mkFilter INFO 0%nat "DEFAULT") /\
  (LOGGER (∅ : Logger) "Other" = None).
Proof.
  destruct (X1_LOGGER_resolution (∅ : Logger) "Other") as [H0 _].
  split; [vm_compute; reflexivity|].
  apply H0. split; reflexivity.
Defined.

(** X2.  Asking again for the same category changes nothing more.  The
    label of the default filter is the one of the last resolution through
    it: after the fallback of an unregistered category it is "DEFAULT", and
    a later [LOGGER("stdout")] sets the label of the same filter to
    "stdout". *)
Theorem X2_LOGGER_repeat (Global G' : Logger) (c : string) (f : Filter) :
  LOGGER Global c = Some (G', f) ->
  LOGGER G' c = Some (G', f) /\
  (Global !! c = None ->
   FCategory f = "DEFAULT" /\
   LOGGER G' "stdout"
     = Some (<["stdout" := set_FCategory f "stdout"]> G',
             set_FCategory f "stdout")).
Proof.
  unfold LOGGER. destruct (Global !! c) as [g|] eqn:Ec.
  - intros [= <- <-]. rewrite lookup_insert_eq. split; [|discriminate].
    unfold set_FCategory. simpl. now rewrite insert_insert_eq.
  - destruct (Global !! "stdout") as [d|] eqn:Ed; [|discriminate].
    intros [= <- <-].
    assert (Hc : c <> "stdout") by congruence.
    rewrite lookup_insert_ne by congruence. rewrite Ec.
    rewrite lookup_insert_eq. split.
    + unfold set_FCategory. simpl. now rewrite insert_insert_eq.
    + intros _. split; reflexivity.
Qed.

Lemma X2_LOGGER_repeat_witness :
  LOGGER (Sample.registry INFO DEBUG) "Other"
    = Some (Sample.registry INFO DEBUG, mkFilter INFO 0%nat "DEFAULT") /\
  LOGGER (Sample.registry INFO DEBUG) "stdout"
    = Some (<["stdout" := mkFilter INFO 0%nat "stdout"]>
              (Sample.registry INFO DEBUG),
            mkFilter INFO 0%nat "stdout").
Proof.
  assert (H0 : LOGGER (Sample.registry INFO DEBUG) "Other"
               = Some (Sample.registry INFO DEBUG,
                       mkFilter INFO 0%nat "DEFAULT"))
    by (vm_compute; reflexivity).
  destruct (X2_LOGGER_repeat _ _ _ _ H0) as [H1 H2].
  split; [exact H1|]. apply H2. reflexivity.
Defined.

Section Calls.

Variable Sprintf : string -> list string -> string.
Variable now : Time.
Variable src : string.

(** X3.  A call below the threshold of its filter writes nothing and
    cannot fail.  A call that passes the threshold fails on the nil default
    filter exactly when the registry has no "stdout" entry, whatever sink
    the filter itself has. *)
Theorem X3_missing_default (Global : Logger) (f : Filter) (lvl : Level) :
  (level_rank lvl < level_rank (FLevel f) ->
   (forall format args,
      intLogf Sprintf now src Global f lvl format args = Some []) /\
   (forall closure, intLogc now src Global f lvl closure = Some []) /\
   (forall source message,
      Log now Global f lvl source message = Some [])) /\
  (level_rank (FLevel f) <= level_rank lvl ->
   (forall format args,
      intLogf Sprintf now src Global f lvl format args = None
      <-> Global !! "stdout" = None) /\
   (forall closure,
      intLogc now src Global f lvl closure = None
      <-> Global !! "stdout" = None) /\
   (forall source message,
      Log now Global f lvl source message = None
      <-> Global !! "stdout" = None)).
Proof.
  assert (Hd : forall rec, dispatch Global f lvl rec = None
                           <-> Global !! "stdout" = None).
  { intros rec. unfold dispatch.
    destruct (Global !! "stdout"); split; intros H; congruence. }
  unfold intLogf, intLogc, Log, level_ge. split; intros Hl.
  - replace (level_rank (FLevel f) <=? level_rank lvl) with false
      by (symmetry; apply Z.leb_gt; lia).
    repeat split.
  - replace (level_rank (FLevel f) <=? level_rank lvl) with true
      by (symmetry; apply Z.leb_le; lia).
    simpl negb. cbv iota. split; [|split]; intros; apply Hd.
Qed.

(** X4.  Every record that a leveled method writes has the level of the
    method, the time and source of the call, the category of the filter,
    and this message: for [Finest] to [Info], the string as it is when
    there are no further arguments, the formatted string otherwise, or the
    result of the closure; for [Warn], [Error] and [Critical], the string
    always goes through [fmt.Sprintf], once. *)
Theorem X4_leveled_records (Global : Logger) (f : Filter) (lvl : Level)
    (arg0 : Arg0) (args : list string) (ws : list Write) :
  (lazyLevel Sprintf now src lvl Global f arg0 args = Some ws ->
   forall w, In w ws ->
     w.2 = mkLogRecord lvl now src (lazyMessage Sprintf arg0 args)
             (FCategory f)) /\
  (eagerLevel Sprintf now src lvl Global f arg0 args = Some ws ->
   forall w, In w ws ->
     w.2 = mkLogRecord lvl now src (eagerMessage Sprintf arg0 args)
             (FCategory f)).
Proof.
  split.
  - unfold lazyLevel, lazyMessage, intLogf, intLogc.
    destruct arg0 as [first|first|printed];
      (destruct (negb (level_ge lvl (FLevel f)));
       [intros [= <-] w []|]);
      intros H w Hin; apply (dispatch_records _ _ _ _ _ H) in Hin;
      rewrite Hin; destruct args; cbn [length Repeat];
      rewrite ?string_app_nil_r; reflexivity.
  - unfold eagerLevel, eagerMessage, intLogf.
    destruct (negb (level_ge lvl (FLevel f))); [intros [= <-] w []|].
    intros H w Hin. apply (dispatch_records _ _ _ _ _ H) in Hin.
    rewrite Hin. destruct arg0; reflexivity.
Qed.

End Calls.

Lemma X3_missing_default_witness :
  intLogf Sample.noSprintf Sample.jan1 "main.main:13"
    (<["Test" := mkFilter DEBUG 1%nat "Test"]> ∅)
    (mkFilter DEBUG 1%nat "Test") FINE "quiet" [] = Some [] /\
  intLogf Sample.noSprintf Sample.jan1 "main.main:13"
    (<["Test" := mkFilter DEBUG 1%nat "Test"]> ∅)
    (mkFilter DEBUG 1%nat "Test") INFO "loud" [] = None.
Proof.
  destruct (X3_missing_default Sample.noSprintf Sample.jan1 "main.main:13"
              (<["Test" := mkFilter DEBUG 1%nat "Test"]> ∅)
              (mkFilter DEBUG 1%nat "Test") FINE) as [Hlow _].
  destruct (X3_missing_default Sample.noSprintf Sample.jan1 "main.main:13"
              (<["Test" := mkFilter DEBUG 1%nat "Test"]> ∅)
              (mkFilter DEBUG 1%nat "Test") INFO) as [_ Hhigh].
  split.
  - apply Hlow. simpl. lia.
  - apply Hhigh; [simpl; lia | reflexivity].
Defined.

Lemma X4_leveled_records_witness :
  let G := Sample.registry FINE DEBUG in
  let f := mkFilter DEBUG 1%nat "Test" in
  let r := mkLogRecord WARNING Sample.jan1 "main.main:13" "disk full" "Test" in
  Warn Sample.noSprintf Sample.jan1 "main.main:13" G f
    (ArgString "disk full") [] = Some [(0%nat, r); (1%nat, r)] /\
  (forall w, In w [(0%nat, r); (1%nat, r)] -> w.2 = r).
Proof.
  intros G f r.
  assert (H : Warn Sample.noSprintf Sample.jan1 "main.main:13" G f
                (ArgString "disk full") [] = Some [(0%nat, r); (1%nat, r)])
    by (vm_compute; reflexivity).
  split; [exact H|].
  exact (proj2 (X4_leveled_records Sample.noSprintf Sample.jan1
                  "main.main:13" G f WARNING (ArgString "disk full") []
                  [(0%nat, r); (1%nat, r)]) H).
Defined.

End RouterExtra.

(** ** The JSON configuration *)

Module ConfigExtra.
Import Router Config.

(** X5.  [getLogLevel] reads exactly the eight names FINEST, FINE, DEBUG,
    TRACE, INFO, WARNING, ERROR and CRITICAL, each to its level, and ends
    the process on every other string (also on other spellings of a name). *)
Theorem X5_getLogLevel_names :
  (forall l, getLogLevel (levelName l) = Done l) /\
  (forall s l, getLogLevel s = Done l -> s = levelName l) /\
  (forall s, (forall l, s <> levelName l) -> getLogLevel s = Exit1).
Proof.
  split; [intros []; reflexivity|].
  assert (H : forall s, (exists l, s = levelName l /\ getLogLevel s = Done l)
                        \/ ((forall l, s <> levelName l)
                            /\ getLogLevel s = Exit1)).
  { intros s. unfold getLogLevel.
    repeat match goal with
           | |- context [String.eqb s ?x] =>
               destruct (String.eqb_spec s x) as [->|?];
               [left; eexists; split; [|reflexivity];
                match goal with
                | |- ?n = levelName ?l =>
                    first [ unify l FINEST; reflexivity
                          | unify l FINE; reflexivity
                          | unify l DEBUG; reflexivity
                          | unify l TRACE; reflexivity
                          | unify l INFO; reflexivity
                          | unify l WARNING; reflexivity
                          | unify l ERROR; reflexivity
                          | unify l CRITICAL; reflexivity ]
                end|]
           end.
    right. split; [intros []; assumption | reflexivity]. }
  split.
  - intros s l Hs. destruct (H s) as [(l' & -> & Hl)|[_ He]]; congruence.
  - intros s Hs. destruct (H s) as [(l' & -> & _)|[_ He]]; [|exact He].
    exfalso. now apply (Hs l').
Qed.

Lemma X5_getLogLevel_names_witness :
  getLogLevel "WARNING" = Done WARNING /\
  getLogLevel "WARN" = Exit1 /\ getLogLevel "info" = Exit1.
Proof.
  destruct X5_getLogLevel_names as (H1 & _ & H3).
  split; [apply (H1 WARNING)|].
  split; apply H3; intros []; discriminate.
Defined.

Section Loader.

Variable strToNumSuffix : string -> Z -> Z.

Local Abbreviation loadFile := (loadFile strToNumSuffix).
Local Abbreviation loadFilters := (loadFilters strToNumSuffix).

Lemma each_filter {A : Type} (step : State -> A -> Result State)
    (keep : A -> bool) :
  (forall st e, keep e = false -> step st e = Done st) ->
  forall entries st,
    each step st (List.filter keep entries) = each step st entries.
Proof.
  intros Hskip entries. induction entries as [|e rest IH]; intros st.
  - reflexivity.
  - simpl List.filter. destruct (keep e) eqn:E.
    + simpl. destruct (step st e); simpl; auto.
    + simpl. rewrite (Hskip st e E). simpl. apply IH.
Qed.

(** X6.  An entry of "files" or "sockets" that is present and not enabled
    has no effect at all: it is neither registered nor checked, so an empty
    category, an unknown level or a missing address in it does not end the
    process. *)
Theorem X6_disabled_entries_ignored (st : State) (lc : LogConfig) :
  loadFilters st lc = loadFilters st (enabledOnly lc).
Proof.
  unfold Config.loadFilters, enabledOnly. simpl.
  destruct (loadConsole st (Console lc)) as [st1| |]; simpl; try reflexivity.
  rewrite each_filter
    by (intros s [fc|] H; [simpl; now rewrite H | discriminate]).
  destruct (each loadFile st1 (Files lc)) as [st2| |]; simpl;
    try reflexivity.
  rewrite each_filter
    by (intros s [sc|] H; [simpl; now rewrite H | discriminate]).
  reflexivity.
Qed.

(** What one registration does. *)
Lemma register_Done log sinks key level category sink st' :
  register (log, sinks) key level category sink = Done st' ->
  exists lvl,
    st' = (<[key := mkFilter lvl (length sinks) category]> log,
           sinks ++ [sink]).
Proof.
  unfold register. destruct (getLogLevel level) as [lvl| |]; simpl;
    intros H; try discriminate.
  exists lvl. congruence.
Qed.

Lemma loaded_refl st : loaded [] st st.
Proof.
  unfold loaded. split; [set_solver|]. split; [lia|]. auto.
Qed.

Lemma loaded_step c category cats log0 s0 log1 s1 lvl sink :
  c <> "" ->
  category = c \/ (c = "stdout" /\ category = "DEFAULT") ->
  loaded cats (log0, s0) (log1, s1) ->
  loaded (cats ++ [c]) (log0, s0)
    (<[c := mkFilter lvl (length s1) category]> log1, s1 ++ [sink]).
Proof.
  unfold loaded. simpl. intros Hc Hlab (Hd & Hl & Hf).
  split; [rewrite dom_insert_L, Hd; set_solver|].
  rewrite length_app. simpl. split; [lia|].
  intros k f. destruct (decide (c = k)) as [<-|Hne].
  - rewrite lookup_insert_eq. intros [= <-]. right. simpl.
    split; [set_solver|]. split; [exact Hc|]. split; [exact Hlab | lia].
  - rewrite lookup_insert_ne by exact Hne. intros Hk.
    destruct (Hf k f Hk) as [H|(H1 & H2 & H3 & H4)]; [now left|].
    right. split; [set_solver|]. split; [exact H2|].
    split; [exact H3 | lia].
Qed.

Lemma loaded_trans cats1 cats2 st0 st1 st2 :
  loaded cats1 st0 st1 -> loaded cats2 st1 st2 ->
  loaded (cats1 ++ cats2) st0 st2.
Proof.
  unfold loaded. intros (Hd1 & Hl1 & Hf1) (Hd2 & Hl2 & Hf2).
  split; [rewrite Hd2, Hd1; set_solver|]. split; [lia|].
  intros k f Hk. destruct (Hf2 k f Hk) as [H|(H1 & H2 & H3 & H4)].
  - destruct (Hf1 k f H) as [H'|(H1 & H2 & H3 & H4)]; [now left|].
    right. split; [set_solver|]. split; [exact H2|].
    split; [exact H3 | lia].
  - right. split; [set_solver|]. split; [exact H2|].
    split; [exact H3 | lia].
Qed.

Lemma loadConsole_loaded st0 console st :
  loadConsole st0 console = Done st ->
  loaded (match console with
          | Some cf => if console_Enable cf then ["stdout"] else []
          | None => []
          end) st0 st.
Proof.
  unfold loadConsole. destruct console as [cf|]; [|discriminate].
  destruct (console_Enable cf).
  - destruct st0 as [log0 s0]. intros H.
    apply register_Done in H as (lvl & ->).
    apply (loaded_step "stdout" "DEFAULT" [] log0 s0 log0 s0);
      [discriminate | now right | apply loaded_refl].
  - intros [= <-]. apply loaded_refl.
Qed.

Lemma string_length_zero (s : string) :
  (Z.of_nat (String.length s) =? 0) = false -> s <> "".
Proof. intros H ->. discriminate H. Qed.

Lemma loadFile_loaded files : forall st0 st,
  each loadFile st0 files = Done st ->
  loaded (omap (fun e => match e with
                         | Some fc => if file_Enable fc
                                      then Some (file_Category fc) else None
                         | None => None
                         end) files) st0 st.
Proof.
  induction files as [|e rest IH]; intros st0 st.
  - simpl. intros [= <-]. apply loaded_refl.
  - cbn [each]. destruct (loadFile st0 e) as [st1| |] eqn:E; simpl;
      try discriminate.
    intros Hrest. specialize (IH _ _ Hrest).
    unfold Config.loadFile in E. destruct e as [fc|]; [|discriminate].
    cbn [omap list_omap]. destruct (file_Enable fc); simpl in E.
    + destruct (Z.of_nat (String.length (file_Category fc)) =? 0) eqn:Ec;
        [discriminate|].
      apply string_length_zero in Ec. destruct st0 as [log0 s0].
      apply register_Done in E as (lvl & ->).
      eapply (loaded_trans [file_Category fc]); [|exact IH].
      apply (loaded_step _ _ [] log0 s0 log0 s0);
        [exact Ec | now left | apply loaded_refl].
    + injection E as <-. exact IH.
Qed.

Lemma loadSocket_loaded sockets : forall st0 st,
  each loadSocket st0 sockets = Done st ->
  loaded (omap (fun e => match e with
                         | Some sc => if socket_Enable sc
                                      then Some (socket_Category sc)
                                      else None
                         | None => None
                         end) sockets) st0 st.
Proof.
  induction sockets as [|e rest IH]; intros st0 st.
  - simpl. intros [= <-]. apply loaded_refl.
  - cbn [each]. destruct (loadSocket st0 e) as [st1| |] eqn:E; simpl;
      try discriminate.
    intros Hrest. specialize (IH _ _ Hrest).
    unfold loadSocket in E. destruct e as [sc|]; [|discriminate].
    cbn [omap list_omap]. destruct (socket_Enable sc); simpl in E.
    + destruct (Z.of_nat (String.length (socket_Category sc)) =? 0) eqn:Ec;
        [discriminate|].
      apply string_length_zero in Ec. destruct st0 as [log0 s0].
      destruct (jsonToSocketLogWriter sc) as [sink| |]; simpl in E;
        try discriminate.
      apply register_Done in E as (lvl & ->).
      eapply (loaded_trans [socket_Category sc]); [|exact IH].
      apply (loaded_step _ _ [] log0 s0 log0 s0);
        [exact Ec | now left | apply loaded_refl].
    + injection E as <-. exact IH.
Qed.

Lemma loadFilters_loaded st0 lc st :
  loadFilters st0 lc = Done st -> loaded (categories lc) st0 st.
Proof.
  unfold Config.loadFilters, categories.
  destruct (loadConsole st0 (Console lc)) as [st1| |] eqn:E1; simpl;
    try discriminate.
  destruct (each loadFile st1 (Files lc)) as [st2| |] eqn:E2; simpl;
    try discriminate.
  intros E3.
  apply loadConsole_loaded in E1. apply loadFile_loaded in E2.
  apply loadSocket_loaded in E3.
  eapply loaded_trans; [exact E1|]. eapply loaded_trans; eassumption.
Qed.

(** X7.  After a load that returns, the keys of the registry are the keys
    it had and the categories of the enabled entries ("stdout" for an
    enabled console).  A filter found under a key is either the one that was
    there before, or one made by this load: then its key is one of those
    categories and is not empty, its label is its key (or "DEFAULT" under
    "stdout"), and its writer is one of the writers created by this load. *)
Theorem X7_registry_after_load (log0 G : Logger) (s0 s : list Writer)
    (lc : LogConfig) :
  loadFilters (log0, s0) lc = Done (G, s) ->
  dom G = dom log0 ∪ list_to_set (categories lc) /\
  (length s0 <= length s)%nat /\
  (forall k f,
     G !! k = Some f ->
     log0 !! k = Some f \/
     (k ∈ categories lc /\ k <> "" /\
      (FCategory f = k \/ (k = "stdout" /\ FCategory f = "DEFAULT")) /\
      (length s0 <= FWriter f < length s)%nat)).
Proof. intros H. exact (loadFilters_loaded _ _ _ H). Qed.

(** X8.  After a load with an enabled console section, [LOGGER] resolves
    every category.  After a load into a registry without "stdout", from a
    configuration whose enabled entries do not name "stdout", [LOGGER]
    panics on the nil default filter for every category that is neither
    loaded nor was registered before. *)
Theorem X8_load_then_resolve (log0 G : Logger) (s0 s : list Writer)
    (lc : LogConfig) :
  loadFilters (log0, s0) lc = Done (G, s) ->
  ((exists cf, Console lc = Some cf /\ console_Enable cf = true) ->
   forall c, is_Some (LOGGER G c)) /\
  (log0 !! "stdout" = None -> "stdout" ∉ categories lc ->
   forall c, log0 !! c = None -> c ∉ categories lc -> LOGGER G c = None).
Proof.
  intros H. apply loadFilters_loaded in H as (Hd & _ & _). simpl in Hd.
  split.
  - intros (cf & Hc & He) c.
    assert (Hs : "stdout" ∈ dom G).
    { rewrite Hd. unfold categories. rewrite Hc, He. set_solver. }
    apply elem_of_dom in Hs as [d Hs]. unfold LOGGER.
    destruct (G !! c); [eauto|]. rewrite Hs. eauto.
  - intros H0 Hn c Hc0 Hcn.
    assert (Hs : G !! "stdout" = None).
    { apply not_elem_of_dom. rewrite Hd.
      apply not_elem_of_dom in H0. set_solver. }
    assert (Hc : G !! c = None).
    { apply not_elem_of_dom. rewrite Hd.
      apply not_elem_of_dom in Hc0. set_solver. }
    unfold LOGGER. now rewrite Hc, Hs.
Qed.

Lemma each_app {A : Type} (step : State -> A -> Result State)
    (l1 l2 : list A) : forall st,
  each step st (l1 ++ l2) =
    bind (each step st l1) (fun st' => each step st' l2).
Proof.
  induction l1 as [|a rest IH]; intros st; cbn [each app].
  - reflexivity.
  - destruct (step st a) as [st1| |]; cbn [bind];
      [apply IH | reflexivity | reflexivity].
Qed.

Lemma each_file_off (rest : list (option FileConfig)) (st : State) :
  Forall file_off rest -> each loadFile st rest = Done st.
Proof.
  induction 1 as [|e rest (fc & -> & He) _ IH]; [reflexivity|].
  cbn [each]. unfold Config.loadFile at 1. rewrite He. cbn [negb bind].
  exact IH.
Qed.

Lemma each_socket_off (rest : list (option SocketConfig)) (st : State) :
  Forall socket_off rest -> each loadSocket st rest = Done st.
Proof.
  induction 1 as [|e rest (sc & -> & He) _ IH]; [reflexivity|].
  cbn [each]. unfold loadSocket at 1. rewrite He. cbn [negb bind].
  exact IH.
Qed.

Lemma register_writers st key level category sink st' :
  register st key level category sink = Done st' -> st'.2 = st.2 ++ [sink].
Proof.
  unfold register. destruct st as [log sinks].
  destruct (getLogLevel level); cbn [bind]; try discriminate.
  now intros [= <-].
Qed.

(** The writers of the enabled entries are created one after the other,
    whether or not their filters stay in the registry. *)
Lemma each_file_writers (entries : list (option FileConfig)) :
  forall st st', each loadFile st entries = Done st' ->
  exists added,
    st'.2 = st.2 ++ added /\
    forall fc0, In (Some fc0) entries -> file_Enable fc0 = true ->
      In (jsonToFileLogWriter strToNumSuffix fc0) added.
Proof.
  induction entries as [|e entries IH]; intros st st'; cbn [each].
  - intros [= <-]. exists []. split; [now rewrite app_nil_r|].
    intros fc0 [].
  - destruct (loadFile st e) as [st1| |] eqn:E1; cbn [bind];
      try discriminate.
    intros H. destruct (IH _ _ H) as (added & Ha & Hin).
    assert (H1 : exists one, st1.2 = st.2 ++ one /\
              forall fc0, e = Some fc0 -> file_Enable fc0 = true ->
                In (jsonToFileLogWriter strToNumSuffix fc0) one).
    { unfold Config.loadFile in E1. destruct e as [fc1|]; [|discriminate].
      destruct (file_Enable fc1) eqn:En; cbn [negb] in E1.
      - destruct (Z.of_nat (String.length (file_Category fc1)) =? 0);
          [discriminate|].
        apply register_writers in E1. eexists. split; [exact E1|].
        intros fc0 [= <-] _. now left.
      - injection E1 as <-. exists []. split; [now rewrite app_nil_r|].
        intros fc0 [= <-]. congruence. }
    destruct H1 as (one & Ho & Hone).
    exists (one ++ added). split; [now rewrite Ha, Ho, app_assoc|].
    intros fc0 [-> | Hi] Hen; apply in_or_app; [left | right]; auto.
Qed.

Lemma writer_index (old added : list Writer) (w : Writer) :
  In w added ->
  exists m, (length old <= m < length (old ++ added))%nat /\
            (old ++ added) !! m = Some w.
Proof.
  intros Hin.
  apply list_elem_of_In, list_elem_of_lookup_1 in Hin as [i Hi].
  pose proof (lookup_lt_Some _ _ _ Hi) as Hlt.
  exists (length old + i)%nat. rewrite length_app. split; [lia|].
  rewrite lookup_app_r by lia.
  now replace (length old + i - length old)%nat with i by lia.
Qed.

(** X29.  The last enabled entry of "files" owns its category when no
    socket entry is enabled: the filter found under the category after the
    load has the level of this entry and the writer made for it, the
    newest one.  An earlier enabled entry of the same category, or the
    console section when the category is "stdout", is replaced; its
    writer has been created all the same, as the writers of all earlier
    enabled entries have. *)
Theorem X29_last_file_entry_wins (st : State) (lc : LogConfig)
    (entries rest : list (option FileConfig)) (fc : FileConfig) (G : Logger)
    (s : list Writer) :
  Files lc = entries ++ Some fc :: rest ->
  Forall file_off rest ->
  Forall socket_off (Sockets lc) ->
  file_Enable fc = true ->
  loadFilters st lc = Done (G, s) ->
  file_Category fc <> "" /\
  exists lvl n,
    getLogLevel (file_Level fc) = Done lvl /\
    G !! file_Category fc = Some (mkFilter lvl n (file_Category fc)) /\
    s !! n = Some (jsonToFileLogWriter strToNumSuffix fc) /\
    length s = S n /\
    (forall fc0, In (Some fc0) entries -> file_Enable fc0 = true ->
       exists m, (length st.2 <= m < n)%nat /\
                 s !! m = Some (jsonToFileLogWriter strToNumSuffix fc0)) /\
    (forall cf, Console lc = Some cf -> console_Enable cf = true ->
       exists m, (length st.2 <= m < n)%nat /\
                 s !! m = Some (jsonToConsoleLogWriter cf)).
Proof.
  intros HF Hrest HS He. unfold Config.loadFilters. rewrite HF.
  destruct (loadConsole st (Console lc)) as [st1| |] eqn:EC; cbn [bind];
    try discriminate.
  rewrite each_app.
  destruct (each loadFile st1 entries) as [[log sinks]| |] eqn:EE;
    cbn [bind each]; try discriminate.
  unfold Config.loadFile at 1. rewrite He. cbn [negb].
  destruct (Z.of_nat (String.length (file_Category fc)) =? 0) eqn:Ec;
    [discriminate|].
  unfold register.
  destruct (getLogLevel (file_Level fc)) as [lvl| |] eqn:El; cbn [bind];
    try discriminate.
  rewrite each_file_off by exact Hrest. cbn [bind].
  rewrite each_socket_off by exact HS.
  intros [= <- <-].
  assert (H1 : exists one, st1.2 = st.2 ++ one /\
            forall cf, Console lc = Some cf -> console_Enable cf = true ->
              In (jsonToConsoleLogWriter cf) one).
  { unfold loadConsole in EC. destruct (Console lc) as [cf|]; [|discriminate].
    destruct (console_Enable cf) eqn:En.
    - apply register_writers in EC. eexists. split; [exact EC|].
      intros cf' [= <-] _. now left.
    - injection EC as <-. exists []. split; [now rewrite app_nil_r|].
      intros cf' [= <-]. congruence. }
  destruct H1 as (one & Ho & Hone).
  destruct (each_file_writers _ _ _ EE) as (added & Ha & Hin).
  cbn [snd] in Ha. rewrite Ho in Ha.
  split.
  { intros Hc. rewrite Hc in Ec. discriminate. }
  exists lvl, (length sinks).
  split; [reflexivity|]. split; [apply lookup_insert_eq|].
  split; [now apply list_lookup_middle|].
  split; [rewrite length_app; cbn [length]; lia|].
  split.
  - intros fc0 Hi Hen.
    destruct (writer_index (st.2 ++ one) added
                (jsonToFileLogWriter strToNumSuffix fc0) (Hin fc0 Hi Hen))
      as (m & Hm & Hl).
    exists m. rewrite Ha. split; [rewrite !length_app in *; lia|].
    now apply lookup_app_l_Some.
  - intros cf Hcf Hen.
    destruct (writer_index st.2 one (jsonToConsoleLogWriter cf)
                (Hone cf Hcf Hen)) as (m & Hm & Hl).
    exists m. rewrite Ha. split; [rewrite !length_app in *; lia|].
    now apply lookup_app_l_Some, lookup_app_l_Some.
Qed.

End Loader.

Lemma X7_registry_after_load_witness :
  let G := <["Test" := mkFilter DEBUG 1%nat "Test"]>
             (<["stdout" := mkFilter INFO 0%nat "DEFAULT"]> (∅ : Logger)) in
  loadFilters Sample.noSuffix (∅, []) (Sample.config true)
    = Done (G, [ConsoleWriter defaultPattern;
                FileWriter (mkFileSettings "test.log" defaultPattern 0 0
                              false false false)]) /\
  dom G = dom (∅ : Logger) ∪ list_to_set (categories (Sample.config true)).
Proof.
  intros G.
  assert (H : loadFilters Sample.noSuffix (∅, []) (Sample.config true)
              = Done (G, [ConsoleWriter defaultPattern;
                          FileWriter (mkFileSettings "test.log"
                                        defaultPattern 0 0 false false
                                        false)]))
    by (vm_compute; reflexivity).
  split; [exact H|].
  exact (proj1 (X7_registry_after_load Sample.noSuffix _ _ _ _ _ H)).
Defined.

Lemma X8_load_then_resolve_witness :
  (forall c,
     is_Some (LOGGER (<["Test" := mkFilter DEBUG 1%nat "Test"]>
                        (<["stdout" := mkFilter INFO 0%nat "DEFAULT"]>
                           (∅ : Logger))) c)) /\
  LOGGER (<["Test" := mkFilter DEBUG 0%nat "Test"]> (∅ : Logger)) "Other"
    = None.
Proof.
  split.
  - assert (H : loadFilters Sample.noSuffix (∅, []) (Sample.config true)
                = Done (<["Test" := mkFilter DEBUG 1%nat "Test"]>
                          (<["stdout" := mkFilter INFO 0%nat "DEFAULT"]>
                             (∅ : Logger)),
                        [ConsoleWriter defaultPattern;
                         FileWriter (mkFileSettings "test.log"
                                       defaultPattern 0 0 false false
                                       false)]))
      by (vm_compute; reflexivity).
    apply (proj1 (X8_load_then_resolve Sample.noSuffix _ _ _ _ _ H)).
    eexists. split; reflexivity.
  - assert (H : loadFilters Sample.noSuffix (∅, []) (Sample.config false)
                = Done (<["Test" := mkFilter DEBUG 0%nat "Test"]>
                          (∅ : Logger),
                        [FileWriter (mkFileSettings "test.log"
                                       defaultPattern 0 0 false false
                                       false)]))
      by (vm_compute; reflexivity).
    apply (proj2 (X8_load_then_resolve Sample.noSuffix _ _ _ _ _ H));
      try reflexivity.
    + vm_compute. set_solver.
    + vm_compute. set_solver.
Defined.

Lemma X29_last_file_entry_wins_witness :
  match loadFilters Sample.noSuffix (∅, []) Sample.shadowed with
  | Done (G, s) =>
      G !! "stdout" = Some (mkFilter DEBUG 2%nat "stdout") /\
      s !! 2%nat = Some (jsonToFileLogWriter Sample.noSuffix Sample.dbgFile) /\
      length s = 3%nat /\
      (exists m, (0 <= m < 2)%nat /\
         s !! m = Some (jsonToFileLogWriter Sample.noSuffix Sample.errFile))
  | _ => False
  end.
Proof.
  destruct (loadFilters Sample.noSuffix (∅, []) Sample.shadowed)
    as [[G s]| |] eqn:E; [|vm_compute in E; discriminate E ..].
  destruct (X29_last_file_entry_wins Sample.noSuffix (∅, [])
              Sample.shadowed [Some Sample.errFile] [Some Sample.offFile]
              Sample.dbgFile G s eq_refl
              ltac:(repeat constructor; eexists; split; reflexivity)
              ltac:(constructor) eq_refl E)
    as (_ & lvl & n & H1 & H2 & H3 & H4 & H5 & _).
  vm_compute in H1. injection H1 as <-.
  assert (Hs : length s = 3%nat)
    by (vm_compute in E; injection E as _ <-; reflexivity).
  assert (n = 2%nat) as -> by lia.
  split; [exact H2|]. split; [exact H3|]. split; [exact Hs|].
  exact (H5 Sample.errFile ltac:(now left) eq_refl).
Defined.

End ConfigExtra.

(** ** Rendering *)

Module PatternExtra.
Import Pattern.

Section RenderExtra.

Variable Format : Time -> string -> string.
Variable levelStrings : Level -> string.

Local Abbreviation directive := (directive levelStrings).
Local Abbreviation renderPiece := (renderPiece levelStrings).
Local Abbreviation renderPieces := (renderPieces levelStrings).
Local Abbreviation FormatLogRecord := (FormatLogRecord Format levelStrings).
Local Abbreviation changeDttmFormat := (changeDttmFormat Format).

Lemma patched_fields rec :
  Level_ (patched rec) = Level_ rec /\ Created (patched rec) = Created rec /\
  Source (patched rec) = Source rec /\ Message (patched rec) = Message rec.
Proof.
  unfold patched. destruct (Z.of_nat (String.length (Category rec)) =? 0);
    repeat split.
Qed.

Lemma directive_patched cache rec c :
  directive cache (patched rec) c =
    ((directive cache rec c).1, patched (directive cache rec c).2).
Proof.
  destruct (patched_fields rec) as (HL & _ & HS & HM).
  unfold Pattern.directive. rewrite HL, HS, HM.
  repeat (destruct (Ascii.eqb c _); [reflexivity|]).
  destruct (Ascii.eqb c "C"); [|reflexivity].
  fold (patched (patched rec)). fold (patched rec). simpl.
  now rewrite !PatternFacts.patched_idem.
Qed.

Lemma renderPiece_patched cache first piece rec :
  renderPiece cache first piece (patched rec) =
    ((renderPiece cache first piece rec).1,
     patched (renderPiece cache first piece rec).2).
Proof.
  unfold Pattern.renderPiece. destruct piece as [|c tail]; [reflexivity|].
  destruct first; [reflexivity|].
  rewrite directive_patched.
  now destruct (directive cache rec c) as [sub r'].
Qed.

Lemma renderPieces_patched cache pieces : forall first rec,
  renderPieces cache first pieces (patched rec) =
    ((renderPieces cache first pieces rec).1,
     patched (renderPieces cache first pieces rec).2).
Proof.
  induction pieces as [|p ps IH]; intros first rec; [reflexivity|].
  cbn [Pattern.renderPieces]. rewrite renderPiece_patched.
  destruct (renderPiece cache first p rec) as [o1 r1]. cbn [fst snd].
  rewrite IH. now destruct (renderPieces cache false ps r1) as [o2 r2].
Qed.

Lemma replaceAllDttm_Created r1 r2 s :
  Created r1 = Created r2 ->
  forall i skip,
    replaceAllDttm Format r1 i skip s = replaceAllDttm Format r2 i skip s.
Proof.
  intros Hc. induction s as [|c s IH]; intros i skip; [reflexivity|].
  cbn [replaceAllDttm]. destruct skip; [|apply IH].
  destruct (dttm_match (String c s)); [|now rewrite IH].
  unfold dttm_replace. rewrite Hc.
  destruct (i <? 2); now rewrite IH.
Qed.

(** X9.  Rendering is repeatable: a second call with the same pattern, on
    the record and the cache as the first call left them, gives the same
    text and changes neither the record nor the cache. *)
Theorem X9_render_again fc format rec out rec' fc' :
  FormatLogRecord fc format rec = (out, rec', fc') ->
  FormatLogRecord fc' format rec' = (out, rec', fc').
Proof.
  destruct rec as [r|]; [|intros [= <- <- <-]; reflexivity].
  destruct (String.eqb_spec format "") as [->|Hne];
    [intros [= <- <- <-]; reflexivity|].
  rewrite (PatternFacts.FormatLogRecord_nonempty _ _ _ _ _ Hne). cbv zeta.
  set (secs := Z.quot (t_unixnano (Created r)) 1000000000).
  set (cache := if negb (LastUpdateSeconds fc =? secs)
                then updatedCache secs (Created r) else fc).
  pose proof (PatternFacts.renderPieces_first_record levelStrings cache
                (Split "%" (changeDttmFormat format r)) r) as Hrec.
  destruct (renderPieces cache true (Split "%" (changeDttmFormat format r)) r)
    as [o r1] eqn:E.
  simpl in Hrec. intros [= <- <- <-].
  rewrite (PatternFacts.FormatLogRecord_nonempty _ _ _ _ _ Hne). cbv zeta.
  assert (Hcr : Created r1 = Created r).
  { rewrite Hrec. destruct (has_category_directive _); [|reflexivity].
    apply patched_fields. }
  rewrite Hcr. fold secs.
  assert (Hhit : (if negb (LastUpdateSeconds cache =? secs)
                  then updatedCache secs (Created r) else cache) = cache).
  { unfold cache. destruct (LastUpdateSeconds fc =? secs) eqn:Es; simpl.
    - now rewrite Es.
    - now rewrite Z.eqb_refl. }
  rewrite Hhit.
  assert (Hfmt : changeDttmFormat format r1 = changeDttmFormat format r)
    by (apply replaceAllDttm_Created; exact Hcr).
  rewrite Hfmt.
  assert (Hpieces :
    renderPieces cache true (Split "%" (changeDttmFormat format r)) r1
    = (o, r1)).
  { rewrite Hrec. destruct (has_category_directive _) eqn:Eh.
    - rewrite renderPieces_patched, E. simpl. subst r1.
      now rewrite PatternFacts.patched_idem.
    - subst r1. exact E. }
  now rewrite Hpieces.
Qed.

Lemma directive_set_Created cache rec t c :
  directive cache (PatternSpec.set_Created rec t) c =
    ((directive cache rec c).1,
     PatternSpec.set_Created (directive cache rec c).2 t).
Proof.
  unfold Pattern.directive, PatternSpec.set_Created. simpl.
  repeat (destruct (Ascii.eqb c _); [reflexivity|]).
  destruct (Ascii.eqb c "C"); [|reflexivity].
  now destruct (Z.of_nat (String.length (Category rec)) =? 0).
Qed.

Lemma renderPieces_set_Created cache t pieces : forall first rec,
  renderPieces cache first pieces (PatternSpec.set_Created rec t) =
    ((renderPieces cache first pieces rec).1,
     PatternSpec.set_Created (renderPieces cache first pieces rec).2 t).
Proof.
  induction pieces as [|p ps IH]; intros first rec; [reflexivity|].
  cbn [Pattern.renderPieces].
  assert (Hp : renderPiece cache first p (PatternSpec.set_Created rec t) =
               ((renderPiece cache first p rec).1,
                PatternSpec.set_Created (renderPiece cache first p rec).2 t)).
  { unfold Pattern.renderPiece. destruct p as [|c tail]; [reflexivity|].
    destruct first; [reflexivity|]. rewrite directive_set_Created.
    now destruct (directive cache rec c). }
  rewrite Hp. destruct (renderPiece cache first p rec) as [o1 r1].
  cbn [fst snd]. rewrite IH.
  now destruct (renderPieces cache false ps r1).
Qed.

Lemma prefix_dttm_brace s :
  String.prefix "%D{" s = true -> occurs "{" s = true.
Proof.
  intros H. apply String.prefix_correct in H.
  destruct s as [|a [|b [|c s]]]; try discriminate H.
  simpl in H. injection H as _ _ ->.
  cbn [occurs]. rewrite Ascii.eqb_refl. now rewrite !orb_true_r.
Qed.

(** A pattern without an opening brace has no datetime directive. *)
Lemma replaceAllDttm_nobrace rec i s :
  occurs "{" s = false -> replaceAllDttm Format rec i O s = s.
Proof.
  induction s as [|c s IH]; [reflexivity|].
  intros H. cbn [replaceAllDttm].
  assert (Hm : dttm_match (String c s) = None).
  { unfold dttm_match.
    destruct (String.prefix "%D{" (String c s)) eqn:E; [|reflexivity].
    apply prefix_dttm_brace in E. congruence. }
  rewrite Hm. cbn [occurs] in H. apply orb_false_elim in H as [_ H].
  now rewrite IH.
Qed.

(** X10.  The cache of the time texts is keyed by the second alone.  A
    record whose time stamp falls in the second of the cache is rendered
    with the cached date and time, whatever its own hour, minute or zone
    are: rendered after a record of the same second it gives the same text
    (for a pattern without datetime directive), and with the initial cache,
    whose second is 0, a record of second 0 gets empty date and time. *)
Theorem X10_cache_keyed_by_second fc format r t2 :
  format <> "" ->
  occurs "{" format = false ->
  PatternSpec.seconds t2 = PatternSpec.seconds (Created r) ->
  let first := FormatLogRecord fc format (Some r) in
  (FormatLogRecord first.2 format (Some (PatternSpec.set_Created r t2))).1.1
    = first.1.1 /\
  (PatternSpec.seconds (Created r) = 0 ->
   (FormatLogRecord formatCache0 "%D %T" (Some r)).1.1
     = " " +:+ String LF "").
Proof.
  intros Hne Hb Hs first. split.
  - unfold first.
    rewrite !(PatternFacts.FormatLogRecord_nonempty _ _ _ _ _ Hne).
    cbv zeta. unfold Pattern.changeDttmFormat.
    rewrite !replaceAllDttm_nobrace by exact Hb.
    change (Created (PatternSpec.set_Created r t2)) with t2.
    change (Z.quot (t_unixnano t2) 1000000000) with (PatternSpec.seconds t2).
    change (Z.quot (t_unixnano (Created r)) 1000000000)
      with (PatternSpec.seconds (Created r)).
    rewrite Hs.
    set (secs := PatternSpec.seconds (Created r)).
    set (cache := if negb (LastUpdateSeconds fc =? secs)
                  then updatedCache secs (Created r) else fc).
    destruct (renderPieces cache true (Split "%" format) r) as [o r1] eqn:E.
    cbn [fst snd].
    assert (Hhit : negb (LastUpdateSeconds cache =? secs) = false).
    { unfold cache. destruct (LastUpdateSeconds fc =? secs) eqn:Es; simpl.
      - now rewrite Es.
      - now rewrite Z.eqb_refl. }
    rewrite Hhit. rewrite renderPieces_set_Created, E. reflexivity.
  - intros H0. destruct r as [lvl t s m c].
    unfold PatternSpec.seconds in H0. simpl in H0.
    unfold Pattern.FormatLogRecord. simpl String.length. cbv iota.
    simpl Created. rewrite H0. reflexivity.
Qed.

(** *** Datetime directives *)

Lemma occurs_app c a b : occurs c (a +:+ b) = occurs c a || occurs c b.
Proof.
  induction a as [|x a IH]; [reflexivity|].
  rewrite string_app_cons. cbn [occurs]. now rewrite IH, orb_assoc.
Qed.

Lemma substring_sdrop n : forall s,
  String.substring 0 n s +:+ PatternSpec.sdrop n s = s.
Proof.
  induction n as [|n IH]; intros [|c s]; try reflexivity.
  cbn [String.substring PatternSpec.sdrop]. rewrite string_app_cons.
  now rewrite IH.
Qed.

Lemma substring_app a s : String.substring 0 (String.length a) (a +:+ s) = a.
Proof.
  induction a as [|x a IH]; [now destruct s|].
  rewrite string_app_cons. cbn [String.length String.substring].
  now rewrite IH.
Qed.

Lemma substring_all s : String.substring 0 (String.length s) s = s.
Proof. induction s as [|c s IH]; [reflexivity|]. simpl. now rewrite IH. Qed.

Lemma sdrop_app a s : PatternSpec.sdrop (String.length a) (a +:+ s) = s.
Proof.
  induction a as [|x a IH]; [reflexivity|].
  rewrite string_app_cons. exact IH.
Qed.

Lemma replaceAllDttm_step rec i c s :
  replaceAllDttm Format rec i O (String c s) =
    match dttm_match (String c s) with
    | Some n =>
        let m := String.substring 0 n (String c s) in
        if i <? 2
        then dttm_replace Format rec m
               +:+ replaceAllDttm Format rec (i + 1) (Nat.pred n) s
        else m +:+ replaceAllDttm Format rec i (Nat.pred n) s
    | None => String c (replaceAllDttm Format rec i O s)
    end.
Proof. reflexivity. Qed.

Lemma replaceAllDttm_skip rec s : forall i k,
  replaceAllDttm Format rec i k s
    = replaceAllDttm Format rec i O (PatternSpec.sdrop k s).
Proof.
  induction s as [|c s IH]; intros i [|k]; try reflexivity.
  cbn [replaceAllDttm PatternSpec.sdrop]. apply IH.
Qed.

Lemma dttm_match_pos s n : dttm_match s = Some n -> (1 <= n)%nat.
Proof.
  unfold dttm_match. destruct (String.prefix "%D{" s); [|discriminate].
  destruct (find_close _); [|discriminate]. intros [= <-]. lia.
Qed.

(** Once the counter of the callback has reached 2, nothing is rewritten. *)
Lemma replaceAllDttm_done rec i s :
  2 <= i -> forall k,
  replaceAllDttm Format rec i k s = PatternSpec.sdrop k s.
Proof.
  intros Hi. induction s as [|c s IH]; intros [|k]; try reflexivity.
  - cbn [replaceAllDttm PatternSpec.sdrop].
    destruct (dttm_match (String c s)) as [n|] eqn:E.
    + replace (i <? 2) with false by (symmetry; apply Z.ltb_ge; lia).
      apply dttm_match_pos in E. destruct n as [|n]; [lia|].
      cbn [String.substring Nat.pred]. rewrite string_app_cons, IH.
      now rewrite substring_sdrop.
    + now rewrite IH.
  - cbn [replaceAllDttm PatternSpec.sdrop]. apply IH.
Qed.

Lemma replaceAllDttm_prefix rec i p s :
  occurs "%" p = false ->
  replaceAllDttm Format rec i O (p +:+ s)
    = p +:+ replaceAllDttm Format rec i O s.
Proof.
  induction p as [|c p IH]; [reflexivity|].
  cbn [occurs]. intros H. apply orb_false_elim in H as [Hc Hp].
  rewrite !string_app_cons. cbn [replaceAllDttm].
  assert (Hm : dttm_match (String c (p +:+ s)) = None).
  { unfold dttm_match.
    destruct (String.prefix "%D{" (String c (p +:+ s))) eqn:E;
      [|reflexivity].
    apply String.prefix_correct in E.
    destruct (p +:+ s) as [|b [|d t]]; try discriminate E.
    simpl in E. injection E as -> _ _. discriminate Hc. }
  rewrite Hm. now rewrite IH.
Qed.

Lemma find_close_layout l s :
  occurs "}" l = false -> occurs LF l = false ->
  find_close (l +:+ String "}" s) = Some (String.length l).
Proof.
  induction l as [|c l IH]; intros H1 H2.
  - reflexivity.
  - cbn [occurs] in H1, H2.
    apply orb_false_elim in H1 as [Hc1 H1].
    apply orb_false_elim in H2 as [Hc2 H2].
    rewrite string_app_cons. cbn [find_close].
    rewrite Hc1, Hc2, IH by assumption. reflexivity.
Qed.

Lemma prefix_nil s : String.prefix "" s = true.
Proof. now destruct s. Qed.

Lemma replace_go_absent c0 old' new s :
  occurs c0 s = false ->
  replace_go (String c0 old') new O s = s.
Proof.
  induction s as [|c s IH]; [reflexivity|].
  cbn [occurs]. intros H. apply orb_false_elim in H as [Hc Hs].
  cbn [replace_go].
  change (String.prefix (String c0 old') (String c s))
    with (if ascii_dec c0 c then String.prefix old' s else false).
  destruct (ascii_dec c0 c) as [->|_].
  - rewrite Ascii.eqb_refl in Hc. discriminate.
  - now rewrite IH.
Qed.

Lemma replace_go_last c l :
  occurs c l = false ->
  replace_go (String c "") "" O (l +:+ String c "") = l.
Proof.
  induction l as [|x l IH].
  - intros _. rewrite string_app_nil_l. cbn [replace_go].
    change (String.prefix (String c "") (String c ""))
      with (if ascii_dec c c then true else false).
    destruct (ascii_dec c c); [reflexivity | congruence].
  - cbn [occurs]. intros H. apply orb_false_elim in H as [Hx Hl].
    rewrite string_app_cons. cbn [replace_go].
    change (String.prefix (String c "") (String x (l +:+ String c "")))
      with (if ascii_dec c x then String.prefix "" (l +:+ String c "")
            else false).
    destruct (ascii_dec c x) as [->|_].
    + rewrite Ascii.eqb_refl in Hx. discriminate.
    + now rewrite IH.
Qed.

Lemma plain_layout_spec l :
  PatternSpec.plain_layout l = true ->
  occurs "}" l = false /\ occurs "{" l = false /\
  occurs "%" l = false /\ occurs LF l = false.
Proof.
  unfold PatternSpec.plain_layout.
  rewrite !andb_true_iff, !negb_true_iff. tauto.
Qed.

(** The callback gives the layout between the braces to [Format]. *)
Lemma dttm_replace_layout rec l :
  PatternSpec.plain_layout l = true ->
  dttm_replace Format rec (PatternSpec.dttm l) = Format (Created rec) l.
Proof.
  intros H. apply plain_layout_spec in H as (H1 & H2 & H3 & H4).
  unfold dttm_replace, PatternSpec.dttm, Replace. f_equal.
  assert (E1 : replace_go "%D" "" O ("%D{" +:+ l +:+ "}")
               = String "{" (l +:+ "}")).
  { change ("%D{" +:+ l +:+ "}")
      with (String "%" (String "D" (String "{" (l +:+ "}")))).
    cbn [replace_go].
    change (String.prefix "%D"
              (String "%" (String "D" (String "{" (l +:+ "}")))))
      with true.
    cbn [String.length Nat.pred]. rewrite string_app_nil_l.
    change (String.prefix "%D" (String "{" (l +:+ "}"))) with false.
    cbv iota. f_equal.
    apply replace_go_absent. rewrite occurs_app, H3. reflexivity. }
  rewrite E1.
  assert (E2 : replace_go "{" "" O (String "{" (l +:+ "}")) = l +:+ "}").
  { cbn [replace_go].
    change (String.prefix "{" (String "{" (l +:+ "}")))
      with (String.prefix "" (l +:+ "}")).
    rewrite prefix_nil.
    cbn [String.length Nat.pred]. rewrite string_app_nil_l.
    apply replace_go_absent. rewrite occurs_app, H2. reflexivity. }
  rewrite E2. apply replace_go_last. exact H1.
Qed.

Lemma replaceAllDttm_directive rec i l s :
  PatternSpec.plain_layout l = true ->
  replaceAllDttm Format rec i O (PatternSpec.dttm l +:+ s) =
    if i <? 2
    then Format (Created rec) l +:+ replaceAllDttm Format rec (i + 1) O s
    else PatternSpec.dttm l +:+ replaceAllDttm Format rec i O s.
Proof.
  intros Hl. pose proof (dttm_replace_layout rec l Hl) as Hrep.
  apply plain_layout_spec in Hl as (H1 & _ & _ & H4).
  assert (Hshape : PatternSpec.dttm l +:+ s
                   = String "%" (String "D" (String "{"
                       (l +:+ String "}" s)))).
  { unfold PatternSpec.dttm. rewrite !string_app_assoc. reflexivity. }
  assert (Hlen : String.length (PatternSpec.dttm l)
                 = (3 + String.length l + 1)%nat).
  { unfold PatternSpec.dttm. rewrite !string_length_app. simpl. lia. }
  assert (Hm : dttm_match (PatternSpec.dttm l +:+ s)
               = Some (String.length (PatternSpec.dttm l))).
  { rewrite Hshape, Hlen. unfold dttm_match.
    change (String.prefix "%D{" (String "%" (String "D" (String "{"
              (l +:+ String "}" s)))))
      with (String.prefix "" (l +:+ String "}" s)).
    rewrite prefix_nil.
    assert (Hsub : String.substring 3
                     (String.length (String "%" (String "D" (String "{"
                        (l +:+ String "}" s)))) - 3)
                     (String "%" (String "D" (String "{"
                        (l +:+ String "}" s))))
                   = l +:+ String "}" s).
    { cbn [String.length String.substring Nat.sub].
      rewrite Nat.sub_0_r. apply substring_all. }
    rewrite Hsub, find_close_layout by assumption. reflexivity. }
  pose proof Hm as Hm'. rewrite Hshape in Hm'.
  rewrite Hshape at 1. rewrite replaceAllDttm_step, Hm'. cbv zeta.
  rewrite <- Hshape.
  rewrite substring_app.
  assert (Hrest : forall j,
            replaceAllDttm Format rec j
              (Nat.pred (String.length (PatternSpec.dttm l)))
              (String "D" (String "{" (l +:+ String "}" s)))
            = replaceAllDttm Format rec j O s).
  { intros j. rewrite replaceAllDttm_skip. f_equal.
    rewrite Hlen. cbn [Nat.add Nat.pred PatternSpec.sdrop].
    replace (String.length l + 1)%nat with (String.length (l +:+ "}"))
      by (rewrite string_length_app; reflexivity).
    replace (l +:+ String "}" s) with ((l +:+ "}") +:+ s)
      by (now rewrite string_app_assoc).
    apply sdrop_app. }
  rewrite !Hrest, Hrep. reflexivity.
Qed.


(** *** Percent signs *)

Lemma pretty_N_go_percent (x : N) : forall s,
  occurs "%" s = false -> occurs "%" (pretty_N_go x s) = false.
Proof.
  induction (N.lt_wf_0 x) as [x _ IH]. intros s Hs.
  destruct (N.eq_dec x 0%N) as [->|Hx]; [now rewrite pretty_N_go_0|].
  rewrite pretty_N_go_step by lia.
  apply IH; [apply N.div_lt; lia|].
  cbn [occurs]. rewrite Hs, orb_false_r.
  unfold pretty_N_char. now repeat case_match.
Qed.

Lemma pretty_Z_percent (n : Z) : occurs "%" (pretty n) = false.
Proof.
  assert (HN : forall x : N, occurs "%" (pretty x) = false).
  { intros x. unfold pretty, pretty_N.
    case_decide; [reflexivity | now apply pretty_N_go_percent]. }
  destruct n as [|q|q]; unfold pretty, pretty_Z; [reflexivity | apply HN |].
  rewrite occurs_app. unfold pretty, pretty_positive. now rewrite HN.
Qed.

Lemma zeros_percent n : occurs "%" (zeros n) = false.
Proof. induction n as [|n IH]; [reflexivity | exact IH]. Qed.

Lemma sprintf_0d_percent w n : occurs "%" (sprintf_0d w n) = false.
Proof.
  unfold sprintf_0d. destruct (n <? 0);
    now rewrite !occurs_app, ?zeros_percent, !pretty_Z_percent.
Qed.

Lemma updatedCache_percent secs t :
  occurs "%" (t_zone t) = false ->
  PatternSpec.percent_free_cache (updatedCache secs t).
Proof.
  intros Hz. unfold PatternSpec.percent_free_cache, PatternSpec.percent_free.
  unfold updatedCache. cbn [shortTime shortDate longTime longDate].
  rewrite !occurs_app, !sprintf_0d_percent, Hz. repeat split; reflexivity.
Qed.

Lemma Split_percent sep s :
  occurs "%" s = false ->
  Forall (fun p => occurs "%" p = false) (Split sep s).
Proof.
  induction s as [|c s IH]; [repeat constructor|].
  cbn [occurs]. intros H. apply orb_false_elim in H as [Hc Hs].
  specialize (IH Hs). cbn [Split]. destruct (Ascii.eqb c sep).
  - constructor; [reflexivity | exact IH].
  - destruct (Split sep s) as [|p ps];
      [repeat constructor; simpl; now rewrite Hc|].
    inversion IH; subst. constructor; [|assumption].
    cbn [occurs]. now rewrite Hc.
Qed.

Lemma last_percent (l : list string) :
  Forall (fun p => occurs "%" p = false) l ->
  occurs "%" (List.last l "") = false.
Proof.
  induction 1 as [|p l Hp Hl IH]; [reflexivity|].
  destruct l; [exact Hp | exact IH].
Qed.

Lemma directive_percent cache rec c :
  PatternSpec.percent_free_cache cache ->
  PatternSpec.percent_free_record rec ->
  occurs "%" (levelStrings (Level_ rec)) = false ->
  occurs "%" (directive cache rec c).1 = false /\
  PatternSpec.percent_free_record (directive cache rec c).2 /\
  Level_ (directive cache rec c).2 = Level_ rec.
Proof.
  intros (C1 & C2 & C3 & C4) (R1 & R2 & R3) HL.
  unfold Pattern.directive.
  repeat (destruct (Ascii.eqb c _);
          [cbn [fst snd]; split; [assumption || (now apply last_percent,
             Split_percent) |]; split; [repeat split; assumption | reflexivity]
          |]).
  destruct (Ascii.eqb c "C").
  - destruct (Z.of_nat (String.length (Category rec)) =? 0); cbn [fst snd].
    + split; [reflexivity|]. split; [repeat split; assumption | reflexivity].
    + split; [exact R3|]. split; [repeat split; assumption | reflexivity].
  - cbn [fst snd]. split; [reflexivity|].
    split; [repeat split; assumption | reflexivity].
Qed.

Lemma renderPieces_percent cache pieces : forall first rec,
  PatternSpec.percent_free_cache cache ->
  PatternSpec.percent_free_record rec ->
  occurs "%" (levelStrings (Level_ rec)) = false ->
  Forall (fun p => occurs "%" p = false) pieces ->
  occurs "%" (renderPieces cache first pieces rec).1 = false.
Proof.
  induction pieces as [|piece rest IH]; intros first rec HC HR HL HP.
  - reflexivity.
  - apply Forall_cons in HP as [Hp HP]. cbn [Pattern.renderPieces].
    assert (H1 : occurs "%" (renderPiece cache first piece rec).1 = false /\
                 PatternSpec.percent_free_record
                   (renderPiece cache first piece rec).2 /\
                 Level_ (renderPiece cache first piece rec).2 = Level_ rec).
    { unfold Pattern.renderPiece. destruct piece as [|c tail]; [auto|].
      destruct first; [auto|].
      destruct (directive_percent cache rec c HC HR HL) as (D1 & D2 & D3).
      destruct (directive cache rec c) as [sub rec1]. cbn [fst snd] in *.
      cbn [occurs] in Hp. apply orb_false_elim in Hp as [_ Hp].
      split; [now rewrite occurs_app, D1, Hp | auto]. }
    destruct (renderPiece cache first piece rec) as [o1 rec1].
    cbn [fst snd] in H1. destruct H1 as (O1 & R1 & L1).
    specialize (IH false rec1 HC R1 ltac:(now rewrite L1) HP).
    destruct (renderPieces cache false rest rec1) as [o2 rec2].
    cbn [fst snd] in *. now rewrite occurs_app, O1, IH.
Qed.

(** X12.  A pattern cannot write a percent sign of its own: every percent
    sign of the pattern, and of the texts that a datetime directive was
    rewritten to, starts a directive, and a doubled one writes nothing.
    When the texts of the record, the name of its level, the zone of its
    time stamp and the cached texts hold no percent sign, the line holds
    none, and neither does the cache afterwards. *)
Theorem X12_no_literal_percent fc format rec out rec' fc' :
  FormatLogRecord fc format (Some rec) = (out, rec', fc') ->
  PatternSpec.percent_free_record rec ->
  PatternSpec.percent_free (levelStrings (Level_ rec)) ->
  PatternSpec.percent_free (t_zone (Created rec)) ->
  PatternSpec.percent_free_cache fc ->
  PatternSpec.percent_free out /\ PatternSpec.percent_free_cache fc'.
Proof.
  intros H HR HL HZ HC.
  destruct format as [|c0 format].
  { cbn in H. injection H as <- _ <-. split; [reflexivity | exact HC]. }
  rewrite (PatternFacts.FormatLogRecord_nonempty Format levelStrings)
    in H by discriminate.
  cbv zeta in H.
  set (cache := if negb _ then _ else fc) in H.
  assert (HC' : PatternSpec.percent_free_cache cache).
  { unfold cache. destruct (negb _); [|exact HC].
    now apply updatedCache_percent. }
  pose proof (renderPieces_percent cache
                (Split "%" (changeDttmFormat (String c0 format) rec))
                true rec HC' HR HL (PatternFacts.Split_pieces _ _)) as HP.
  destruct (renderPieces cache true _ rec) as [o r'].
  injection H as <- _ <-. cbn [fst] in HP.
  split; [|exact HC']. unfold PatternSpec.percent_free.
  now rewrite occurs_app, HP.
Qed.

(** *** The short source *)

Lemma Join_last sep (l : list string) :
  l <> [] ->
  Join sep l = List.last l "" \/
  exists pre, Join sep l = pre +:+ String sep (List.last l "").
Proof.
  induction l as [|p l IH]; [congruence|]. intros _.
  destruct l as [|q r]; [now left|].
  change (Join sep (p :: q :: r)) with (p +:+ String sep (Join sep (q :: r))).
  change (List.last (p :: q :: r) "") with (List.last (q :: r) "").
  right. destruct IH as [-> | (pre & ->)]; [discriminate | now exists p |].
  exists (p +:+ String sep pre).
  now rewrite string_app_assoc, string_app_cons.
Qed.

Lemma last_Forall (P : string -> Prop) (l : list string) :
  l <> [] -> Forall P l -> P (List.last l "").
Proof.
  intros Hl H. induction H as [|p l Hp Hrest IH]; [congruence|].
  destruct l; [exact Hp | apply IH; discriminate].
Qed.

(** X26.  The selector s writes what follows the last slash of the
    source, the whole source when it holds no slash: the text written
    holds no slash, the source ends with it, and what comes before it in
    the source, if anything, ends with a slash.  The index into the result
    of [strings.Split] is always in range, and the record is unchanged. *)
Theorem X26_short_source cache rec :
  let out := directive cache rec "s" in
  occurs "/" out.1 = false /\
  (Source rec = out.1 \/ exists pre, Source rec = pre +:+ "/" +:+ out.1) /\
  (exists front, Split "/" (Source rec) = front ++ [out.1]) /\
  out.2 = rec.
Proof.
  cbn [Pattern.directive Ascii.eqb Bool.eqb]. cbv iota. cbn [fst snd].
  pose proof (PatternFacts.Split_nonempty "/" (Source rec)) as Hne.
  split.
  { exact (last_Forall (fun p => occurs "/" p = false) _ Hne
             (PatternFacts.Split_pieces "/" (Source rec))). }
  split.
  { pose proof (Join_last "/" _ Hne) as H.
    rewrite PatternFacts.Join_Split in H. exact H. }
  split; [|reflexivity].
  destruct (exists_last Hne) as (front & a & E). rewrite E.
  exists front. now rewrite List.last_last.
Qed.

End RenderExtra.

Lemma X9_render_again_witness :
  let res := FormatLogRecord Sample.Format Sample.levelStrings formatCache0
               "[%D %T] [%C] %M" (Some Sample.hello) in
  FormatLogRecord Sample.Format Sample.levelStrings res.2
    "[%D %T] [%C] %M" res.1.2 = res.
Proof.
  intros res.
  pose proof (X9_render_again Sample.Format Sample.levelStrings formatCache0
                "[%D %T] [%C] %M" (Some Sample.hello) res.1.1 res.1.2 res.2)
    as H.
  rewrite H by (vm_compute; reflexivity).
  vm_compute. reflexivity.
Defined.

Lemma X10_cache_keyed_by_second_witness :
  let midnight :=
    mkTime 1704110400999999999 1704110400999999 2024 1 1 0 0 0 "EST"
      "Monday" "January" in
  (FormatLogRecord Sample.Format Sample.levelStrings
     (FormatLogRecord Sample.Format Sample.levelStrings formatCache0
        "[%D %T] %M" (Some Sample.hello)).2
     "[%D %T] %M" (Some (PatternSpec.set_Created Sample.hello midnight))).1.1
  = "[2024/01/01 12:00:00 UTC] hello" +:+ String LF "".
Proof.
  intros midnight.
  apply (proj1 (X10_cache_keyed_by_second Sample.Format Sample.levelStrings
                  formatCache0 "[%D %T] %M" Sample.hello midnight
                  ltac:(discriminate) eq_refl eq_refl)).
Defined.


Lemma X12_no_literal_percent_witness :
  let res := FormatLogRecord Sample.Format Sample.levelStrings formatCache0
               "100%% [%L] %M%" (Some Sample.hello) in
  res.1.1 = "100[INFO] hello" +:+ String LF "" /\
  PatternSpec.percent_free res.1.1 /\ PatternSpec.percent_free_cache res.2.
Proof.
  intros res. split; [reflexivity|].
  apply (X12_no_literal_percent Sample.Format Sample.levelStrings
           formatCache0 "100%% [%L] %M%" Sample.hello res.1.1 res.1.2 res.2);
    [reflexivity | repeat split | reflexivity | reflexivity | repeat split].
Defined.

End PatternExtra.

(** ** The second version of the pattern engine: its own patterns *)

Module PatternAltExtra.
Import Pattern PatternAlt.

Ltac flatten_app :=
  repeat (rewrite string_app_assoc || rewrite string_app_cons
          || rewrite string_app_nil_l || rewrite string_app_nil_r).

Section RenderV2Extra.

Variable Format : Time -> string -> string.
Variable levelStrings : Level -> string.

Lemma default_pieces cache rec :
  renderPieces_v2 levelStrings cache true (Split "%" FORMAT_DEFAULT) rec =
    ("[" +:+ tLongYear cache +:+ "-" +:+ tMonth cache +:+ "-"
       +:+ tDay cache +:+ " " +:+ tHour cache +:+ ":" +:+ tMinute cache
       +:+ ":" +:+ tSecond cache +:+ ".] [" +:+ levelStrings (Level_ rec)
       +:+ "] (" +:+ Source rec +:+ ") " +:+ Message rec,
     rec).
Proof.
  replace (Split "%" FORMAT_DEFAULT)
    with ["["; "Y-"; "m-"; "d "; "H:"; "M:"; "S."; "c] ["; "L] ("; "A) "; "I"]
    by (vm_compute; reflexivity).
  cbn [renderPieces_v2 renderPiece_v2]. unfold directive_v2.
  cbn [Ascii.eqb Bool.eqb]. cbv iota. f_equal. flatten_app. reflexivity.
Qed.

(** X25.  The selectors w, b and p of the comment of the second version,
    and the selector c of its [FORMAT_DEFAULT], are not in the switch:
    they write nothing.  So [FORMAT_DEFAULT] gives the date and the time
    to the second, followed by a dot with nothing after it, then level,
    source and message. *)
Theorem X25_default_pattern_v2 fc rec :
  (forall cache c tail,
     In c ["w"; "b"; "p"; "c"]%char ->
     renderPiece_v2 levelStrings cache false (String c tail) rec
       = (tail, rec)) /\
  (LastUpdateSeconds_v2 fc <> PatternSpec.seconds (Created rec) ->
   let t := Created rec in
   (FormatLogRecord_v2 Format levelStrings fc FORMAT_DEFAULT (Some rec)).1.1 =
     "[" +:+ sprintf_0d 4 (t_year t) +:+ "-" +:+ sprintf_0d 2 (t_month t)
       +:+ "-" +:+ sprintf_0d 2 (t_day t) +:+ " "
       +:+ sprintf_0d 2 (t_hour t) +:+ ":" +:+ sprintf_0d 2 (t_minute t)
       +:+ ":" +:+ sprintf_0d 2 (t_second t) +:+ ".] ["
       +:+ levelStrings (Level_ rec) +:+ "] (" +:+ Source rec +:+ ") "
       +:+ Message rec +:+ String LF "").
Proof.
  split.
  - intros cache c tail Hc.
    apply PatternAltFacts.alt_renderPiece_unknown.
    cbn [In] in Hc. destruct Hc as [<- | [<- | [<- | [<- | []]]]]; reflexivity.
  - intros Hstale t. unfold FormatLogRecord_v2.
    change (Z.of_nat (String.length FORMAT_DEFAULT) =? 0) with false.
    cbv iota zeta.
    unfold changeDttmFormat.
    rewrite (PatternExtra.replaceAllDttm_nobrace Format rec 0 FORMAT_DEFAULT)
      by reflexivity.
    rewrite default_pieces. cbn [fst snd].
    unfold PatternSpec.seconds in Hstale.
    apply Z.eqb_neq in Hstale. rewrite Hstale. cbn [negb].
    unfold updatedCache_v2. cbn [tLongYear tMonth tDay tHour tMinute tSecond].
    flatten_app. reflexivity.
Qed.

End RenderV2Extra.

Lemma X25_default_pattern_v2_witness :
  (FormatLogRecord_v2 Sample.Format Sample.levelStrings formatCache0_v2
     FORMAT_DEFAULT (Some Sample.hello)).1.1
  = "[2024-01-01 12:00:00.] [INFO] (main.main:13) hello" +:+ String LF "".
Proof.
  exact (proj2 (X25_default_pattern_v2 Sample.Format Sample.levelStrings
                  formatCache0_v2 Sample.hello)
           ltac:(discriminate)).
Defined.

End PatternAltExtra.

(** ** The file writer: creation, rotation and the consumer loop *)

Module FileSinkExtra.
Import Pattern FileSink FileSinkMore FileSinkFacts.

Lemma int_wrap_add_l a b : int_wrap (int_wrap a + b) = int_wrap (a + b).
Proof.
  unfold int_wrap.
  replace ((a + 2 ^ 63) mod 2 ^ 64 - 2 ^ 63 + b + 2 ^ 63)
    with ((a + 2 ^ 63) mod 2 ^ 64 + b) by lia.
  rewrite Zplus_mod_idemp_l. f_equal. f_equal. lia.
Qed.

(** *** The first free sequence number *)

Lemma getCurrBackup_loop_least (m : FS) name day maxb fuel : forall i,
  maxb <= int_max -> 1 <= i -> (Z.to_nat (maxb - i) <= fuel)%nat ->
  let taken j := fileExist m (dailyName name day j) in
  let r := getCurrBackup_loop m name day maxb fuel i in
  ((exists j, i <= j < maxb /\ taken j = false) ->
   i <= r < maxb /\ taken r = false /\
   forall j, i <= j < r -> taken j = true) /\
  ((forall j, i <= j < maxb -> taken j = true) -> r = 1).
Proof.
  induction fuel as [|fuel IH]; intros i Hmax Hi Hfuel taken r.
  - subst r. cbn [getCurrBackup_loop]. split.
    + intros (j & Hj & _). lia.
    + reflexivity.
  - subst r. cbn [getCurrBackup_loop].
    destruct (Z.ltb_spec i maxb) as [Hlt|Hge].
    + destruct (fileExist m (dailyName name day i)) eqn:E; cbn [negb].
      * assert (Hw : int_wrap (i + 1) = i + 1).
        { apply int_wrap_id. unfold is_int, int_min, int_max in *. lia. }
        rewrite Hw.
        destruct (IH (i + 1)) as [IH1 IH2]; [lia | lia | lia |].
        split.
        -- intros (j & Hj & Hfree).
           assert (Hne : j <> i) by (intros ->; unfold taken in Hfree;
                                      congruence).
           destruct IH1 as (R1 & R2 & R3);
             [exists j; split; [lia|exact Hfree]|].
           split; [lia|]. split; [exact R2|].
           intros k Hk. destruct (Z.eq_dec k i) as [->|Hki]; [exact E|].
           apply R3. lia.
        -- intros Hall. apply IH2. intros j Hj. apply Hall. lia.
      * split.
        -- intros _. split; [lia|]. split; [exact E|]. intros j Hj. lia.
        -- intros Hall. specialize (Hall i ltac:(lia)). unfold taken in Hall.
           congruence.
    + split.
      * intros (j & Hj & _). lia.
      * reflexivity.
Qed.

Section SinkExtra.

Variable Format : Time -> string -> string.
Variable levelStrings : Level -> string.

Local Abbreviation renderAt := (renderAt Format levelStrings).
Local Abbreviation closeCurrent := (closeCurrent Format levelStrings).
Local Abbreviation moveAway := (moveAway Format).
Local Abbreviation intRotate := (intRotate Format levelStrings).
Local Abbreviation writeRecord := (writeRecord Format levelStrings).
Local Abbreviation turn := (turn Format levelStrings).
Local Abbreviation consume := (consume Format levelStrings).
Local Abbreviation onReturn := (onReturn Format levelStrings).
Local Abbreviation FormatLogRecord := (FormatLogRecord Format levelStrings).
Local Abbreviation renderText := (renderText Format levelStrings).
Local Abbreviation recordText := (recordText Format levelStrings).
Local Abbreviation recordTexts := (recordTexts Format levelStrings).
Local Abbreviation getCurrBackup := (getCurrBackup Format).
Local Abbreviation NewFileLogWriter :=
  (NewFileLogWriter Format levelStrings).
Local Abbreviation NewXMLLogWriter := (NewXMLLogWriter Format levelStrings).
Local Abbreviation SetHeadFoot := (SetHeadFoot Format levelStrings).

(** X13.  [getCurrBackup] returns the least sequence number from 1 below
    [maxbackup] for which no backup of today exists; when every one of them
    is taken, or there is none, it returns 1, the number of a backup that
    may exist. *)
Theorem X13_getCurrBackup_least_free env w (m : FS) :
  maxbackup w <= int_max ->
  let day := Format (now env) "20060102" in
  let taken j := fileExist m (dailyName (filename w) day j) in
  let r := getCurrBackup env w m in
  ((exists j, 1 <= j < maxbackup w /\ taken j = false) ->
   1 <= r < maxbackup w /\ taken r = false /\
   forall j, 1 <= j < r -> taken j = true) /\
  ((forall j, 1 <= j < maxbackup w -> taken j = true) -> r = 1).
Proof.
  intros Hmax day taken r. subst r. unfold FileSink.getCurrBackup.
  apply getCurrBackup_loop_least; [exact Hmax | lia | lia].
Qed.

(** *** Rotation without backups *)

Lemma renderText_empty env fc : renderText env fc "" = ("", fc).
Proof. reflexivity. Qed.

(** X14.  With [rotate] false a rotation renames and truncates nothing:
    the trailer and then the header are appended to the live file, which
    keeps all it held, the counters start again at 0, and no other file
    changes. *)
Theorem X14_rotation_without_backups env w x live :
  rotate w = false ->
  file w = OpenedFile ->
  write_fails env = false ->
  open_fails env (filename w) = false ->
  filename w <> "" ->
  fs x !! filename w = Some live ->
  let tr := renderText env (formatCache x) (trailer w) in
  let hd := renderText env tr.2 (header w) in
  exists w' x',
    intRotate env w x = (None, w', x') /\
    same_config w w' /\
    file w' = OpenedFile /\
    maxlines_curlines w' = 0 /\ maxsize_cursize w' = 0 /\
    f_data <$> (fs x' !! filename w) = Some (f_data live +:+ tr.1 +:+ hd.1) /\
    (forall p, p <> filename w -> fs x' !! p = fs x !! p) /\
    stderr x' = stderr x.
Proof.
  intros Hrot Hfile Hwr Hopen Hname Hlive tr hd.
  unfold FileSink.intRotate.
  rewrite closeCurrent_opened by assumption. fold tr.
  unfold FileSink.moveAway. fields. rewrite Hrot.
  destruct (fs_append env (fs x) (filename w) tr.1 !! filename w)
    as [live1|] eqn:E1.
  2:{ pose proof (fs_append_data env (fs x) (filename w) tr.1 live Hlive) as H.
      rewrite E1 in H. discriminate. }
  assert (Hd1 : f_data live1 = f_data live +:+ tr.1).
  { pose proof (fs_append_data env (fs x) (filename w) tr.1 live Hlive) as H.
    rewrite E1 in H. simpl in H. congruence. }
  rewrite (os_OpenFile_existing env _ _ live1) by assumption.
  rewrite renderAt_eq. fields. fold hd.
  rewrite Fprint__opened by (fields; auto). fields.
  eexists _, _. split; [reflexivity|]. fields.
  split; [unfold same_config; fields; repeat split; reflexivity|].
  split; [reflexivity|]. split; [reflexivity|]. split; [reflexivity|].
  split.
  { rewrite (fs_append_data env _ _ hd.1 live1 E1).
    now rewrite Hd1, string_app_assoc. }
  split; [|reflexivity].
  intros p Hp. rewrite !fs_append_ne by (apply not_eq_sym, Hp). reflexivity.
Qed.

(** *** What one turn of the loop keeps *)

Lemma closeCurrent_writer env w x : (closeCurrent env w x).1 = Close_file w.
Proof.
  unfold FileSink.closeCurrent, Close_file.
  destruct (file w); [reflexivity| |]; now destruct (renderAt env x _).
Qed.

Lemma Close_file_cases w :
  (file w = NilFile /\ Close_file w = w) \/
  (file w <> NilFile /\ Close_file w = set_file w ClosedFile).
Proof.
  unfold Close_file. destruct (file w); [left|right|right]; split;
    try reflexivity; discriminate.
Qed.

(** The sequence number stays where it is, goes back to 1, or moves to
    the next number, which is below [maxbackup]. *)
Lemma moveAway_writer env w x err w' x' :
  moveAway env w x = (err, w', x') ->
  same_config w w' /\
  maxlines_curlines w' = maxlines_curlines w /\
  maxsize_cursize w' = maxsize_cursize w /\
  (file w <> NilFile -> file w' <> NilFile) /\
  (currbackup w' = currbackup w \/ currbackup w' = 1 \/
   (currbackup w' = int_wrap (currbackup w + 1) /\
    int_wrap (currbackup w + 1) < maxbackup w)).
Proof.
  unfold FileSink.moveAway.
  destruct (rotate w);
    [|intros [= <- <- <-]; split; [apply same_config_refl|]; auto].
  destruct (os_Stat (fs x) (filename w)) as [info|];
    [|intros [= <- <- <-]; split; [apply same_config_refl|]; auto].
  fields. destruct (daily w) eqn:Hd.
  - unfold dailyBackup. fields.
    destruct (negb (t_day (now env) =? t_day (ModTime info))).
    + set (w1 := set_currbackup _ 1).
      destruct (Close_file_cases w1) as [[Hf ->]|[Hf ->]];
        (destruct (os_Rename env (fs x) _ _); intros [= <- <- <-]);
        unfold same_config, w1 in *; fields;
        (repeat split; auto; try discriminate).
    + destruct (Z.leb_spec (maxbackup w) (int_wrap (currbackup w + 1))).
      * set (w1 := set_currbackup _ 1).
        destruct (Close_file_cases w1) as [[Hf ->]|[Hf ->]];
          (destruct (os_Rename env (fs x) _ _); intros [= <- <- <-]);
          unfold same_config, w1 in *; fields;
          (repeat split; auto; try discriminate).
      * set (w1 := set_currbackup _ _).
        destruct (Close_file_cases w1) as [[Hf ->]|[Hf ->]];
          (destruct (os_Rename env (fs x) _ _); intros [= <- <- <-]);
          unfold same_config, w1 in *; fields;
          (repeat split; auto; try discriminate).
  - destruct (shiftBackups env _ _ _ "" (fs x)) as [m fname].
    set (w1 := set_daily_opendate _ _).
    destruct (Close_file_cases w1) as [[Hf ->]|[Hf ->]];
      (destruct (os_Rename env m _ _); intros [= <- <- <-]);
      unfold same_config, w1 in *; fields;
      (repeat split; auto; try discriminate).
Qed.

Lemma renderAt_world env x pattern :
  fs (renderAt env x pattern).2 = fs x /\
  stderr (renderAt env x pattern).2 = stderr x.
Proof. split; [apply renderAt_fs | apply renderAt_stderr]. Qed.

Lemma os_OpenFile_exists env (m m' : FS) p :
  os_OpenFile env m p = inl m' -> is_Some (m' !! p).
Proof.
  unfold os_OpenFile. destruct (open_fails env p); [discriminate|].
  destruct (String.eqb p ""); [discriminate|].
  destruct (m !! p) eqn:E; intros [= <-].
  - rewrite E. eauto.
  - rewrite lookup_insert_eq. eauto.
Qed.

Lemma Fprint__is_Some env w x s p :
  is_Some (fs (Fprint_ env w x s) !! p) <-> is_Some (fs x !! p).
Proof.
  unfold Fprint_, Fprint. destruct (file w); try reflexivity.
  destruct (write_fails env); [reflexivity|]. fields.
  apply fs_append_is_Some.
Qed.

(** [intRotate] in general: it assigns to the descriptor, the counters,
    the day and the sequence number only, and reports nothing itself. *)
Lemma intRotate_writer env w x err w' x' :
  intRotate env w x = (err, w', x') ->
  same_config w w' /\
  stderr x' = stderr x /\
  (file w <> NilFile -> file w' <> NilFile) /\
  (currbackup w' = currbackup w \/ currbackup w' = 1 \/
   (currbackup w' = int_wrap (currbackup w + 1) /\
    int_wrap (currbackup w + 1) < maxbackup w)) /\
  match err with
  | None =>
      file w' = OpenedFile /\
      maxlines_curlines w' = 0 /\ maxsize_cursize w' = 0 /\
      daily_opendate w' = t_day (now env) /\
      is_Some (fs x' !! filename w)
  | Some _ =>
      file w' <> OpenedFile /\
      maxlines_curlines w' = maxlines_curlines w /\
      maxsize_cursize w' = maxsize_cursize w
  end.
Proof.
  intros H.
  assert (Herr : forall e, err = Some e -> file w' <> OpenedFile).
  { intros e ->. now apply intRotate_error in H as (_ & _ & ? & _). }
  revert H. unfold FileSink.intRotate.
  pose proof (closeCurrent_writer env w x) as HW.
  pose proof (closeCurrent_stderr Format levelStrings env w x) as HE.
  destruct (closeCurrent env w x) as [w1 x1]. fields. subst w1.
  destruct (moveAway env (Close_file w) x1) as [[e2 w2] x2] eqn:EM.
  pose proof EM as EM'. apply moveAway_facts in EM' as (M1 & M2 & _ & _).
  pose proof (moveAway_writer _ _ _ _ _ _ EM) as (C & L1 & L2 & N & B).
  assert (C0 : same_config w (Close_file w) /\
               maxlines_curlines (Close_file w) = maxlines_curlines w /\
               maxsize_cursize (Close_file w) = maxsize_cursize w /\
               currbackup (Close_file w) = currbackup w /\
               maxbackup (Close_file w) = maxbackup w /\
               filename (Close_file w) = filename w /\
               (file w <> NilFile -> file (Close_file w) <> NilFile)).
  { destruct (Close_file_cases w) as [[Hf ->]|[Hf ->]];
      unfold same_config; fields; repeat split; auto; discriminate. }
  destruct C0 as (C0 & L01 & L02 & B0 & MB0 & F0 & N0).
  rewrite B0, MB0 in B. rewrite L01 in L1. rewrite L02 in L2.
  pose proof (same_config_trans _ _ _ C0 C) as C2.
  destruct e2 as [e|].
  - intros [= <- <- <-]. split; [exact C2|]. split; [congruence|].
    split; [auto|]. split; [exact B|]. split; [eauto|]. split; assumption.
  - destruct (os_OpenFile env (fs x2) (filename w2)) as [m|e] eqn:EO.
    + pose proof (renderAt_world env (set_fs x2 m)
                    (header (set_file w2 OpenedFile))) as [R1 R2].
      destruct (renderAt env (set_fs x2 m) _) as [s x3]. fields.
      intros [= <- <- <-]. fields.
      split; [unfold same_config in *; fields; exact C2|].
      split; [rewrite Fprint__stderr; congruence|].
      split; [discriminate|]. split; [exact B|].
      split; [reflexivity|]. split; [reflexivity|]. split; [reflexivity|].
      split; [reflexivity|].
      apply Fprint__is_Some. rewrite R1.
      apply os_OpenFile_exists in EO. fields. congruence.
    + intros [= <- <- <-]. split; [exact C2|]. split; [congruence|].
      split; [auto|]. split; [exact B|]. split; [eauto|]. split; assumption.
Qed.

Lemma writeOnly_cases env rec w x b w' x' :
  writeOnly Format levelStrings env rec w x = (b, w', x') ->
  (b = true /\ file w = OpenedFile /\ write_fails env = false /\
   w' = set_counts w (int_wrap (maxlines_curlines w + 1))
          (int_wrap (maxsize_cursize w
                     + Z.of_nat (String.length
                                   (recordText w (formatCache x) rec).1))) /\
   x' = mkWorld
          (fs_append env (fs x) (filename w)
             (recordText w (formatCache x) rec).1)
          (recordText w (formatCache x) rec).2 (stderr x)) \/
  (b = false /\ (file w <> OpenedFile \/ write_fails env = true) /\
   w' = w /\ fs x' = fs x /\
   stderr x' = stderr x ++ [(filename w, OSError (EWrite (filename w)))]).
Proof.
  destruct (file w) eqn:Hf; [| destruct (write_fails env) eqn:Hw |].
  3:{ rewrite writeOnly_ok by assumption. intros [= <- <- <-]. left.
      repeat split; reflexivity. }
  all: unfold FileSink.writeOnly, FileSink.writeRecord;
    destruct (FormatLogRecord _ _ _) as [[s r] fc];
    unfold Fprint; rewrite Hf, ?Hw; fields;
    intros [= <- <- <-]; right; fields;
    (split; [reflexivity|]); (split; [auto; left; discriminate|]);
    repeat split; reflexivity.
Qed.

(** The four ways through one turn of the loop. *)
Lemma turn_cases env msg w x b w' x' :
  turn env msg w x = (b, w', x') ->
  (msg = RecClosed /\ b = false /\ w' = w /\ x' = x) \/
  (exists e x1,
     (msg = RotateSignal \/
      (exists rec, msg = Record_ rec) /\ needRotate env w = true) /\
     intRotate env w x = (Some e, w', x1) /\
     b = false /\ x' = report x1 (filename w') e) \/
  (msg = RotateSignal /\ intRotate env w x = (None, w', x') /\ b = true) \/
  (exists rec wm xm,
     msg = Record_ rec /\
     ((needRotate env w = true /\ intRotate env w x = (None, wm, xm)) \/
      (needRotate env w = false /\ wm = w /\ xm = x)) /\
     writeOnly Format levelStrings env rec wm xm = (b, w', x')).
Proof.
  destruct msg as [|rec|].
  - cbn [FileSink.turn].
    destruct (intRotate env w x) as [[[e|] w1] x1] eqn:E;
      intros [= <- <- <-].
    + right; left. exists e, x1. auto.
    + right; right; left. auto.
  - rewrite turn_record. destruct (needRotate env w) eqn:N.
    + unfold FileSink.rotateThenWrite.
      destruct (intRotate env w x) as [[[e|] w1] x1] eqn:E.
      * intros [= <- <- <-]. right; left. exists e, x1.
        split; [right; eauto|]. auto.
      * intros H. right; right; right. exists rec, w1, x1.
        split; [reflexivity|]. split; [left; auto | exact H].
    + intros H. right; right; right. exists rec, w, x.
      split; [reflexivity|]. split; [right; auto | exact H].
  - cbn [FileSink.turn]. intros [= <- <- <-]. left. auto.
Qed.

(** An invariant of the writer that every turn keeps, and that closing
    the descriptor keeps, holds when the loop has handled its messages. *)
Lemma consume_writer_inv (P : FileLogWriter -> Prop) :
  (forall env msg w x b w' x',
     P w -> turn env msg w x = (b, w', x') -> P w') ->
  (forall w, P w -> P (Close_file w)) ->
  forall msgs w x, P w -> P (writer (consume w x msgs)).
Proof.
  intros Hturn Hclose. induction msgs as [|[env msg] msgs IH]; intros w x HP.
  - exact HP.
  - cbn [FileSink.consume].
    destruct (turn env msg w x) as [[b w1] x1] eqn:E.
    pose proof (Hturn _ _ _ _ _ _ _ HP E) as HP1.
    destruct b; [now apply IH|].
    unfold FileSink.onReturn.
    pose proof (closeCurrent_writer env w1 x1) as HW.
    destruct (closeCurrent env w1 x1) as [w2 x2]. cbn [fst] in HW.
    subst w2. cbn [writer]. now apply Hclose.
Qed.

Lemma turn_config env msg w x b w' x' :
  turn env msg w x = (b, w', x') -> same_config w w'.
Proof.
  intros H. apply turn_cases in H
    as [(_ & _ & -> & _) | [(e & x1 & _ & R & _) | [(_ & R & _) |
        (rec & wm & xm & _ & R & W)]]].
  - apply same_config_refl.
  - now apply intRotate_writer in R as (C & _).
  - now apply intRotate_writer in R as (C & _).
  - assert (C : same_config w wm).
    { destruct R as [(_ & R) | (_ & -> & _)]; [|apply same_config_refl].
      now apply intRotate_writer in R as (C & _). }
    apply writeOnly_cases in W
      as [(_ & _ & _ & -> & _) | (_ & _ & -> & _)]; [|exact C].
    unfold same_config in *. fields. exact C.
Qed.

Lemma Close_file_config w : same_config w (Close_file w).
Proof.
  destruct (Close_file_cases w) as [[_ ->]|[_ ->]];
    unfold same_config; fields; repeat split; reflexivity.
Qed.

Lemma same_config_filename w w' : same_config w w' -> filename w' = filename w.
Proof. now intros (H & _). Qed.

Lemma turn_step env msg w x b w' x' :
  turn env msg w x = (b, w', x') ->
  file w = OpenedFile ->
  file w' <> NilFile /\
  (b = true ->
   file w' = OpenedFile /\ stderr x' = stderr x /\
   (is_Some (fs x !! filename w) -> is_Some (fs x' !! filename w))) /\
  (b = false ->
   stderr x' = stderr x \/
   exists e, stderr x' = stderr x ++ [(filename w, e)]).
Proof.
  intros H Hf.
  assert (Hn : file w <> NilFile) by (rewrite Hf; discriminate).
  apply turn_cases in H
    as [(_ & -> & -> & ->) | [(e & x1 & _ & R & -> & ->) | [(_ & R & ->) |
        (rec & wm & xm & _ & R & W)]]].
  - split; [exact Hn|]. split; [discriminate|]. intros _. now left.
  - apply intRotate_writer in R as (C & E & N & _).
    split; [auto|]. split; [discriminate|]. intros _. right. exists e.
    fields. now rewrite E, (same_config_filename _ _ C).
  - apply intRotate_writer in R as (C & E & N & _ & F & _ & _ & _ & S).
    split; [auto|]. split; [|discriminate]. intros _. auto.
  - assert (M : same_config w wm /\ file wm = OpenedFile /\
                stderr xm = stderr x /\
                (is_Some (fs x !! filename w) ->
                 is_Some (fs xm !! filename w))).
    { destruct R as [(_ & R) | (_ & -> & ->)].
      - apply intRotate_writer in R as (C & E & N & _ & F & _ & _ & _ & S).
        auto.
      - split; [apply same_config_refl|]. auto. }
    destruct M as (C & F & E & S).
    pose proof (same_config_filename _ _ C) as Hname.
    apply writeOnly_cases in W
      as [(-> & _ & _ & -> & ->) | (-> & _ & -> & Hfs & Herr)].
    + fields. split; [rewrite F; discriminate|].
      split; [|discriminate]. intros _. split; [exact F|].
      split; [exact E|]. intros I. apply fs_append_is_Some. auto.
    + split; [rewrite F; discriminate|]. split; [discriminate|].
      intros _. right. eexists. rewrite Herr, E, Hname. reflexivity.
Qed.

(** X18.  The consumer loop, started with an open descriptor on an
    existing file: it never assigns to the configuration of the writer;
    while it runs the descriptor is open, the live file exists and
    nothing has been reported; once it has returned the descriptor is
    closed, the messages after the one that stopped it are unread, and at
    most one report has been printed, under the name of the file. *)
Theorem X18_loop_invariant w0 x0 msgs :
  file w0 = OpenedFile ->
  is_Some (fs x0 !! filename w0) ->
  let o := consume w0 x0 msgs in
  same_config w0 (writer o) /\
  (exists handled, msgs = handled ++ unread o) /\
  (running o = true ->
   file (writer o) = OpenedFile /\ unread o = [] /\
   stderr (world o) = stderr x0 /\
   is_Some (fs (world o) !! filename w0)) /\
  (running o = false ->
   file (writer o) = ClosedFile /\
   (stderr (world o) = stderr x0 \/
    exists e, stderr (world o) = stderr x0 ++ [(filename w0, e)])).
Proof.
  revert w0 x0. induction msgs as [|[env msg] msgs IH]; intros w0 x0 Hf Hs o.
  - subst o. cbn. split; [apply same_config_refl|].
    split; [now exists []|]. split; [auto | discriminate].
  - subst o. cbn [FileSink.consume].
    destruct (turn env msg w0 x0) as [[b w1] x1] eqn:E.
    pose proof (turn_config _ _ _ _ _ _ _ E) as C.
    pose proof (same_config_filename _ _ C) as Hname.
    destruct (turn_step _ _ _ _ _ _ _ E Hf) as (N & T & F).
    destruct b.
    + destruct (T eq_refl) as (F1 & E1 & S1).
      rewrite <- Hname in S1 at 2.
      destruct (IH w1 x1 F1 (S1 Hs)) as (C' & (h & Hh) & R1 & R0).
      split; [exact (same_config_trans _ _ _ C C')|].
      split; [exists ((env, msg) :: h); cbn [app]; now rewrite <- Hh|].
      rewrite <- Hname, <- E1. split; assumption.
    + unfold FileSink.onReturn.
      pose proof (closeCurrent_writer env w1 x1) as HW.
      pose proof (closeCurrent_stderr Format levelStrings env w1 x1) as HE.
      destruct (closeCurrent env w1 x1) as [w2 x2]. cbn [fst snd] in HW, HE.
      subst w2. cbn [writer world running unread].
      split; [exact (same_config_trans _ _ _ C (Close_file_config w1))|].
      split; [now exists [(env, msg)]|]. split; [discriminate|].
      intros _. split.
      * destruct (Close_file_cases w1) as [[Hnil _]|[_ ->]];
          [contradiction | reflexivity].
      * rewrite HE. auto.
Qed.

(** *** The line counter *)

Lemma needRotate_false_lines env w :
  needRotate env w = false -> 0 < maxlines w ->
  maxlines_curlines w < maxlines w.
Proof.
  unfold needRotate. intros H Hpos.
  apply orb_false_elim in H as [H _]. apply orb_false_elim in H as [H _].
  apply andb_false_iff in H as [H|H];
    [apply Z.ltb_ge in H | apply Z.leb_gt in H]; lia.
Qed.

Lemma turn_lines lim env msg w x b w' x' :
  0 < lim <= int_max ->
  maxlines w = lim /\ 0 <= maxlines_curlines w <= lim ->
  turn env msg w x = (b, w', x') ->
  maxlines w' = lim /\ 0 <= maxlines_curlines w' <= lim.
Proof.
  intros Hlim [Hm Hr] H.
  pose proof (turn_config _ _ _ _ _ _ _ H) as C.
  assert (Hm' : maxlines w' = lim)
    by (destruct C as (_ & _ & _ & _ & -> & _); exact Hm).
  split; [exact Hm'|].
  apply turn_cases in H
    as [(_ & _ & -> & _) | [(e & x1 & _ & R & _) | [(_ & R & _) |
        (rec & wm & xm & _ & R & W)]]].
  - exact Hr.
  - apply intRotate_writer in R as (_ & _ & _ & _ & _ & -> & _). exact Hr.
  - apply intRotate_writer in R as (_ & _ & _ & _ & _ & -> & _). lia.
  - assert (M : 0 <= maxlines_curlines wm < lim).
    { destruct R as [(_ & R) | (N & -> & _)].
      - apply intRotate_writer in R as (_ & _ & _ & _ & _ & -> & _). lia.
      - apply needRotate_false_lines in N; lia. }
    apply writeOnly_cases in W
      as [(_ & _ & _ & -> & _) | (_ & _ & -> & _)]; [|lia].
    fields. rewrite int_wrap_id; [lia|].
    unfold is_int, int_min, int_max in *. lia.
Qed.

(** X19.  With a limit on the lines, the counter of the lines written
    since the file was opened never leaves the range from 0 to the limit,
    whatever messages arrive and whatever the operating system refuses. *)
Theorem X19_line_counter_bounded w0 x0 msgs :
  0 < maxlines w0 <= int_max ->
  0 <= maxlines_curlines w0 <= maxlines w0 ->
  let o := consume w0 x0 msgs in
  0 <= maxlines_curlines (writer o) <= maxlines w0.
Proof.
  intros Hlim Hr o.
  apply (consume_writer_inv
           (fun w => maxlines w = maxlines w0 /\
                     0 <= maxlines_curlines w <= maxlines w0)).
  - intros env msg w x b w' x' HP H.
    exact (turn_lines _ _ _ _ _ _ _ _ Hlim HP H).
  - intros w HP.
    destruct (Close_file_cases w) as [[_ ->]|[_ ->]]; fields; exact HP.
  - split; [reflexivity | exact Hr].
Qed.

(** *** The sequence number of the daily backups *)

Lemma getCurrBackup_loop_bound (m : FS) name day maxb fuel : forall i,
  maxb <= int_max -> 1 <= i ->
  let r := getCurrBackup_loop m name day maxb fuel i in
  r = 1 \/ i <= r < maxb.
Proof.
  induction fuel as [|fuel IH]; intros i Hmax Hi r; subst r;
    cbn [getCurrBackup_loop]; [now left|].
  destruct (Z.ltb_spec i maxb) as [Hlt|Hge]; [|now left].
  destruct (fileExist m (dailyName name day i)); cbn [negb]; [|right; lia].
  rewrite int_wrap_id by (unfold is_int, int_min, int_max in *; lia).
  destruct (IH (i + 1) Hmax ltac:(lia)) as [H|H]; [now left | right; lia].
Qed.

Lemma seq_step w w' :
  maxbackup w <= int_max ->
  maxbackup w' = maxbackup w ->
  seq_in_range w ->
  (currbackup w' = currbackup w \/ currbackup w' = 1 \/
   (currbackup w' = int_wrap (currbackup w + 1) /\
    int_wrap (currbackup w + 1) < maxbackup w)) ->
  seq_in_range w'.
Proof.
  unfold seq_in_range. intros Hmax Hmb Hr [H | [H | [H Hlt]]]; rewrite Hmb.
  - now rewrite H.
  - rewrite H. lia.
  - rewrite int_wrap_id in *
      by (unfold is_int, int_min, int_max in *; lia).
    lia.
Qed.

Lemma same_config_maxbackup w w' :
  same_config w w' -> maxbackup w' = maxbackup w.
Proof. now intros (_ & _ & _ & _ & _ & _ & _ & _ & H & _). Qed.

Lemma turn_seq env msg w x b w' x' :
  maxbackup w <= int_max -> seq_in_range w ->
  turn env msg w x = (b, w', x') -> seq_in_range w'.
Proof.
  intros Hmax Hr H.
  apply turn_cases in H
    as [(_ & _ & -> & _) | [(e & x1 & _ & R & _) | [(_ & R & _) |
        (rec & wm & xm & _ & R & W)]]].
  - exact Hr.
  - apply intRotate_writer in R as (C & _ & _ & B & _).
    exact (seq_step _ _ Hmax (same_config_maxbackup _ _ C) Hr B).
  - apply intRotate_writer in R as (C & _ & _ & B & _).
    exact (seq_step _ _ Hmax (same_config_maxbackup _ _ C) Hr B).
  - assert (M : seq_in_range wm).
    { destruct R as [(_ & R) | (_ & -> & _)]; [|exact Hr].
      apply intRotate_writer in R as (C & _ & _ & B & _).
      exact (seq_step _ _ Hmax (same_config_maxbackup _ _ C) Hr B). }
    apply writeOnly_cases in W
      as [(_ & _ & _ & -> & _) | (_ & _ & -> & _)]; exact M.
Qed.

(** X20.  A writer made by [NewFileLogWriter] keeps the sequence number
    of its daily backups between 1 and [maxbackup - 1] for ever (at 1 when
    [maxbackup] is 1), where [maxbackup] is the argument, or 99 for an
    argument that is not positive: the backups of one day share these
    numbers, and the number after [maxbackup - 1] is 1 again. *)
Theorem X20_sequence_number_range env x fname rotate daily maxb w x1 msgs :
  maxb <= int_max ->
  NewFileLogWriter env x fname rotate daily maxb = (Some w, x1) ->
  let o := consume w x1 msgs in
  maxbackup (writer o) = (if maxb <=? 0 then 99 else maxb) /\
  1 <= currbackup (writer o) <= Z.max 1 (maxbackup (writer o) - 1).
Proof.
  intros Hmax H o.
  set (mb := if maxb <=? 0 then 99 else maxb).
  assert (Hmb : mb <= int_max).
  { unfold mb. destruct (maxb <=? 0); [unfold int_max; lia | exact Hmax]. }
  assert (Hw : maxbackup w = mb /\ seq_in_range w).
  { revert H. unfold FileSink.NewFileLogWriter. fold mb.
    set (w0 := set_currbackup _ _).
    destruct (intRotate env w0 x) as [[[e|] w1] x2] eqn:R; [discriminate|].
    intros [= <- <-].
    apply intRotate_writer in R as (C & _ & _ & B & _).
    pose proof (same_config_maxbackup _ _ C) as Hsame.
    split; [rewrite Hsame; reflexivity|].
    apply (seq_step w0 w1); [exact Hmb | exact Hsame | | exact B].
    unfold seq_in_range, w0. fields. unfold FileSink.getCurrBackup. fields.
    pose proof (getCurrBackup_loop_bound (fs x) fname
                  (Format (now env) "20060102") mb (Z.to_nat mb) 1 Hmb
                  ltac:(lia)) as Hb.
    cbv zeta in Hb. lia. }
  destruct Hw as [Hw1 Hw2].
  assert (HP : maxbackup (writer o) = mb /\ seq_in_range (writer o)).
  { apply (consume_writer_inv
             (fun v => maxbackup v = mb /\ seq_in_range v)).
    - intros env' msg v y b v' y' [P1 P2] T.
      pose proof (turn_config _ _ _ _ _ _ _ T) as C.
      split; [now rewrite (same_config_maxbackup _ _ C)|].
      apply (turn_seq _ _ _ _ _ _ _ ltac:(rewrite P1; exact Hmb) P2 T).
    - intros v [P1 P2].
      destruct (Close_file_cases v) as [[_ ->]|[_ ->]];
        unfold seq_in_range in *; fields; auto.
    - auto. }
  destruct HP as [HP1 HP2]. split; [exact HP1 | exact HP2].
Qed.

(** *** Creation *)

Lemma intRotate_open_refused env w x :
  open_fails env (filename w) = true ->
  exists e w' x', intRotate env w x = (Some e, w', x').
Proof.
  intros Ho. unfold FileSink.intRotate.
  pose proof (closeCurrent_fields Format levelStrings env w x) as HF.
  cbv zeta in HF. destruct HF as (F1 & _).
  destruct (closeCurrent env w x) as [w1 x1]. fields.
  destruct (moveAway env w1 x1) as [[[e|] w2] x2] eqn:EM; [eauto|].
  apply moveAway_facts in EM as (M1 & _).
  unfold os_OpenFile. rewrite M1, F1, Ho. eauto.
Qed.

(** X15.  [NewFileLogWriter] either returns nil after one report under
    the name of the file, or a writer with an open descriptor on an
    existing file, the standard pattern, no header, no trailer, no limits,
    no sanitizing, counters at 0 and [maxbackup] as given (99 for an
    argument that is not positive).  Without [rotate] it fails only when
    the file cannot be opened, and it leaves an existing file as it is. *)
Theorem X15_new_writer env x fname rotate_ daily_ maxb :
  let mb := if maxb <=? 0 then 99 else maxb in
  (forall res x',
     NewFileLogWriter env x fname rotate_ daily_ maxb = (res, x') ->
     match res with
     | None => exists e, stderr x' = stderr x ++ [(fname, e)]
     | Some w =>
         stderr x' = stderr x /\ is_Some (fs x' !! fname) /\
         file w = OpenedFile /\ filename w = fname /\
         format w = filePattern /\ header w = "" /\ trailer w = "" /\
         maxlines w = 0 /\ maxsize w = 0 /\ sanitize w = false /\
         rotate w = rotate_ /\ daily w = daily_ /\ maxbackup w = mb /\
         maxlines_curlines w = 0 /\ maxsize_cursize w = 0 /\
         daily_opendate w = t_day (now env)
     end) /\
  (rotate_ = false -> open_fails env fname = false -> fname <> "" ->
   exists w,
     NewFileLogWriter env x fname rotate_ daily_ maxb =
       (Some w,
        mkWorld
          (match fs x !! fname with
           | Some _ => fs x
           | None => <[fname := mkFileInfo "" (now env)]> (fs x)
           end)
          (formatCache x) (stderr x))).
Proof.
  intros mb. split.
  - intros res x'. unfold FileSink.NewFileLogWriter. fold mb.
    set (w0 := set_currbackup _ _).
    destruct (intRotate env w0 x) as [[[e|] w1] x2] eqn:R;
      intros [= <- <-];
      apply intRotate_writer in R as (C & E & _ & _ & R).
    + exists e. fields. rewrite E.
      now rewrite (same_config_filename _ _ C).
    + destruct R as (R1 & R2 & R3 & R4 & R5).
      destruct C as (C1 & C2 & C3 & C4 & C5 & C6 & C7 & C8 & C9 & C10).
      unfold w0 in *. fields. repeat split; assumption.
  - intros -> Ho Hn. unfold FileSink.NewFileLogWriter. fold mb.
    set (w0 := set_currbackup _ _).
    unfold FileSink.intRotate, FileSink.closeCurrent, FileSink.moveAway.
    unfold w0 at 1 2 3. fields. unfold os_OpenFile.
    rewrite Ho. apply String.eqb_neq in Hn. rewrite Hn.
    destruct (fs x !! fname) as [fi|] eqn:E;
      rewrite renderAt_eq, renderText_empty; cbn [fst snd];
      unfold Fprint_, Fprint, fs_append; fields;
      destruct (write_fails env); cbn; eexists; reflexivity.
Qed.


(** *** Records in the order of their arrival *)

Lemma needRotate_no_limits env w : no_limits w -> needRotate env w = false.
Proof.
  intros (H1 & H2 & H3). unfold needRotate. rewrite H3.
  replace (0 <? maxlines w) with false by (symmetry; apply Z.ltb_ge; lia).
  replace (0 <? maxsize w) with false by (symmetry; apply Z.ltb_ge; lia).
  reflexivity.
Qed.

Lemma recordTexts_config w w' fc recs :
  same_config w w' -> recordTexts w' fc recs = recordTexts w fc recs.
Proof.
  intros C. revert fc. induction recs as [|rec recs IH]; intros fc.
  - reflexivity.
  - cbn [FileSinkMore.recordTexts].
    rewrite (recordText_config Format levelStrings w w' fc rec C).
    destruct (recordText w fc rec) as [s fc1]. now rewrite IH.
Qed.

Lemma outcome_eta (o : Outcome) :
  o = mkOutcome (writer o) (world o) (running o) (unread o).
Proof. now destruct o. Qed.

(** Records that arrive while no trigger holds: no limit on the size, no
    daily rotation, and either no limit on the lines or room for all of
    them below the limit. *)
Lemma records_appended l : forall w x live,
  maxsize w <= 0 -> daily w = false ->
  maxlines w <= 0 \/
  (maxlines_curlines w + Z.of_nat (length l) <= maxlines w <= int_max) ->
  file w = OpenedFile ->
  is_int (maxlines_curlines w) -> is_int (maxsize_cursize w) ->
  Forall (fun p => write_fails p.1 = false) l ->
  fs x !! filename w = Some live ->
  let texts := recordTexts w (formatCache x) (map snd l) in
  let o := consume w x (records l) in
  running o = true /\ unread o = [] /\
  writer o =
    set_counts w (int_wrap (maxlines_curlines w + Z.of_nat (length l)))
      (int_wrap (maxsize_cursize w + Z.of_nat (String.length texts.1))) /\
  stderr (world o) = stderr x /\
  formatCache (world o) = texts.2 /\
  f_data <$> (fs (world o) !! filename w) = Some (f_data live +:+ texts.1) /\
  (forall p, p <> filename w -> fs (world o) !! p = fs x !! p).
Proof.
  induction l as [|[env rec] l IH];
    intros w x live Hsz Hd Hml Hf Hi1 Hi2 Hw Hlive.
  - cbn. rewrite Hlive, string_app_nil_r, !Z.add_0_r, !int_wrap_id
      by assumption.
    destruct w. repeat split; reflexivity.
  - apply Forall_cons in Hw as [Hw1 Hw]. cbn [fst] in Hw1.
    cbn [records map consume FileSinkMore.recordTexts fst snd FileSink.consume].
    assert (N : needRotate env w = false).
    { unfold needRotate. rewrite Hd.
      replace (0 <? maxsize w) with false by (symmetry; apply Z.ltb_ge; lia).
      cbn [length] in Hml.
      destruct Hml as [Hml | Hml].
      - replace (0 <? maxlines w) with false
          by (symmetry; apply Z.ltb_ge; lia).
        reflexivity.
      - replace (maxlines w <=? maxlines_curlines w) with false
          by (symmetry; apply Z.leb_gt; lia).
        now rewrite andb_false_r. }
    rewrite turn_record, N.
    rewrite writeOnly_ok by assumption.
    destruct (recordText w (formatCache x) rec) as [s fc1] eqn:Es.
    cbn [fst snd].
    set (w1 := set_counts w _ _). set (x1 := mkWorld _ fc1 (stderr x)).
    assert (C : same_config w w1)
      by (unfold same_config, w1; fields; repeat split; reflexivity).
    pose proof (fs_append_data env (fs x) (filename w) s live Hlive) as Hdat.
    destruct (fs_append env (fs x) (filename w) s !! filename w)
      as [live1|] eqn:E1; [|discriminate].
    cbn in Hdat. injection Hdat as Hdat.
    assert (Hml1 : maxlines w1 <= 0 \/
              (maxlines_curlines w1 + Z.of_nat (length l) <= maxlines w1
               <= int_max)).
    { unfold w1. fields. cbn [length] in Hml.
      destruct Hml as [Hml | Hml]; [now left | right].
      rewrite int_wrap_id; [lia|].
      unfold is_int, int_min, int_max in *. lia. }
    specialize (IH w1 x1 live1 Hsz Hd Hml1 Hf (int_wrap_is_int _)
                  (int_wrap_is_int _) Hw E1).
    cbv zeta in IH. fold (records l) in IH |- *.
    rewrite (recordTexts_config w w1 _ _ C) in IH.
    change (filename w1) with (filename w) in IH.
    change (formatCache x1) with fc1 in IH.
    change (stderr x1) with (stderr x) in IH.
    change (fs x1) with (fs_append env (fs x) (filename w) s) in IH.
    change (maxlines_curlines w1)
      with (int_wrap (maxlines_curlines w + 1)) in IH.
    change (maxsize_cursize w1)
      with (int_wrap (maxsize_cursize w + Z.of_nat (String.length s))) in IH.
    destruct (recordTexts w fc1 (map snd l)) as [t fc2] eqn:Et.
    cbn [fst snd] in *.
    destruct IH as (I1 & I2 & I3 & I4 & I5 & I6 & I7).
    split; [exact I1|]. split; [exact I2|].
    split.
    { rewrite I3. unfold w1, set_counts. fields. rewrite !int_wrap_add_l.
      f_equal; f_equal; [cbn [length]; lia | rewrite string_length_app; lia]. }
    split; [exact I4|]. split; [exact I5|].
    split; [now rewrite I6, Hdat, string_app_assoc|].
    intros p Hp. rewrite (I7 p Hp). apply fs_append_ne. auto.
Qed.

(** X17.  Without limits and without daily rotation the loop appends the
    lines of the records to the live file in the order in which they
    arrive, and touches no other file; the two counters hold the number
    of the records and the number of the bytes written. *)
Theorem X17_records_in_order l w x live :
  no_limits w ->
  file w = OpenedFile ->
  is_int (maxlines_curlines w) -> is_int (maxsize_cursize w) ->
  Forall (fun p => write_fails p.1 = false) l ->
  fs x !! filename w = Some live ->
  let texts := recordTexts w (formatCache x) (map snd l) in
  let o := consume w x (records l) in
  running o = true /\ unread o = [] /\
  stderr (world o) = stderr x /\
  f_data <$> (fs (world o) !! filename w) = Some (f_data live +:+ texts.1) /\
  (forall p, p <> filename w -> fs (world o) !! p = fs x !! p) /\
  formatCache (world o) = texts.2 /\
  maxlines_curlines (writer o)
    = int_wrap (maxlines_curlines w + Z.of_nat (length l)) /\
  maxsize_cursize (writer o)
    = int_wrap (maxsize_cursize w + Z.of_nat (String.length texts.1)).
Proof.
  intros (L1 & L2 & L3) Hf Hi1 Hi2 Hw Hlive texts o.
  destruct (records_appended l w x live L2 L3 (or_introl L1) Hf Hi1 Hi2 Hw
              Hlive) as (I1 & I2 & I3 & I4 & I5 & I6 & I7).
  fold texts o in I1, I2, I3, I4, I5, I6, I7.
  split; [exact I1|]. split; [exact I2|]. split; [exact I4|].
  split; [exact I6|]. split; [exact I7|]. split; [exact I5|].
  rewrite I3. fields. split; reflexivity.
Qed.

(** *** Rotation by number *)

(** The backup with the number [maxbackup] is replaced by the one below
    it, if there is one. *)
Lemma moveAway_count_top env w x live :
  (forall a b, rename_fails env a b = false) ->
  rotate w = true -> daily w = false ->
  2 <= maxbackup w <= int_max ->
  fs x !! filename w = Some live ->
  exists m,
    moveAway env w x =
      (None, Close_file (set_daily_opendate w (t_day (ModTime live))),
       set_fs x m) /\
    m !! countName (filename w) (maxbackup w) =
      match fs x !! countName (filename w) (maxbackup w - 1) with
      | Some fi => Some fi
      | None => fs x !! countName (filename w) (maxbackup w)
      end.
Proof.
  intros Hren Hrot Hdaily Hmb Hlive.
  unfold FileSink.moveAway. rewrite Hrot. unfold os_Stat. rewrite Hlive.
  fields. rewrite Hdaily.
  rewrite int_wrap_id by (unfold is_int, int_min, int_max in *; lia).
  set (n := Z.to_nat (maxbackup w - 1)).
  assert (Hn : maxbackup w - 1 = Z.of_nat n) by (unfold n; lia).
  assert (Hn' : maxbackup w = Z.of_nat n + 1) by lia.
  rewrite Hn.
  assert (Hb : Z.of_nat n < int_max) by lia.
  pose proof (shiftBackups_lookup env Hren (filename w) n Hb "" (fs x)) as HL.
  pose proof (shiftBackups_fname env Hren (filename w) n Hb "" (fs x)) as HF.
  cbv zeta in HL.
  destruct (shiftBackups env (filename w) n (Z.of_nat n) "" (fs x))
    as [m fname]. simpl in HL, HF.
  destruct HL as (HL1 & HL2 & HL3 & HL4).
  destruct n as [|n']; [lia|]. subst fname.
  set (w1 := set_daily_opendate w (t_day (ModTime live))).
  destruct (Close_file_fields w1) as (Hfn & _). rewrite Hfn.
  unfold w1. fields.
  assert (Hm : m !! filename w = Some live).
  { rewrite HL4; [exact Hlive|]. intros k _ Heq.
    symmetry in Heq. now apply countName_neq_name in Heq. }
  rewrite (os_Rename_ok env Hren _ _ _ _ Hm (countName_nonempty _ _)).
  eexists. split; [reflexivity|].
  rewrite lookup_insert_ne
    by (intros Heq; apply countName_inj in Heq; lia).
  rewrite lookup_delete_ne by (apply not_eq_sym, countName_neq_name).
  rewrite Hn'. apply HL2. lia.
Qed.

(** X21.  A rotation asked for by [Rotate], with backups by number and
    nothing refused: the live file, with the trailer, becomes backup 1 and
    a new live file begins with the header; every backup below
    [maxbackup - 1] moves up by one, the backup [maxbackup - 1] replaces
    the backup [maxbackup], and no other file changes. *)
Theorem X21_rotation_by_number env w x live :
  (forall a b, rename_fails env a b = false) ->
  open_fails env (filename w) = false ->
  write_fails env = false ->
  filename w <> "" ->
  rotate w = true -> daily w = false ->
  2 <= maxbackup w <= int_max ->
  file w = OpenedFile ->
  fs x !! filename w = Some live ->
  let name := filename w in
  let tr := renderText env (formatCache x) (trailer w) in
  let hd := renderText env tr.2 (header w) in
  let o := consume w x [(env, RotateSignal)] in
  running o = true /\
  stderr (world o) = stderr x /\
  f_data <$> (fs (world o) !! name) = Some hd.1 /\
  f_data <$> (fs (world o) !! countName name 1)
    = Some (f_data live +:+ tr.1) /\
  (forall k, 1 <= k < maxbackup w - 1 ->
     fs (world o) !! countName name (k + 1) = fs x !! countName name k) /\
  fs (world o) !! countName name (maxbackup w) =
    match fs x !! countName name (maxbackup w - 1) with
    | Some fi => Some fi
    | None => fs x !! countName name (maxbackup w)
    end /\
  (forall p, p <> name -> ~ counted name (maxbackup w) p ->
     fs (world o) !! p = fs x !! p).
Proof.
  intros Hren Hopen Hwr Hname Hrot Hdaily Hmb Hfile Hlive name tr hd o.
  subst o name. cbn [FileSink.consume FileSink.turn].
  unfold FileSink.intRotate.
  rewrite closeCurrent_opened by assumption. fold tr.
  set (x1 := mkWorld _ (tr.2) (stderr x)).
  assert (Hx1 : forall p, p <> filename w -> fs x1 !! p = fs x !! p).
  { intros p Hp. unfold x1. fields. apply fs_append_ne. auto. }
  assert (Hlive1 : exists live1,
             fs x1 !! filename w = Some live1 /\
             f_data live1 = f_data live +:+ tr.1).
  { pose proof (fs_append_data env (fs x) (filename w) tr.1 live Hlive) as H.
    unfold x1. fields.
    destruct (fs_append env (fs x) (filename w) tr.1 !! filename w)
      as [l1|]; [|discriminate]. exists l1. split; [reflexivity|].
    simpl in H. congruence. }
  destruct Hlive1 as (live1 & Hl1 & Hd1).
  destruct (moveAway_count Format env (set_file w ClosedFile) x1 live1 Hren)
    as (m & Hmove & Hm1 & Hm0 & _ & Hchain & Hother); try assumption.
  destruct (moveAway_count_top env (set_file w ClosedFile) x1 live1 Hren)
    as (m' & Hmove' & Htop); try assumption.
  rewrite Hmove in Hmove'. injection Hmove' as Hmm.
  assert (m' = m) by (unfold set_fs in Hmm; congruence). subst m'.
  rewrite Hmove.
  set (w2 := Close_file _).
  destruct (Close_file_fields
              (set_daily_opendate (set_file w ClosedFile)
                 (t_day (ModTime live1))))
    as (F1 & F2 & F3 & F4 & F5 & F6 & F7 & F8 & F9 & F10 & F11 & F12 & F13).
  fold w2 in F1, F2, F3, F4, F5, F6, F7, F8, F9, F10, F11, F12, F13.
  fields.
  rewrite F1. rewrite os_OpenFile_fresh by assumption.
  rewrite renderAt_eq. fields. rewrite F6. fold hd.
  rewrite Fprint__opened by (fields; auto).
  fields. rewrite F1.
  cbn [running world writer unread]. fields.
  change (formatCache x1) with tr.2. change (stderr x1) with (stderr x).
  fold hd.
  assert (Hc : forall k, countName (filename w) k <> filename w)
    by (intros k; apply countName_neq_name).
  assert (Hfin : forall p, p <> filename w ->
            fs_append env (<[filename w := mkFileInfo "" (now env)]> m)
              (filename w) hd.1 !! p = m !! p).
  { intros p Hp. rewrite fs_append_ne by auto.
    apply lookup_insert_ne. auto. }
  split; [reflexivity|]. split; [reflexivity|].
  split.
  { erewrite fs_append_data by apply lookup_insert_eq.
    cbn [f_data]. now rewrite string_app_nil_l. }
  split.
  { rewrite Hfin by apply Hc. rewrite Hm1. cbn.
    now rewrite Hd1. }
  split.
  { intros k Hk. rewrite Hfin by apply Hc.
    fields. rewrite Hchain by exact Hk.
    apply Hx1, Hc. }
  split.
  { rewrite Hfin by apply Hc. fields. rewrite Htop.
    now rewrite !Hx1 by apply Hc. }
  intros p Hp Hcount. rewrite Hfin by exact Hp.
  fields. rewrite Hother; [apply Hx1, Hp | exact Hp |].
  intros k Hk ->. apply Hcount. exists k. auto.
Qed.

(** X24.  [intRotate] drops the results of the writes of the trailer and
    of the header: when these writes are refused, a rotation without
    backups still succeeds, resets the counters and leaves the descriptor
    open, and nothing is reported; the trailer and the header are missing
    from the file. *)
Theorem X24_refused_header_is_no_error env w x live :
  rotate w = false ->
  file w = OpenedFile ->
  write_fails env = true ->
  open_fails env (filename w) = false ->
  filename w <> "" ->
  fs x !! filename w = Some live ->
  exists w' x',
    intRotate env w x = (None, w', x') /\
    fs x' = fs x /\ stderr x' = stderr x /\
    file w' = OpenedFile /\
    maxlines_curlines w' = 0 /\ maxsize_cursize w' = 0.
Proof.
  intros Hrot Hfile Hwr Hopen Hname Hlive.
  unfold FileSink.intRotate, FileSink.closeCurrent. rewrite Hfile.
  pose proof (renderAt_world env x (trailer w)) as [R1 R2].
  destruct (renderAt env x (trailer w)) as [s x1]. cbn [snd] in R1, R2.
  unfold Fprint_ at 1, Fprint. rewrite Hfile, Hwr.
  unfold FileSink.moveAway, Close_file. rewrite Hfile. fields. rewrite Hrot.
  fields. rewrite (os_OpenFile_existing env _ _ live) by congruence.
  pose proof (renderAt_world env (set_fs x1 (fs x1)) (header w)) as [R3 R4].
  destruct (renderAt env (set_fs x1 (fs x1)) (header w)) as [s2 x2].
  cbn [snd] in R3, R4. fields.
  unfold Fprint_, Fprint. fields. rewrite Hwr.
  eexists _, _. split; [reflexivity|]. fields.
  repeat split; congruence.
Qed.

(** X27.  A rotation that succeeded leaves no trigger behind: with the
    counters at 0 and the day of opening today, the test of the loop asks
    for no rotation as long as the day is the same, so the record that
    forced a rotation is written to the new file. *)
Theorem X27_rotation_clears_triggers env w x w' x' env' :
  intRotate env w x = (None, w', x') ->
  t_day (now env') = t_day (now env) ->
  needRotate env' w' = false /\ ~ trigger env' w'.
Proof.
  intros R Hday.
  apply intRotate_writer in R as (_ & _ & _ & _ & _ & L & S & D & _).
  assert (N : needRotate env' w' = false).
  { unfold needRotate. rewrite L, S, D, Hday, Z.eqb_refl.
    destruct (Z.ltb_spec 0 (maxlines w')), (Z.ltb_spec 0 (maxsize w'));
      cbn [andb orb negb]; rewrite ?andb_false_r;
      repeat match goal with
             | |- context [?a <=? 0] =>
                 replace (a <=? 0) with false
                   by (symmetry; apply Z.leb_gt; lia)
             end; reflexivity. }
  split; [exact N|]. intros T. apply needRotate_trigger in T. congruence.
Qed.

(** X28.  With a limit of n lines, backups by number and nothing
    refused: the first n records after the file was opened go to the live
    file, and the record after them finds the limit reached, so that the
    live file, with these n lines and the trailer, becomes backup 1 and
    the new live file holds the header and that record; the counter is 1
    again. *)
Theorem X28_rotation_every_n_lines l env rec w x live :
  0 < maxlines w <= int_max ->
  Z.of_nat (length l) = maxlines w ->
  maxlines_curlines w = 0 ->
  maxsize w <= 0 -> daily w = false -> rotate w = true ->
  2 <= maxbackup w <= int_max ->
  filename w <> "" ->
  file w = OpenedFile ->
  is_int (maxsize_cursize w) ->
  Forall (fun p => write_fails p.1 = false) l ->
  (forall a b, rename_fails env a b = false) ->
  open_fails env (filename w) = false ->
  write_fails env = false ->
  fs x !! filename w = Some live ->
  let texts := recordTexts w (formatCache x) (map snd l) in
  let tr := renderText env texts.2 (trailer w) in
  let hd := renderText env tr.2 (header w) in
  let t := recordText w hd.2 rec in
  let o := consume w x (records l ++ [(env, Record_ rec)]) in
  running o = true /\
  stderr (world o) = stderr x /\
  f_data <$> (fs (world o) !! countName (filename w) 1)
    = Some (f_data live +:+ texts.1 +:+ tr.1) /\
  f_data <$> (fs (world o) !! filename w) = Some (hd.1 +:+ t.1) /\
  maxlines_curlines (writer o) = 1.
Proof.
  intros Hml Hlen Hcur Hsz Hd Hrot Hmb Hname Hf Hi2 Hw Hren Hopen Hwr Hlive
    texts tr hd t o.
  assert (Hi1 : is_int (maxlines_curlines w))
    by (rewrite Hcur; unfold is_int, int_min, int_max; lia).
  destruct (records_appended l w x live Hsz Hd
              ltac:(right; rewrite Hcur; lia) Hf Hi1 Hi2 Hw Hlive)
    as (I1 & I2 & I3 & I4 & I5 & I6 & I7).
  fold texts in I3, I5, I6.
  set (o1 := consume w x (records l)) in *.
  assert (Ho1 : consume w x (records l)
                = mkOutcome (writer o1) (world o1) true []).
  { fold o1. rewrite (outcome_eta o1) at 1. now rewrite I1, I2. }
  subst o. rewrite (consume_app Format levelStrings _ _ _ _ _ _ Ho1).
  set (w1 := writer o1) in *. set (x1 := world o1) in *.
  assert (Hw1 : filename w1 = filename w /\ trailer w1 = trailer w /\
                header w1 = header w /\ maxlines w1 = maxlines w /\
                maxlines_curlines w1 = maxlines w /\ rotate w1 = rotate w /\
                daily w1 = daily w /\ maxbackup w1 = maxbackup w /\
                file w1 = file w /\ same_config w w1).
  { rewrite I3. unfold same_config. fields. rewrite Hcur, Z.add_0_l, Hlen.
    rewrite int_wrap_id
      by (unfold is_int, int_min, int_max in *; lia).
    repeat split; reflexivity. }
  destruct Hw1 as (N1 & N2 & N3 & N4 & N5 & N6 & N7 & N8 & N9 & C1).
  assert (Hneed : needRotate env w1 = true).
  { unfold needRotate. rewrite N4, N5.
    replace (0 <? maxlines w) with true by (symmetry; apply Z.ltb_lt; lia).
    now rewrite Z.leb_refl. }
  destruct (fs x1 !! filename w) as [live1|] eqn:E1; [|discriminate].
  cbn in I6. injection I6 as Hd1.
  cbn [FileSink.consume]. rewrite turn_record, Hneed.
  unfold FileSink.rotateThenWrite.
  destruct (intRotate_count Format levelStrings env w1 x1 live1)
    as (w2 & x2 & HR & C2 & F2 & L2 & S2 & _ & _ & E2 & FC2 & D1 & D0 & _);
    try congruence.
  rewrite HR. rewrite writeOnly_ok by assumption.
  cbn [running world writer unread]. fields.
  pose proof (same_config_trans _ _ _ C1 C2) as C.
  rewrite (recordText_config Format levelStrings w w2 _ rec C).
  rewrite N1, N2, N3, I5 in *. fold tr in D1, D0, FC2. fold hd in D0, FC2.
  rewrite FC2. fold t.
  pose proof (same_config_filename _ _ C2) as M1. rewrite N1 in M1.
  rewrite M1.
  split; [reflexivity|]. split; [congruence|].
  split.
  { rewrite fs_append_ne by (apply not_eq_sym, countName_neq_name).
    rewrite D1, Hd1. now rewrite string_app_assoc. }
  split; [|rewrite L2; reflexivity].
  destruct (fs x2 !! filename w) as [fi|] eqn:E0; [|discriminate].
  cbn in D0. injection D0 as D0.
  rewrite (fs_append_data env _ _ t.1 fi E0). now rewrite D0.
Qed.

(** *** The end of the loop *)

(** X22.  When the channel of the records is closed, the loop writes the
    trailer at the end of the live file, closes the descriptor and
    returns without a report; no other file changes. *)
Theorem X22_close_writes_trailer w0 x0 pre w x env post live :
  consume w0 x0 pre = mkOutcome w x true [] ->
  file w = OpenedFile ->
  write_fails env = false ->
  fs x !! filename w = Some live ->
  let tr := renderText env (formatCache x) (trailer w) in
  let o := consume w0 x0 (pre ++ (env, RecClosed) :: post) in
  running o = false /\ unread o = post /\
  writer o = set_file w ClosedFile /\
  stderr (world o) = stderr x /\
  f_data <$> (fs (world o) !! filename w) = Some (f_data live +:+ tr.1) /\
  (forall p, p <> filename w -> fs (world o) !! p = fs x !! p).
Proof.
  intros Hpre Hf Hw Hlive tr o. subst o.
  rewrite (consume_app Format levelStrings _ _ _ _ _ _ Hpre).
  cbn [FileSink.consume FileSink.turn]. unfold FileSink.onReturn.
  rewrite closeCurrent_opened by assumption. fold tr.
  cbn [running unread writer world]. fields.
  split; [reflexivity|]. split; [reflexivity|]. split; [reflexivity|].
  split; [reflexivity|].
  split; [exact (fs_append_data env (fs x) (filename w) tr.1 live Hlive)|].
  intros p Hp. apply fs_append_ne. auto.
Qed.

(** X23.  When the write of a record is refused, the loop reports the
    error of the write and returns: the record is lost, the counters stay
    as they were, the messages after it are unread, and the descriptor is
    closed; with the write still refused the trailer is lost as well, so
    that no file has changed. *)
Theorem X23_write_failure_stops w0 x0 pre w x env rec post :
  consume w0 x0 pre = mkOutcome w x true [] ->
  ~ trigger env w ->
  file w = OpenedFile ->
  write_fails env = true ->
  let o := consume w0 x0 (pre ++ (env, Record_ rec) :: post) in
  running o = false /\ unread o = post /\
  writer o = set_file w ClosedFile /\
  fs (world o) = fs x /\
  stderr (world o) =
    stderr x ++ [(filename w, OSError (EWrite (filename w)))].
Proof.
  intros Hpre Hn Hf Hw o. subst o.
  rewrite (consume_app Format levelStrings _ _ _ _ _ _ Hpre).
  cbn [FileSink.consume]. rewrite turn_record.
  destruct (needRotate env w) eqn:N;
    [apply needRotate_trigger in N; contradiction|].
  destruct (writeOnly Format levelStrings env rec w x) as [[b w1] x1] eqn:W.
  apply writeOnly_cases in W
    as [(_ & _ & Hw' & _) | (-> & _ & -> & Hfs & Herr)]; [congruence|].
  unfold FileSink.onReturn, FileSink.closeCurrent. rewrite Hf.
  pose proof (renderAt_world env x1 (trailer w)) as [R1 R2].
  destruct (renderAt env x1 (trailer w)) as [s x2]. cbn [snd] in R1, R2.
  unfold Fprint_, Fprint, Close_file. rewrite Hf, Hw.
  cbn [running unread writer world].
  repeat split; congruence.
Qed.

End SinkExtra.


(** *** Examples *)

Lemma X13_getCurrBackup_least_free_witness :
  let w := Sample.appWriter true true false 5 0 0 in
  let r := getCurrBackup Sample.Format (Sample.ok Sample.jan1) w
             Sample.dailyTaken in
  (1 <= r < 5 /\
   fileExist Sample.dailyTaken (dailyName "app.log" "20240101" r) = false /\
   forall j, 1 <= j < r ->
     fileExist Sample.dailyTaken (dailyName "app.log" "20240101" j) = true) /\
  getCurrBackup Sample.Format (Sample.ok Sample.jan1)
    (Sample.appWriter true true false 3 0 0) Sample.dailyTaken = 1.
Proof.
  intros w r. split.
  - apply (proj1 (X13_getCurrBackup_least_free Sample.Format
                    (Sample.ok Sample.jan1) w Sample.dailyTaken
                    ltac:(unfold int_max; cbn; lia))).
    exists 3. split; [cbn; lia | reflexivity].
  - apply (proj2 (X13_getCurrBackup_least_free Sample.Format
                    (Sample.ok Sample.jan1)
                    (Sample.appWriter true true false 3 0 0)
                    Sample.dailyTaken ltac:(unfold int_max; cbn; lia))).
    intros j Hj. cbn in Hj.
    assert (Hc : j = 1 \/ j = 2) by lia. destruct Hc as [-> | ->]; reflexivity.
Defined.

Lemma X14_rotation_without_backups_witness :
  exists w' x',
    intRotate Sample.Format Sample.levelStrings (Sample.ok Sample.jan1)
      (Sample.framedWriter false) (Sample.liveOnly "old") = (None, w', x') /\
    f_data <$> (fs x' !! "app.log")
      = Some ("old" +:+ Sample.line "bye" +:+ Sample.line "hello") /\
    maxlines_curlines w' = 0.
Proof.
  destruct (X14_rotation_without_backups Sample.Format Sample.levelStrings
              (Sample.ok Sample.jan1) (Sample.framedWriter false)
              (Sample.liveOnly "old") (mkFileInfo "old" Sample.jan1)
              eq_refl eq_refl eq_refl eq_refl ltac:(discriminate) eq_refl)
    as (w' & x' & H1 & _ & _ & H4 & _ & H6 & _).
  exists w', x'. split; [exact H1|]. split; [exact H6 | exact H4].
Defined.

Lemma X15_new_writer_witness :
  exists w,
    NewFileLogWriter Sample.Format Sample.levelStrings
      (Sample.ok Sample.jan1) (Sample.liveOnly "old") "app.log" false false 0
    = (Some w, Sample.liveOnly "old").
Proof.
  exact (proj2 (X15_new_writer Sample.Format Sample.levelStrings
                  (Sample.ok Sample.jan1) (Sample.liveOnly "old") "app.log"
                  false false 0)
           eq_refl eq_refl ltac:(discriminate)).
Defined.


Lemma X17_records_in_order_witness :
  let o := consume Sample.Format Sample.levelStrings
             (Sample.appWriter false false false 99 0 1)
             (Sample.liveOnly (Sample.line "zero"))
             (records [(Sample.ok Sample.jan1, Sample.record "one");
                       (Sample.ok Sample.jan2, Sample.record "two")]) in
  running o = true /\
  f_data <$> (fs (world o) !! "app.log")
    = Some (Sample.line "zero" +:+ Sample.line "one" +:+ Sample.line "two") /\
  maxlines_curlines (writer o) = 2 /\ maxsize_cursize (writer o) = 8.
Proof.
  intros o.
  destruct (X17_records_in_order Sample.Format Sample.levelStrings
              [(Sample.ok Sample.jan1, Sample.record "one");
               (Sample.ok Sample.jan2, Sample.record "two")]
              (Sample.appWriter false false false 99 0 1)
              (Sample.liveOnly (Sample.line "zero"))
              (mkFileInfo (Sample.line "zero") Sample.jan1)
              ltac:(repeat split; cbn; lia) eq_refl
              ltac:(unfold is_int, int_min, int_max; cbn; lia)
              ltac:(unfold is_int, int_min, int_max; cbn; lia)
              ltac:(repeat constructor) eq_refl)
    as (H1 & _ & _ & H4 & _ & _ & H7 & H8).
  split; [exact H1|]. split; [exact H4|]. split; [exact H7 | exact H8].
Defined.

Lemma X18_loop_invariant_witness :
  let w0 := Sample.appWriter true false false 99 0 1 in
  let o := consume Sample.Format Sample.levelStrings w0 (Sample.liveOnly "x")
             [(Sample.ok Sample.jan1, Record_ (Sample.record "one"));
              (Sample.noOpen Sample.jan1, RotateSignal);
              (Sample.ok Sample.jan1, Record_ (Sample.record "late"))] in
  same_config w0 (writer o) /\
  (exists handled,
     [(Sample.ok Sample.jan1, Record_ (Sample.record "one"));
      (Sample.noOpen Sample.jan1, RotateSignal);
      (Sample.ok Sample.jan1, Record_ (Sample.record "late"))]
     = handled ++ unread o) /\
  (running o = true ->
   file (writer o) = OpenedFile /\ unread o = [] /\
   stderr (world o) = [] /\ is_Some (fs (world o) !! "app.log")) /\
  (running o = false ->
   file (writer o) = ClosedFile /\
   (stderr (world o) = [] \/
    exists e, stderr (world o) = [] ++ [("app.log", e)])).
Proof.
  exact (X18_loop_invariant Sample.Format Sample.levelStrings
           (Sample.appWriter true false false 99 0 1) (Sample.liveOnly "x")
           [(Sample.ok Sample.jan1, Record_ (Sample.record "one"));
            (Sample.noOpen Sample.jan1, RotateSignal);
            (Sample.ok Sample.jan1, Record_ (Sample.record "late"))]
           eq_refl (ex_intro _ (mkFileInfo "x" Sample.jan1) eq_refl)).
Defined.

Lemma X19_line_counter_bounded_witness :
  let o := consume Sample.Format Sample.levelStrings
             (Sample.appWriter true false false 99 2 1) (Sample.liveOnly "")
             [(Sample.ok Sample.jan1, Record_ (Sample.record "one"));
              (Sample.ok Sample.jan1, Record_ (Sample.record "two"));
              (Sample.ok Sample.jan1, Record_ (Sample.record "three"))] in
  0 <= maxlines_curlines (writer o) <= 2.
Proof.
  exact (X19_line_counter_bounded Sample.Format Sample.levelStrings
           (Sample.appWriter true false false 99 2 1) (Sample.liveOnly "")
           [(Sample.ok Sample.jan1, Record_ (Sample.record "one"));
            (Sample.ok Sample.jan1, Record_ (Sample.record "two"));
            (Sample.ok Sample.jan1, Record_ (Sample.record "three"))]
           ltac:(unfold int_max; cbn; lia) ltac:(cbn; lia)).
Defined.

Lemma X20_sequence_number_range_witness :
  match NewFileLogWriter Sample.Format Sample.levelStrings
          (Sample.ok Sample.jan1) (Sample.liveOnly "x") "app.log" true true 3
  with
  | (Some w, x1) =>
      let o := consume Sample.Format Sample.levelStrings w x1
                 [(Sample.ok Sample.jan1, RotateSignal);
                  (Sample.ok Sample.jan1, RotateSignal);
                  (Sample.ok Sample.jan1, RotateSignal)] in
      maxbackup (writer o) = 3 /\
      1 <= currbackup (writer o) <= Z.max 1 (maxbackup (writer o) - 1)
  | (None, _) => False
  end.
Proof.
  destruct (NewFileLogWriter Sample.Format Sample.levelStrings
              (Sample.ok Sample.jan1) (Sample.liveOnly "x") "app.log" true
              true 3) as [[w|] x1] eqn:E.
  - exact (X20_sequence_number_range Sample.Format Sample.levelStrings
             (Sample.ok Sample.jan1) (Sample.liveOnly "x") "app.log" true
             true 3 w x1
             [(Sample.ok Sample.jan1, RotateSignal);
              (Sample.ok Sample.jan1, RotateSignal);
              (Sample.ok Sample.jan1, RotateSignal)]
             ltac:(unfold int_max; cbn; lia) E).
  - vm_compute in E. discriminate E.
Defined.

Lemma X21_rotation_by_number_witness :
  let o := consume Sample.Format Sample.levelStrings
             (Sample.appWriter true false false 3 0 1)
             (Sample.liveAndBackup "live" "old")
             [(Sample.ok Sample.jan1, RotateSignal)] in
  running o = true /\
  f_data <$> (fs (world o) !! "app.log") = Some "" /\
  f_data <$> (fs (world o) !! "app.log.1") = Some "live" /\
  fs (world o) !! "app.log.2" = Some (mkFileInfo "old" Sample.jan1) /\
  fs (world o) !! "app.log.3" = None.
Proof.
  intros o.
  destruct (X21_rotation_by_number Sample.Format Sample.levelStrings
              (Sample.ok Sample.jan1)
              (Sample.appWriter true false false 3 0 1)
              (Sample.liveAndBackup "live" "old")
              (mkFileInfo "live" Sample.jan1)
              (fun _ _ => eq_refl) eq_refl eq_refl ltac:(discriminate)
              eq_refl eq_refl ltac:(unfold int_max; cbn; lia) eq_refl
              eq_refl)
    as (H1 & _ & H3 & H4 & H5 & H6 & _).
  split; [exact H1|]. split; [exact H3|]. split; [exact H4|].
  split; [exact (H5 1 ltac:(cbn; lia)) | exact H6].
Defined.

Lemma X22_close_writes_trailer_witness :
  let o := consume Sample.Format Sample.levelStrings
             (Sample.framedWriter false) (Sample.liveOnly "x")
             ([] ++ [(Sample.ok Sample.jan1, RecClosed);
                     (Sample.ok Sample.jan1,
                      Record_ (Sample.record "late"))]) in
  running o = false /\
  unread o = [(Sample.ok Sample.jan1, Record_ (Sample.record "late"))] /\
  file (writer o) = ClosedFile /\
  stderr (world o) = [] /\
  f_data <$> (fs (world o) !! "app.log") = Some ("x" +:+ Sample.line "bye").
Proof.
  intros o.
  destruct (X22_close_writes_trailer Sample.Format Sample.levelStrings
              (Sample.framedWriter false) (Sample.liveOnly "x") []
              (Sample.framedWriter false) (Sample.liveOnly "x")
              (Sample.ok Sample.jan1)
              [(Sample.ok Sample.jan1, Record_ (Sample.record "late"))]
              (mkFileInfo "x" Sample.jan1) eq_refl eq_refl eq_refl eq_refl)
    as (H1 & H2 & H3 & H4 & H5 & _).
  split; [exact H1|]. split; [exact H2|].
  split; [exact (f_equal file H3)|]. split; [exact H4 | exact H5].
Defined.

Lemma X23_write_failure_stops_witness :
  let w := Sample.appWriter false false false 99 0 1 in
  let o := consume Sample.Format Sample.levelStrings w (Sample.liveOnly "x")
             ([] ++ [(Sample.noWrite Sample.jan1,
                      Record_ (Sample.record "lost"));
                     (Sample.ok Sample.jan1,
                      Record_ (Sample.record "late"))]) in
  running o = false /\
  unread o = [(Sample.ok Sample.jan1, Record_ (Sample.record "late"))] /\
  writer o = set_file w ClosedFile /\
  fs (world o) = fs (Sample.liveOnly "x") /\
  stderr (world o) = [] ++ [("app.log", OSError (EWrite "app.log"))].
Proof.
  intros w.
  refine (X23_write_failure_stops Sample.Format Sample.levelStrings
            w (Sample.liveOnly "x") [] w (Sample.liveOnly "x")
            (Sample.noWrite Sample.jan1) (Sample.record "lost")
            [(Sample.ok Sample.jan1, Record_ (Sample.record "late"))]
            eq_refl _ eq_refl eq_refl).
  intros [[H _] | [[H _] | [H _]]]; cbn in H; [lia | lia | discriminate H].
Defined.

Lemma X24_refused_header_is_no_error_witness :
  exists w' x',
    intRotate Sample.Format Sample.levelStrings (Sample.noWrite Sample.jan1)
      (Sample.framedWriter false) (Sample.liveOnly "x") = (None, w', x') /\
    fs x' = fs (Sample.liveOnly "x") /\ stderr x' = [] /\
    file w' = OpenedFile /\
    maxlines_curlines w' = 0 /\ maxsize_cursize w' = 0.
Proof.
  exact (X24_refused_header_is_no_error Sample.Format Sample.levelStrings
           (Sample.noWrite Sample.jan1) (Sample.framedWriter false)
           (Sample.liveOnly "x") (mkFileInfo "x" Sample.jan1)
           eq_refl eq_refl eq_refl eq_refl ltac:(discriminate) eq_refl).
Defined.

Lemma X27_rotation_clears_triggers_witness :
  match intRotate Sample.Format Sample.levelStrings (Sample.ok Sample.jan2)
          (set_counts (Sample.appWriter true true false 99 2 1) 2 14)
          (Sample.liveOnly "x")
  with
  | (None, w', _) =>
      needRotate (Sample.ok Sample.jan2) w' = false /\
      ~ trigger (Sample.ok Sample.jan2) w'
  | (Some _, _, _) => False
  end.
Proof.
  destruct (intRotate Sample.Format Sample.levelStrings
              (Sample.ok Sample.jan2)
              (set_counts (Sample.appWriter true true false 99 2 1) 2 14)
              (Sample.liveOnly "x")) as [[[e|] w'] x'] eqn:E.
  - vm_compute in E. discriminate E.
  - exact (X27_rotation_clears_triggers Sample.Format Sample.levelStrings
             _ _ _ _ _ (Sample.ok Sample.jan2) E eq_refl).
Defined.

Lemma X28_rotation_every_n_lines_witness :
  let o := consume Sample.Format Sample.levelStrings
             (Sample.appWriter true false false 99 2 1) (Sample.liveOnly "")
             (records [(Sample.ok Sample.jan1, Sample.record "one");
                       (Sample.ok Sample.jan1, Sample.record "two")]
              ++ [(Sample.ok Sample.jan1, Record_ (Sample.record "three"))])
  in
  running o = true /\
  stderr (world o) = [] /\
  f_data <$> (fs (world o) !! "app.log.1")
    = Some (Sample.line "one" +:+ Sample.line "two") /\
  f_data <$> (fs (world o) !! "app.log") = Some (Sample.line "three") /\
  maxlines_curlines (writer o) = 1.
Proof.
  exact (X28_rotation_every_n_lines Sample.Format Sample.levelStrings
           [(Sample.ok Sample.jan1, Sample.record "one");
            (Sample.ok Sample.jan1, Sample.record "two")]
           (Sample.ok Sample.jan1) (Sample.record "three")
           (Sample.appWriter true false false 99 2 1) (Sample.liveOnly "")
           (mkFileInfo "" Sample.jan1)
           ltac:(unfold int_max; cbn; lia) eq_refl eq_refl
           ltac:(cbn; lia) eq_refl eq_refl
           ltac:(unfold int_max; cbn; lia) ltac:(discriminate) eq_refl
           ltac:(unfold is_int, int_min, int_max; cbn; lia)
           ltac:(repeat constructor) (fun _ _ => eq_refl) eq_refl eq_refl
           eq_refl).
Defined.

End FileSinkExtra.
